(** * casodepolicia: link cleaning and HTML file renaming

    A shallow embedding of the two scripts of the repository,
    [py_limpa_links.py] (class [LinkCleaner]) and
    [py_limpa_links-extensao.py] (class [FileRenamer]), together with the
    properties their specification states about them.

    Conventions of the embedding.
    - A Python [str] is a list of Unicode code points ([N]).
    - The Unicode tables consulted through [unicodedata], [re] and
      [str.lower] are an interface ([UnicodeData]); the laws of the
      interface are facts about Basic Latin that hold in every version of
      the Unicode Character Database.
    - [os.path] is [posixpath].
    - A path built as [folder_path / name] is represented by the name it
      normalises to (see [joinpath]).
    - [self.rename_map] is an insertion-ordered dictionary: an association
      list from old path to plan entry. *)

From Stdlib Require Import ZArith NArith Lia String Ascii DecimalString.
From stdpp Require Import base option list gmap.

Set Default Proof Using "Type".
Set Warnings "-register-all,-clear-no-such-hyp".

(* ===================================================================== *)
(** * Strings *)
(* ===================================================================== *)

Abbreviation codepoint := N.
Abbreviation str := (list N).

Abbreviation c_tab := 9%N.
Abbreviation c_space := 32%N.
Abbreviation c_dquote := 34%N.
Abbreviation c_percent := 37%N.
Abbreviation c_squote := 39%N.
Abbreviation c_hyphen := 45%N.
Abbreviation c_dot := 46%N.
Abbreviation c_slash := 47%N.
Abbreviation c_underscore := 95%N.
Abbreviation c_replacement := 65533%N.

Definition is_ascii (c : codepoint) : bool := (c <? 128)%N.
Definition is_upper (c : codepoint) : bool := (65 <=? c)%N && (c <=? 90)%N.
Definition is_lower (c : codepoint) : bool := (97 <=? c)%N && (c <=? 122)%N.
Definition is_digit (c : codepoint) : bool := (48 <=? c)%N && (c <=? 57)%N.
Definition is_hexdig (c : codepoint) : bool :=
  is_digit c || ((65 <=? c)%N && (c <=? 70)%N) || ((97 <=? c)%N && (c <=? 102)%N).

(** ASCII code points for which [str.isspace] holds (and which the [re]
    class [\s] matches): TAB, LF, VT, FF, CR, FS, GS, RS, US and SPACE. *)
Definition ascii_isspace (c : codepoint) : bool :=
  ((9 <=? c)%N && (c <=? 13)%N) || ((28 <=? c)%N && (c <=? 32)%N).

Definition ascii_lower (c : codepoint) : codepoint :=
  if is_upper c then (c + 32)%N else c.

(** ** UTF-8 decoding with [errors='replace']

    Used by [urllib.parse.unquote] and to read the string literals of this
    file. An ill-formed sequence is replaced, maximal subpart by maximal
    subpart, by U+FFFD. *)

Inductive utf8_state :=
| Utf8Start
| Utf8Cont (remaining : nat) (acc : N) (lo hi : N).

Definition utf8_lead (b : N) : list codepoint * utf8_state :=
  if (b <? 128)%N then ([b], Utf8Start)
  else if (194 <=? b)%N && (b <=? 223)%N then ([], Utf8Cont 1 (N.land b 31) 128 191)
  else if (b =? 224)%N then ([], Utf8Cont 2 (N.land b 15) 160 191)
  else if (b =? 237)%N then ([], Utf8Cont 2 (N.land b 15) 128 159)
  else if (225 <=? b)%N && (b <=? 239)%N then ([], Utf8Cont 2 (N.land b 15) 128 191)
  else if (b =? 240)%N then ([], Utf8Cont 3 (N.land b 7) 144 191)
  else if (241 <=? b)%N && (b <=? 243)%N then ([], Utf8Cont 3 (N.land b 7) 128 191)
  else if (b =? 244)%N then ([], Utf8Cont 3 (N.land b 7) 128 143)
  else ([c_replacement], Utf8Start).

Definition utf8_step (st : utf8_state) (b : N) : list codepoint * utf8_state :=
  match st with
  | Utf8Start => utf8_lead b
  | Utf8Cont n acc lo hi =>
      if (lo <=? b)%N && (b <=? hi)%N then
        let acc' := (acc * 64 + N.land b 63)%N in
        match n with
        | 0%nat | 1%nat => ([acc'], Utf8Start)
        | S n' => ([], Utf8Cont n' acc' 128 191)
        end
      else
        let '(out, st') := utf8_lead b in (c_replacement :: out, st')
  end.

Fixpoint utf8_run (st : utf8_state) (bs : list N) : list codepoint :=
  match bs with
  | [] => match st with Utf8Start => [] | Utf8Cont _ _ _ _ => [c_replacement] end
  | b :: bs' => let '(out, st') := utf8_step st b in out ++ utf8_run st' bs'
  end.

Definition utf8_decode (bs : list N) : str := utf8_run Utf8Start bs.

(** A string literal of this file, read as UTF-8 text. *)
Definition py (s : string) : str :=
  utf8_decode (List.map N_of_ascii (list_ascii_of_string s)).

(** ** Methods of [str] *)

(** [p.rfind(c)] for a one-character [c]: the highest index, or [-1]. *)
Fixpoint rfind_from (c : codepoint) (p : str) (i : Z) : Z :=
  match p with
  | [] => (-1)%Z
  | x :: p' =>
      let r := rfind_from c p' (i + 1)%Z in
      if (0 <=? r)%Z then r else if (x =? c)%N then i else (-1)%Z
  end.

Definition rfind (c : codepoint) (p : str) : Z := rfind_from c p 0%Z.

(** [p[:i]], [p[i:]] and [p[i:i+1]] for a non-negative index. *)
Definition slice_to (p : str) (i : Z) : str := take (Z.to_nat i) p.
Definition slice_from (p : str) (i : Z) : str := drop (Z.to_nat i) p.
Definition slice1 (p : str) (i : Z) : str := take 1 (drop (Z.to_nat i) p).

Fixpoint startswith (s pre : str) {struct pre} : bool :=
  match pre, s with
  | [], _ => true
  | _ :: _, [] => false
  | a :: pre', b :: s' => (a =? b)%N && startswith s' pre'
  end.

Definition endswith (s suf : str) : bool := startswith (rev s) (rev suf).

(** [sub in s]. *)
Fixpoint contains (sub s : str) : bool :=
  startswith s sub ||
  match s with
  | [] => false
  | _ :: s' => contains sub s'
  end.

(** [s.replace(old, new)]: the occurrences of [old] are found from left to
    right and do not overlap; [skip] counts the characters of a match that
    remain to be passed over. *)
Fixpoint replace_scan (old new : str) (skip : nat) (s : str) : str :=
  match s with
  | [] => []
  | c :: s' =>
      match skip with
      | S k => replace_scan old new k s'
      | O =>
          if startswith s old
          then new ++ replace_scan old new (length old - 1) s'
          else c :: replace_scan old new 0 s'
      end
  end.

Definition replace (old new s : str) : str :=
  match old with
  | [] => new ++ flat_map (fun c => c :: new) s
  | _ :: _ => replace_scan old new 0 s
  end.

Fixpoint lstrip (c : codepoint) (s : str) : str :=
  match s with
  | [] => []
  | x :: s' => if (x =? c)%N then lstrip c s' else s
  end.

Definition rstrip (c : codepoint) (s : str) : str := rev (lstrip c (rev s)).

(** [s.strip(c)] for a one-character argument. *)
Definition strip (c : codepoint) (s : str) : str := rstrip c (lstrip c s).

(** ** The regular expressions of the scripts *)

(** [re.sub(r'C+', repl, s)] for a character class [C]: every maximal run of
    characters of the class becomes one [repl]. *)
Fixpoint re_sub_runs_from (cls : codepoint -> bool) (repl : str)
    (in_run : bool) (s : str) : str :=
  match s with
  | [] => []
  | c :: s' =>
      if cls c then
        if in_run then re_sub_runs_from cls repl true s'
        else repl ++ re_sub_runs_from cls repl true s'
      else c :: re_sub_runs_from cls repl false s'
  end.

Definition re_sub_runs (cls : codepoint -> bool) (repl s : str) : str :=
  re_sub_runs_from cls repl false s.

(** [re.sub(r'[^K]', '', s)]: only the characters of [K] are kept. *)
Definition re_sub_outside (keep : codepoint -> bool) (s : str) : str :=
  List.filter keep s.

(** [[a-zA-Z0-9\-_]] *)
Definition filename_char (c : codepoint) : bool :=
  is_lower c || is_upper c || is_digit c || (c =? c_hyphen)%N || (c =? c_underscore)%N.

(** [[a-zA-Z0-9\-\._/]] *)
Definition url_char (c : codepoint) : bool :=
  filename_char c || (c =? c_dot)%N || (c =? c_slash)%N.

Definition is_hyphen (c : codepoint) : bool := (c =? c_hyphen)%N.

(** ** [os.path] *)

(** The loop of [genericpath._splitext] that skips the leading dots of the
    last path component. It returns at the first character that is not a
    dot; [fuel] bounds the number of iterations. *)
Fixpoint splitext_scan (p : str) (filenameIndex dotIndex : Z) (fuel : nat)
    : str * str :=
  match fuel with
  | O => (p, [])
  | S fuel' =>
      if (filenameIndex <? dotIndex)%Z then
        if negb (bool_decide (slice1 p filenameIndex = [c_dot]))
        then (slice_to p dotIndex, slice_from p dotIndex)
        else splitext_scan p (filenameIndex + 1)%Z dotIndex fuel'
      else (p, [])
  end.

(** [os.path.splitext(p)] *)
Definition splitext (p : str) : str * str :=
  let sepIndex := rfind c_slash p in
  let dotIndex := rfind c_dot p in
  if (dotIndex >? sepIndex)%Z
  then splitext_scan p (sepIndex + 1)%Z dotIndex (length p)
  else (p, []).

(** [os.path.basename(p)] *)
Definition basename (p : str) : str := slice_from p (rfind c_slash p + 1)%Z.

(* ===================================================================== *)
(** * Unicode data *)
(* ===================================================================== *)

(** What the scripts ask of the Unicode Character Database:
    - [decomposition c]: the full canonical decomposition of [c], as
      [unicodedata.normalize('NFD', _)] applies it;
    - [combining c]: [unicodedata.combining(c)], the canonical combining
      class;
    - [isspace c]: whether the [re] class [\s] matches [c];
    - [lower s]: [s.lower()]. *)
Class UnicodeData := {
  decomposition : codepoint -> str;
  combining : codepoint -> N;
  isspace : codepoint -> bool;
  lower : str -> str;
  decomposition_ascii : forall c, is_ascii c = true -> decomposition c = [c];
  combining_ascii : forall c, is_ascii c = true -> combining c = 0%N;
  isspace_ascii : forall c, is_ascii c = true -> isspace c = ascii_isspace c;
  lower_ascii : forall s,
    forallb is_ascii s = true -> lower s = List.map ascii_lower s
}.

Section Normalisation.
Context `{UnicodeData}.

(** Canonical ordering: a character with a non-zero combining class moves
    left past the characters of a higher class that precede it. The
    accumulator holds the output so far, last character first. *)
Fixpoint reorder_insert (c : codepoint) (acc_rev : str) : str :=
  match acc_rev with
  | [] => [c]
  | d :: rest =>
      if negb (combining c =? 0)%N && (combining c <? combining d)%N
      then d :: reorder_insert c rest
      else c :: acc_rev
  end.

Definition canonical_order (s : str) : str :=
  rev (fold_left (fun acc c => reorder_insert c acc) s []).

(** [unicodedata.normalize('NFD', text)] *)
Definition normalize_NFD (text : str) : str :=
  canonical_order (flat_map decomposition text).

End Normalisation.

(* ===================================================================== *)
(** * [urllib.parse.unquote] *)
(* ===================================================================== *)

Definition hex_value (c : codepoint) : N :=
  if is_digit c then (c - 48)%N
  else if (97 <=? c)%N then (c - 87)%N
  else (c - 55)%N.

(** [unquote_to_bytes] on an ASCII string: [%XY] with two hexadecimal
    digits is the byte [0xXY]; every other character stands for itself. *)
Fixpoint unquote_to_bytes (s : str) : list N :=
  match s with
  | [] => []
  | c :: s' =>
      if (c =? c_percent)%N then
        match s' with
        | a :: b :: s'' =>
            if is_hexdig a && is_hexdig b
            then (16 * hex_value a + hex_value b)%N :: unquote_to_bytes s''
            else c :: unquote_to_bytes s'
        | _ => c :: unquote_to_bytes s'
        end
      else c :: unquote_to_bytes s'
  end.

(** The body of [unquote] when the string holds a [%]: each maximal run of
    ASCII characters ([_asciire]) is unquoted to bytes and decoded as UTF-8
    with replacement; the other characters are copied. [run_rev] is the
    ASCII run read so far, last character first. *)
Fixpoint unquote_runs (run_rev : str) (s : str) : str :=
  match s with
  | [] => utf8_decode (unquote_to_bytes (rev run_rev))
  | c :: s' =>
      if is_ascii c then unquote_runs (c :: run_rev) s'
      else utf8_decode (unquote_to_bytes (rev run_rev)) ++ c :: unquote_runs [] s'
  end.

Definition unquote (s : str) : str :=
  if negb (existsb (N.eqb c_percent) s) then s else unquote_runs [] s.

(* ===================================================================== *)
(** * [LinkCleaner] (py_limpa_links.py) *)
(* ===================================================================== *)

Module LinkCleaner.
Section WithUnicode.
Context `{UnicodeData}.

Definition remove_accents (text : str) : str :=
  let nfd := normalize_NFD text in
  List.filter (fun c => (combining c =? 0)%N) nfd.

Definition clean_special_characters (text : str) : str :=
  let text := re_sub_runs isspace [c_hyphen] text in
  let text := re_sub_outside url_char text in
  let text := re_sub_runs is_hyphen [c_hyphen] text in
  let text := strip c_hyphen text in
  text.

Definition clean_url (url : str) : str :=
  let url := unquote url in
  let url := remove_accents url in
  let url := clean_special_characters url in
  let url := lower url in
  url.

End WithUnicode.
End LinkCleaner.

(* ===================================================================== *)
(** * [FileRenamer] (py_limpa_links-extensao.py): cleaning *)
(* ===================================================================== *)

Module FileRenamer.
Section WithUnicode.
Context `{UnicodeData}.

Definition remove_accents (text : str) : str :=
  let nfd := normalize_NFD text in
  let ascii_text := List.filter (fun c => (combining c =? 0)%N) nfd in
  ascii_text.

(** The six steps that [clean_filename] applies to the name part. *)
Definition clean_name (name : str) : str :=
  let name := remove_accents name in
  let name := re_sub_runs isspace [c_hyphen] name in
  let name := re_sub_outside filename_char name in
  let name := re_sub_runs is_hyphen [c_hyphen] name in
  let name := strip c_hyphen name in
  let name := lower name in
  name.

Definition clean_filename (filename : str) : str :=
  let '(name, ext) := splitext filename in
  clean_name name ++ ext.

End WithUnicode.
End FileRenamer.

(* ===================================================================== *)
(** * An excerpt of the Unicode Character Database *)
(* ===================================================================== *)

(** Basic Latin and Latin-1 Supplement, with the combining marks their
    decompositions use and the complete list of white space. It serves to
    evaluate the functions on concrete names; code points outside the
    excerpt are treated as starters without decomposition or case. *)
Module Latin1.

Definition base_letter (c : codepoint) : option (codepoint * codepoint) :=
  let up (b : N) (m : N) := Some (b, m) in
  if (192 <=? c)%N && (c <=? 197)%N then
    up 65%N (List.nth (N.to_nat (c - 192)) [768; 769; 770; 771; 776; 778]%N 0%N)
  else if (c =? 199)%N then up 67%N 807%N
  else if (200 <=? c)%N && (c <=? 203)%N then
    up 69%N (List.nth (N.to_nat (c - 200)) [768; 769; 770; 776]%N 0%N)
  else if (204 <=? c)%N && (c <=? 207)%N then
    up 73%N (List.nth (N.to_nat (c - 204)) [768; 769; 770; 776]%N 0%N)
  else if (c =? 209)%N then up 78%N 771%N
  else if (210 <=? c)%N && (c <=? 214)%N then
    up 79%N (List.nth (N.to_nat (c - 210)) [768; 769; 770; 771; 776]%N 0%N)
  else if (217 <=? c)%N && (c <=? 220)%N then
    up 85%N (List.nth (N.to_nat (c - 217)) [768; 769; 770; 776]%N 0%N)
  else if (c =? 221)%N then up 89%N 769%N
  else None.

Definition decomposition (c : codepoint) : str :=
  match base_letter c with
  | Some (b, m) => [b; m]
  | None =>
      if (c =? 255)%N then [121; 776]%N
      else match base_letter (c - 32)%N with
           | Some (b, m) => if (224 <=? c)%N then [(b + 32)%N; m] else [c]
           | None => [c]
           end
  end.

Definition combining (c : codepoint) : N :=
  if (768 <=? c)%N && (c <=? 788)%N then 230%N
  else if (807 <=? c)%N && (c <=? 808)%N then 202%N
  else 0%N.

Definition isspace (c : codepoint) : bool :=
  ascii_isspace c || (c =? 133)%N || (c =? 160)%N || (c =? 5760)%N
  || ((8192 <=? c)%N && (c <=? 8202)%N) || (c =? 8232)%N || (c =? 8233)%N
  || (c =? 8239)%N || (c =? 8287)%N || (c =? 12288)%N.

Definition lower_char (c : codepoint) : codepoint :=
  if is_upper c then (c + 32)%N
  else if (192 <=? c)%N && (c <=? 222)%N && negb (c =? 215)%N then (c + 32)%N
  else c.

Definition lower (s : str) : str := List.map lower_char s.

End Latin1.

(* ===================================================================== *)
(** * Files, documents and the libraries that parse them *)
(* ===================================================================== *)

(** ** The folder *)

(** A child of the folder: a regular file with its text, or a directory
    with the regular files directly inside it. *)
Inductive node :=
| File (data : str)
| Dir (children : gmap str str).

(** The operations that change the folder, as the scripts issue them. *)
Inductive fs_op :=
| OpMkdir (p : str)
| OpCopy (src : str) (dir : str) (name : str)
| OpRename (old new : str)
| OpWrite (p : str).

(** The folder [folder_path] (its children by name) and the journal of
    the changes made to it, oldest first. *)
Record world := World {
  disk : gmap str node;
  journal : list fs_op
}.

(** [folder_path / name] for a name without separator. [Path] drops an
    empty or [.] component, so both denote the folder itself, which is
    represented by the empty path. *)
Definition joinpath (name : str) : str :=
  if bool_decide (name = [c_dot]) then [] else name.

(** What a path denotes: the folder itself, its parent (both always
    present, both directories) or a child of the folder. *)
Definition stat (w : world) (p : str) : option node :=
  if bool_decide (p = []) || bool_decide (p = [c_dot; c_dot])
  then Some (Dir ∅)
  else disk w !! p.

(** [Path.exists()] *)
Definition path_exists (w : world) (p : str) : bool :=
  match stat w p with Some _ => true | None => false end.

Inductive exn :=
| FileExistsError
| IsADirectoryError
| NotADirectoryError
| FileNotFoundError
| ParseError
| ValueError
| EOFError.

(** The result of a call that may raise. *)
Inductive outcome (A : Type) :=
| Returned (a : A)
| Raised (e : exn).
Arguments Returned {A} a.
Arguments Raised {A} e.

(** [Path.mkdir(exist_ok=True)] on a child of the folder. *)
Definition mkdir_exist_ok (w : world) (p : str) : outcome world :=
  match disk w !! p with
  | None => Returned (World (<[p := Dir ∅]> (disk w)) (journal w ++ [OpMkdir p]))
  | Some (Dir _) => Returned w
  | Some (File _) => Raised FileExistsError
  end.

(** [shutil.copy2(src, dir / name)]: the regular file [src] is copied
    into the directory [dir] of the folder under [name]. *)
Definition copy2 (w : world) (src dir name : str) : outcome world :=
  match stat w src with
  | None => Raised FileNotFoundError
  | Some (Dir _) => Raised IsADirectoryError
  | Some (File data) =>
      match disk w !! dir with
      | Some (Dir children) =>
          Returned (World (<[dir := Dir (<[name := data]> children)]> (disk w))
                          (journal w ++ [OpCopy src dir name]))
      | Some (File _) => Raised NotADirectoryError
      | None => Raised FileNotFoundError
      end
  end.

(** [old.rename(new)] when [new] is [old] or does not exist (the only
    cases in which the script calls it). The folder itself and its parent
    cannot be moved below the folder. *)
Definition rename (w : world) (old new : str) : outcome world :=
  if bool_decide (old = new) then Returned w
  else if bool_decide (old = []) || bool_decide (old = [c_dot; c_dot])
  then Raised ValueError
  else match disk w !! old with
       | Some n => Returned (World (<[new := n]> (delete old (disk w)))
                                   (journal w ++ [OpRename old new]))
       | None => Raised FileNotFoundError
       end.

(** The text of the regular file [p] as it is stored, with no translation
    of line ends: what a reader that opens the file in binary mode gets, as
    [ET.parse(p)] does. *)
Definition read_file (w : world) (p : str) : outcome str :=
  match stat w p with
  | Some (File data) => Returned data
  | Some (Dir _) => Raised IsADirectoryError
  | None => Raised FileNotFoundError
  end.

(** The translation of line ends that a file opened in text mode applies
    when it is read: a carriage return followed by a line feed, and a
    carriage return alone, become one line feed. *)
Fixpoint universal_newlines (data : str) : str :=
  match data with
  | [] => []
  | c :: rest =>
      if (c =? 13)%N then
        match rest with
        | c' :: rest' =>
            if (c' =? 10)%N then 10%N :: universal_newlines rest'
            else 10%N :: universal_newlines rest
        | [] => [10%N]
        end
      else c :: universal_newlines rest
  end.

(** [open(p, 'r', encoding='utf-8').read()]: the stored text with its
    line ends translated. *)
Definition read_text (w : world) (p : str) : outcome str :=
  match read_file w p with
  | Returned data => Returned (universal_newlines data)
  | Raised e => Raised e
  end.

(** [open(p, 'w', encoding='utf-8').write(data)] on a child of the
    folder; a line feed is written as it is (POSIX). *)
Definition write_text (w : world) (p : str) (data : str) : outcome world :=
  match disk w !! p with
  | Some (Dir _) => Raised IsADirectoryError
  | _ => Returned (World (<[p := File data]> (disk w)) (journal w ++ [OpWrite p]))
  end.

(** [folder_path.glob('*.html')]: the names of the children that end in
    [.html]. The order is that of the directory listing, which nothing
    below depends on. *)
Definition glob_html (w : world) : list str :=
  List.filter (fun name => endswith name (py ".html"))
              (List.map fst (map_to_list (disk w))).

(** ** XML trees *)

(** An [xml.etree.ElementTree.Element]: its qualified tag
    ([{namespace}local] when it has a namespace), its text ([None] when
    it has none) and its children. Attributes and tails are not shown: the
    scripts neither read nor change them. *)
Inductive element :=
| Element (tag : str) (text : option str) (children : list element).

Definition tag_of (e : element) : str := let 'Element t _ _ := e in t.
Definition text_of (e : element) : option str := let 'Element _ x _ := e in x.
Definition children_of (e : element) : list element := let 'Element _ _ cs := e in cs.

(** The descendants of an element, in document order. *)
Fixpoint descendants (e : element) : list element :=
  let 'Element _ _ cs := e in
  flat_map (fun c => c :: descendants c) cs.

Definition sitemap_ns : str := py "http://www.sitemaps.org/schemas/sitemap/0.9".

(** The tag that [.//ns:loc] selects, and the tag that [.//loc] selects. *)
Definition ns_loc_tag : str := py "{" ++ sitemap_ns ++ py "}loc".
Definition loc_tag : str := py "loc".

(** [root.findall('.//T')] *)
Definition findall (tag : str) (root : element) : list element :=
  List.filter (fun e => bool_decide (tag_of e = tag)) (descendants root).

(** ** Third-party parsers *)

(** - [soup_a_hrefs content]: the [href] values of the elements that
      [BeautifulSoup(content, 'html.parser').find_all('a', href=True)]
      returns, in document order;
    - [urlparse_path url]: [urlparse(url).path], or [None] when
      [urlparse] raises;
    - [ET_parse data]: the root of [ET.parse] on a file that holds [data],
      or [None] when it raises;
    - [ET_tostring root]: what [tree.write(_, encoding='utf-8',
      xml_declaration=True)] writes for a tree of root [root]. *)
Class Parsers := {
  soup_a_hrefs : str -> list str;
  urlparse_path : str -> option str;
  ET_parse : str -> option element;
  ET_tostring : element -> str
}.

(** ** The order in which a set is iterated *)

(** A Python [set] of strings is iterated in the order of its hash table:
    that order depends on the hashes of the strings, which change from
    one process to the next, and not on the order in which the elements
    were added. [set_iter s] is the order in which the run at hand
    iterates the set whose elements are [s]: some permutation of them. *)
Class HashOrder := {
  set_iter : list str -> list str;
  set_iter_perm : forall s, set_iter s ≡ₚ s
}.

(* ===================================================================== *)
(** * [FileRenamer]: planning and applying the renames *)
(* ===================================================================== *)

Module Renamer.

(** A value of [self.rename_map]. *)
Record rename_info := RenameInfo {
  old_name : str;
  new_name : str;
  old_path : str;
  new_path : str;
  referenced : bool
}.

(** An element of the list [check_conflicts] returns. *)
Record conflict := Conflict {
  conflict_new_name : str;
  conflicting_files : list str
}.

(** An element of the list [perform_renames] returns. *)
Record renamed := Renamed {
  r_old : str;
  r_new : str;
  r_referenced : bool
}.

(** The messages appended to [self.errors], by the statement that
    appends them. *)
Inductive error :=
| ErrIndex (e : exn)              (* Erro ao processar index.html *)
| ErrSitemap (e : exn)            (* Erro ao processar sitemap.xml *)
| ErrNotFound (p : str)           (* Arquivo não encontrado *)
| ErrDestinationExists (p : str)  (* Arquivo de destino já existe *)
| ErrRename (name : str) (e : exn)(* Erro ao renomear *)
| ErrUpdateIndex (e : exn)        (* Erro ao atualizar index.html *)
| ErrUpdateSitemap (e : exn).     (* Erro ao atualizar sitemap.xml *)

(** The attributes of a [FileRenamer] that change during a run. *)
Record renamer := Self {
  html_files : list str;
  rename_map : list (str * rename_info);
  errors : list error
}.

Definition index_file : str := py "index.html".
Definition sitemap_file : str := py "sitemap.xml".
Definition backup_folder : str := py "backup_arquivos_originais".

(** ** Dictionaries and sets *)

(** [d[key] = value] on an insertion-ordered dictionary. *)
Fixpoint dict_set {V} (key : str) (value : V) (d : list (str * V)) : list (str * V) :=
  match d with
  | [] => [(key, value)]
  | (k, v) :: d' =>
      if bool_decide (k = key) then (k, value) :: d'
      else (k, v) :: dict_set key value d'
  end.

(** [key in d] *)
Definition dict_mem {V} (key : str) (d : list (str * V)) : bool :=
  existsb (fun kv => bool_decide (kv.1 = key)) d.

(** [s.add(x)] and [s.union(t)] on a set, held as the list of its
    elements without repetition. The order of that list is not the order
    in which the set is iterated, which is [set_iter] of the list. *)
Definition set_add (x : str) (s : list str) : list str :=
  if bool_decide (x ∈ s) then s else s ++ [x].

Definition set_union (s t : list str) : list str :=
  fold_left (fun acc x => set_add x acc) t s.

Section WithLibraries.
Context `{UnicodeData} `{Parsers} `{HashOrder}.

(** ** Scanning *)

(** The body of the loops of [extract_links_from_index] and
    [extract_links_from_sitemap] over the link texts found; the flag tells
    whether [urlparse] raised, which ends the loop. *)
Fixpoint collect_links (links : list str) (referenced_files : list str)
    : list str * option exn :=
  match links with
  | [] => (referenced_files, None)
  | href :: rest =>
      if negb (bool_decide (href = [])) && endswith href (py ".html") then
        match urlparse_path href with
        | None => (referenced_files, Some ValueError)
        | Some path =>
            let filename := basename path in
            if negb (bool_decide (filename = []))
               && negb (bool_decide (filename = index_file))
            then collect_links rest (set_add filename referenced_files)
            else collect_links rest referenced_files
        end
      else collect_links rest referenced_files
  end.

Definition record_error (self : renamer) (e : error) : renamer :=
  Self (html_files self) (rename_map self) (errors self ++ [e]).

Definition extract_links_from_index (w : world) (self : renamer)
    : list str * renamer :=
  if path_exists w index_file then
    match read_text w index_file with
    | Raised e => ([], record_error self (ErrIndex e))
    | Returned content =>
        match collect_links (soup_a_hrefs content) [] with
        | (referenced_files, None) => (referenced_files, self)
        | (referenced_files, Some e) =>
            (referenced_files, record_error self (ErrIndex e))
        end
    end
  else ([], self).

(** The texts of the elements a [findall] returned; an element without
    text contributes the empty text, which the loop skips. *)
Definition loc_texts (tag : str) (root : element) : list str :=
  List.map (fun e => default [] (text_of e)) (findall tag root).

Definition extract_links_from_sitemap (w : world) (self : renamer)
    : list str * renamer :=
  if path_exists w sitemap_file then
    match read_file w sitemap_file with
    | Raised e => ([], record_error self (ErrSitemap e))
    | Returned data =>
        match ET_parse data with
        | None => ([], record_error self (ErrSitemap ParseError))
        | Some root =>
            match collect_links (loc_texts ns_loc_tag root) [] with
            | (referenced_files, Some e) =>
                (referenced_files, record_error self (ErrSitemap e))
            | ([], None) =>
                match collect_links (loc_texts loc_tag root) [] with
                | (referenced_files, None) => (referenced_files, self)
                | (referenced_files, Some e) =>
                    (referenced_files, record_error self (ErrSitemap e))
                end
            | (referenced_files, None) => (referenced_files, self)
            end
        end
    end
  else ([], self).

Definition scan_html_files (w : world) (self : renamer) : renamer :=
  Self (html_files self
          ++ List.filter (fun name => negb (bool_decide (name = index_file)))
                         (glob_html w))
       (rename_map self) (errors self).

(** ** Planning *)

(** The first loop of [create_rename_map], over the referenced files. *)
Fixpoint plan_referenced (w : world) (all_referenced : list str)
    (rename_map : list (str * rename_info)) : list (str * rename_info) :=
  match all_referenced with
  | [] => rename_map
  | referenced_file :: rest =>
      let original_path := joinpath referenced_file in
      if path_exists w original_path then
        let cleaned_name := FileRenamer.clean_filename referenced_file in
        let new_path := joinpath cleaned_name in
        if negb (bool_decide (referenced_file = cleaned_name)) then
          plan_referenced w rest
            (dict_set original_path
               (RenameInfo referenced_file cleaned_name original_path new_path true)
               rename_map)
        else plan_referenced w rest rename_map
      else plan_referenced w rest rename_map
  end.

(** The second loop of [create_rename_map], over the physical files. *)
Fixpoint plan_physical (html_files : list str)
    (rename_map : list (str * rename_info)) : list (str * rename_info) :=
  match html_files with
  | [] => rename_map
  | file_path :: rest =>
      let current_name := file_path in
      let cleaned_name := FileRenamer.clean_filename current_name in
      if negb (bool_decide (current_name = cleaned_name))
         && negb (dict_mem file_path rename_map) then
        let new_path := joinpath cleaned_name in
        plan_physical rest
          (dict_set file_path
             (RenameInfo current_name cleaned_name file_path new_path false)
             rename_map)
      else plan_physical rest rename_map
  end.

Definition create_rename_map (w : world) (self : renamer) : renamer :=
  let '(referenced_from_index, self) := extract_links_from_index w self in
  let '(referenced_from_sitemap, self) := extract_links_from_sitemap w self in
  let all_referenced := set_union referenced_from_index referenced_from_sitemap in
  let self := scan_html_files w self in
  let rename_map := plan_referenced w (set_iter all_referenced) (rename_map self) in
  let rename_map := plan_physical (html_files self) rename_map in
  Self (html_files self) rename_map (errors self).

End WithLibraries.

(** ** Conflicts *)

(** The loop of [check_conflicts]; [new_names] maps a new name to the old
    name of the first entry that has it. *)
Fixpoint check_conflicts_loop (items : list (str * rename_info))
    (new_names : gmap str str) (conflicts : list conflict) : list conflict :=
  match items with
  | [] => conflicts
  | (_, rename_info) :: rest =>
      let new_name := new_name rename_info in
      match new_names !! new_name with
      | Some first =>
          check_conflicts_loop rest new_names
            (conflicts ++ [Conflict new_name [first; old_name rename_info]])
      | None =>
          check_conflicts_loop rest (<[new_name := old_name rename_info]> new_names)
            conflicts
      end
  end.

Definition check_conflicts (self : renamer) : list conflict :=
  check_conflicts_loop (rename_map self) ∅ [].

(** The decimal digits of [i], as [f"{i}"] prints them. *)
Definition format_int (i : nat) : str :=
  py (NilZero.string_of_uint (Nat.to_uint i)).

(** The innermost loop of [resolve_conflicts]: the first entry whose old
    name is [old_filename] gets [resolved_name]; then [break]. *)
Fixpoint resolve_entry (old_filename resolved_name : str)
    (rename_map : list (str * rename_info)) : list (str * rename_info) :=
  match rename_map with
  | [] => []
  | (old_path, rename_info) :: rest =>
      if bool_decide (old_name rename_info = old_filename) then
        (old_path,
         RenameInfo (old_name rename_info) resolved_name (Renamer.old_path rename_info)
                    (joinpath resolved_name) (referenced rename_info)) :: rest
      else (old_path, rename_info) :: resolve_entry old_filename resolved_name rest
  end.

(** [f"{name}-{i}{ext}"] *)
Definition resolved_name (name : str) (i : nat) (ext : str) : str :=
  name ++ [c_hyphen] ++ format_int i ++ ext.

(** The loop over [enumerate(conflicting_files[1:], 2)]; [i] is the
    current number. *)
Fixpoint resolve_files (name ext : str) (i : nat) (files : list str)
    (rename_map : list (str * rename_info)) : list (str * rename_info) :=
  match files with
  | [] => rename_map
  | old_filename :: rest =>
      resolve_files name ext (S i) rest
        (resolve_entry old_filename (resolved_name name i ext) rename_map)
  end.

Fixpoint resolve_conflicts_loop (conflicts : list conflict)
    (rename_map : list (str * rename_info)) : list (str * rename_info) :=
  match conflicts with
  | [] => rename_map
  | conflict :: rest =>
      let new_name := conflict_new_name conflict in
      let conflicting_files := conflicting_files conflict in
      let '(name, ext) := splitext new_name in
      resolve_conflicts_loop rest
        (resolve_files name ext 2 (drop 1 conflicting_files) rename_map)
  end.

Definition resolve_conflicts (self : renamer) (conflicts : list conflict) : renamer :=
  Self (html_files self) (resolve_conflicts_loop conflicts (rename_map self))
       (errors self).

(** ** Applying the plan *)

(** The body of the loop of [perform_renames] for one entry of the plan:
    the world, the renamer and [successful_renames] before and after. *)
Definition rename_step (backup : bool) (rename_info : rename_info)
    (st : world * renamer * list renamed) : world * renamer * list renamed :=
  let '(w, self, successful_renames) := st in
  let old_file := old_path rename_info in
  let new_file := new_path rename_info in
  if negb (path_exists w old_file) then
    (w, record_error self (ErrNotFound old_file), successful_renames)
  else if path_exists w new_file && negb (bool_decide (new_file = old_file)) then
    (w, record_error self (ErrDestinationExists new_file), successful_renames)
  else
    match (if backup then copy2 w old_file backup_folder old_file else Returned w) with
    | Raised e =>
        (w, record_error self (ErrRename (old_name rename_info) e), successful_renames)
    | Returned w1 =>
        match rename w1 old_file new_file with
        | Raised e =>
            (w1, record_error self (ErrRename (old_name rename_info) e),
             successful_renames)
        | Returned w2 =>
            (w2, self,
             successful_renames
               ++ [Renamed (old_name rename_info) (new_name rename_info)
                           (referenced rename_info)])
        end
    end.

(** [for old_path, rename_info in self.rename_map.items(): ...] *)
Definition rename_loop (backup : bool) (items : list (str * rename_info))
    (st : world * renamer * list renamed) : world * renamer * list renamed :=
  fold_left (fun st item => rename_step backup item.2 st) items st.

(** [perform_renames(backup)]. The value is [None] for the bare [return]
    of the empty plan; the call raises when [mkdir] does. *)
Definition perform_renames (backup : bool) (w : world) (self : renamer)
    : world * renamer * outcome (option (list renamed)) :=
  match rename_map self with
  | [] => (w, self, Returned None)
  | _ :: _ =>
      match (if backup then mkdir_exist_ok w backup_folder else Returned w) with
      | Raised e => (w, self, Raised e)
      | Returned w1 =>
          let '(w2, self2, successful_renames) :=
            rename_loop backup (rename_map self) (w1, self, []) in
          (w2, self2, Returned (Some successful_renames))
      end
  end.

(** ** Rewriting the references *)

(** [f'href="{name}"'] and [f"href='{name}'"] *)
Definition href_dq (name : str) : str := py "href=" ++ [c_dquote] ++ name ++ [c_dquote].
Definition href_sq (name : str) : str := py "href=" ++ [c_squote] ++ name ++ [c_squote].

(** One turn of the loop over [successful_renames] on the index text. *)
Definition rewrite_index_step (content : str) (rename : renamed) : str :=
  let content := replace (href_dq (r_old rename)) (href_dq (r_new rename)) content in
  let content := replace (href_sq (r_old rename)) (href_sq (r_new rename)) content in
  content.

Definition rewrite_index (successful_renames : list renamed) (content : str) : str :=
  fold_left rewrite_index_step successful_renames content.

(** One turn of the loop over [successful_renames] on the text of a
    location element, with the flag [updated]. *)
Definition rewrite_loc_step (st : str * bool) (rename : renamed) : str * bool :=
  let '(text, updated) := st in
  if contains (r_old rename) text
  then (replace (r_old rename) (r_new rename) text, true)
  else (text, updated).

Definition rewrite_loc_text (successful_renames : list renamed) (text : str)
    : str * bool :=
  fold_left rewrite_loc_step successful_renames (text, false).

(** What the loop [for url in root.findall('.//T')] does to an element
    and, through its children, to its descendants; the flag tells whether
    some text was replaced. Each turn changes the text of the element it
    visits and nothing else, so the loop is a map over the tree. *)
Fixpoint rewrite_element (tag : str) (successful_renames : list renamed)
    (e : element) : element * bool :=
  let 'Element t x cs := e in
  let '(x', u) :=
    if bool_decide (t = tag) then
      match x with
      | Some text =>
          if bool_decide (text = []) then (x, false)
          else let '(text', u) := rewrite_loc_text successful_renames text in
               (Some text', u)
      | None => (x, false)
      end
    else (x, false) in
  let rs := List.map (rewrite_element tag successful_renames) cs in
  (Element t x' (List.map fst rs), u || existsb snd rs).

Definition rewrite_locs (tag : str) (successful_renames : list renamed)
    (root : element) : element * bool :=
  let 'Element t x cs := root in
  let rs := List.map (rewrite_element tag successful_renames) cs in
  (Element t x (List.map fst rs), existsb snd rs).

(** The two loops of [update_references] over the sitemap tree. *)
Definition rewrite_sitemap (successful_renames : list renamed) (root : element)
    : element * bool :=
  let '(root, updated) := rewrite_locs ns_loc_tag successful_renames root in
  if negb updated then rewrite_locs loc_tag successful_renames root
  else (root, updated).

Section WithLibraries.
Context `{UnicodeData} `{Parsers} `{HashOrder}.

Definition update_index (successful_renames : list renamed) (w : world)
    (self : renamer) : world * renamer :=
  if path_exists w index_file then
    match read_text w index_file with
    | Raised e => (w, record_error self (ErrUpdateIndex e))
    | Returned content =>
        match write_text w index_file (rewrite_index successful_renames content) with
        | Raised e => (w, record_error self (ErrUpdateIndex e))
        | Returned w' => (w', self)
        end
    end
  else (w, self).

Definition update_sitemap (successful_renames : list renamed) (w : world)
    (self : renamer) : world * renamer :=
  if path_exists w sitemap_file then
    match read_file w sitemap_file with
    | Raised e => (w, record_error self (ErrUpdateSitemap e))
    | Returned data =>
        match ET_parse data with
        | None => (w, record_error self (ErrUpdateSitemap ParseError))
        | Some root =>
            let '(root, updated) := rewrite_sitemap successful_renames root in
            if updated then
              match write_text w sitemap_file (ET_tostring root) with
              | Raised e => (w, record_error self (ErrUpdateSitemap e))
              | Returned w' => (w', self)
              end
            else (w, self)
        end
    end
  else (w, self).

Definition update_references (successful_renames : list renamed) (w : world)
    (self : renamer) : world * renamer :=
  let '(w, self) := update_index successful_renames w self in
  update_sitemap successful_renames w self.

(** ** The whole run *)

(** [input(...)]: the next line of the standard input, or [EOFError]. *)
Definition input (stdin : list str) : outcome (str * list str) :=
  match stdin with
  | [] => Raised EOFError
  | line :: rest => Returned (line, rest)
  end.

(** [answer.lower() in ['s', 'sim', 'y', 'yes']] *)
Definition says_yes (answer : str) : bool :=
  bool_decide (lower answer ∈ [py "s"; py "sim"; py "y"; py "yes"]).

(** [conflicts = self.check_conflicts()] and, when there are any,
    [self.resolve_conflicts(conflicts)]. *)
Definition resolve_plan (self : renamer) : renamer :=
  let conflicts := check_conflicts self in
  match conflicts with
  | [] => self
  | _ :: _ => resolve_conflicts self conflicts
  end.

(** The first statements of [run()]: the plan is built, then its
    conflicts are detected and resolved. Nothing in the folder has changed
    at that point. *)
Definition planned (w : world) (self : renamer) : renamer :=
  resolve_plan (create_rename_map w self).

(** A new [FileRenamer], as [__init__] leaves it. *)
Definition init : renamer := Self [] [] [].

(** [run()]. [generate_report] only prints and is left out. The result is
    the world and the renamer at the end, and the exception if the run
    ended with one. *)
Definition run (stdin : list str) (w : world) (self : renamer)
    : world * renamer * option exn :=
  let self := planned w self in
  match rename_map self with
  | [] => (w, self, None)
  | _ :: _ =>
      match input stdin with
      | Raised e => (w, self, Some e)
      | Returned (proceed, stdin) =>
          if negb (says_yes proceed) then (w, self, None)
          else
            match input stdin with
            | Raised e => (w, self, Some e)
            | Returned (backup_choice, stdin) =>
                let create_backup := says_yes backup_choice in
                match perform_renames create_backup w self with
                | (w, self, Raised e) => (w, self, Some e)
                | (w, self, Returned successful_renames) =>
                    match successful_renames with
                    | Some (r :: rs) =>
                        match input stdin with
                        | Raised e => (w, self, Some e)
                        | Returned (update_refs, _) =>
                            if says_yes update_refs then
                              let '(w, self) := update_references (r :: rs) w self in
                              (w, self, None)
                            else (w, self, None)
                        end
                    | _ => (w, self, None)
                    end
                end
            end
      end
  end.

End WithLibraries.

End Renamer.

(* ===================================================================== *)
(** * Notions used to state the properties *)
(* ===================================================================== *)

(** The steps that [clean_filename] and [clean_url] share once the accents
    are removed, for the class [keep] of the characters that step three
    keeps. *)
Definition clean_steps `{UnicodeData} (keep : codepoint -> bool) (s : str) : str :=
  lower (strip c_hyphen
           (re_sub_runs is_hyphen [c_hyphen]
              (re_sub_outside keep (re_sub_runs isspace [c_hyphen] s)))).

(** The same steps with the tables of Basic Latin. *)
Definition clean_steps_ascii (keep : codepoint -> bool) (s : str) : str :=
  List.map ascii_lower
    (strip c_hyphen
       (re_sub_runs is_hyphen [c_hyphen]
          (re_sub_outside keep (re_sub_runs ascii_isspace [c_hyphen] s)))).

(** The form of a cleaned text: characters of [keep] other than capitals,
    no two hyphens in a row, no hyphen at either end. *)
Definition clean_form (keep : codepoint -> bool) (t : str) : Prop :=
  forallb (fun c => keep c && negb (is_upper c)) t = true
  /\ contains [c_hyphen; c_hyphen] t = false
  /\ startswith t [c_hyphen] = false
  /\ endswith t [c_hyphen] = false.

(** [[a-z0-9\-_]] *)
Definition stem_char (c : codepoint) : bool :=
  is_lower c || is_digit c || (c =? c_hyphen)%N || (c =? c_underscore)%N.

(** The split as the specification words it: at the last dot of the
    string, wherever that dot is. *)
Definition split_at_last_dot (s : str) : str * str :=
  let dotIndex := rfind c_dot s in
  if (0 <=? dotIndex)%Z then (slice_to s dotIndex, slice_from s dotIndex)
  else (s, []).

(** The name has an extension for [os.path.splitext]: its last dot lies
    in its last path component and comes after a character of that
    component that is not a dot. The name is then [a1 ++ y :: a2 ++ "." ++
    w], where [y] is that character, [a2] has no separator, and [w], the
    text after the last dot, has neither dot nor separator. *)
Definition has_extension (filename : str) : Prop :=
  exists a1 y a2 w,
    filename = a1 ++ y :: a2 ++ c_dot :: w
    /\ y ≠ c_dot /\ y ≠ c_slash /\ (c_slash ∉ a2) /\ (c_dot ∉ w) /\ (c_slash ∉ w).

(** The name [resolve_conflicts] gives to the second file of a conflict on
    [new_name]: [f"{name}-2{ext}"]. *)
Definition suffixed (new_name : str) : str :=
  let '(name, ext) := splitext new_name in
  Renamer.resolved_name name 2 ext.

(** An entry of the plan after [resolve_conflicts] gave it the name [r]. *)
Definition resolve_to (e : Renamer.rename_info) (r : str) : Renamer.rename_info :=
  Renamer.RenameInfo (Renamer.old_name e) r (Renamer.old_path e) (joinpath r)
                     (Renamer.referenced e).

Definition old_names (items : list (str * Renamer.rename_info)) : list str :=
  (fun item => Renamer.old_name item.2) <$> items.

Definition new_names (items : list (str * Renamer.rename_info)) : list str :=
  (fun item => Renamer.new_name item.2) <$> items.

(** The number of times [n] occurs in [l]. *)
Definition occurrences (n : str) (l : list str) : nat :=
  length (List.filter (fun x => bool_decide (x = n)) l).

(** The names that occur in [l] after an equal name. *)
Fixpoint later_duplicates (seen l : list str) : list str :=
  match l with
  | [] => []
  | n :: l' =>
      (if bool_decide (n ∈ seen) then [n] else []) ++ later_duplicates (n :: seen) l'
  end.

(** The set [all_referenced] of [create_rename_map]: the referenced
    files, each once. The order of the list is that of the model's sets
    and means nothing. *)
Definition all_referenced `{Parsers} (w : world) : list str :=
  Renamer.set_union (Renamer.extract_links_from_index w Renamer.init).1
                    (Renamer.extract_links_from_sitemap w Renamer.init).1.

(** The referenced files in the order in which the first loop of
    [create_rename_map] takes them: the order in which the run iterates
    the set. *)
Definition referenced_order `{Parsers} `{HashOrder} (w : world) : list str :=
  set_iter (all_referenced w).

(** The physical HTML files, as [scan_html_files] lists them. *)
Definition physical_files (w : world) : list str :=
  List.filter (fun name => negb (bool_decide (name = Renamer.index_file)))
              (glob_html w).

(** [p] is a directory of the folder. *)
Definition is_dir (w : world) (p : str) : Prop :=
  exists children, disk w !! p = Some (Dir children).

(** The renamer after the messages [errs] were appended to [self.errors]. *)
Definition with_errors (self : Renamer.renamer) (errs : list Renamer.error)
    : Renamer.renamer :=
  Renamer.Self (Renamer.html_files self) (Renamer.rename_map self)
               (Renamer.errors self ++ errs).

(** The element that a successful rename appends to the result. *)
Definition renamed_of (e : Renamer.rename_info) : Renamer.renamed :=
  Renamer.Renamed (Renamer.old_name e) (Renamer.new_name e) (Renamer.referenced e).

(** [sep.join(pieces)] *)
Fixpoint join (sep : str) (pieces : list str) : str :=
  match pieces with
  | [] => []
  | [u] => u
  | u :: rest => u ++ sep ++ join sep rest
  end.

(** The text of a location element after the loop over the successful
    renames; a missing or empty text is skipped. *)
Definition loc_text_after (renames : list Renamer.renamed) (text : option str)
    : option str :=
  match text with
  | Some t =>
      if bool_decide (t = []) then text
      else Some (Renamer.rewrite_loc_text renames t).1
  | None => None
  end.

(** Some turn of the loop over the renames replaces something in the
    text [t]: the old name of a rename occurs in the text as the renames
    before it left it. *)
Definition substituted (renames : list Renamer.renamed) (t : str) : Prop :=
  exists before r after,
    renames = before ++ r :: after
    /\ contains (Renamer.r_old r) (Renamer.rewrite_loc_text before t).1 = true.

(** A substitution occurs in the text of some location element of the
    tree. *)
Definition substitution_occurs (renames : list Renamer.renamed) (root : element)
    : Prop :=
  exists e t,
    e ∈ findall ns_loc_tag root ++ findall loc_tag root
    /\ text_of e = Some t /\ t ≠ [] /\ substituted renames t.

(** The loop over the renames changes the text of the element [e] of tag
    [tag]. *)
Definition touched (tag : str) (renames : list Renamer.renamed) (e : element) : Prop :=
  tag_of e = tag
  /\ exists t, text_of e = Some t /\ t ≠ [] /\ substituted renames t.

(** What the loop does to the text of one element of tag [t]. *)
Definition own_text (tag : str) (rs : list Renamer.renamed) (t : str) (x : option str)
    : option str * bool :=
  if bool_decide (t = tag) then
    match x with
    | Some text =>
        if bool_decide (text = []) then (x, false)
        else (Some (Renamer.rewrite_loc_text rs text).1, (Renamer.rewrite_loc_text rs text).2)
    | None => (x, false)
    end
  else (x, false).

(* ===================================================================== *)
(** * Concrete libraries and folders for the examples *)
(* ===================================================================== *)

(** What the third-party parsers return on simple documents, so that the
    functions can be evaluated on concrete folders:
    - [soup_a_hrefs], for a document whose only [href] attributes are
      those of its [a] elements, quoted and free of character references;
    - [urlparse_path], for [http] and [https] URLs and for relative
      references without a scheme;
    - [ET_parse], for the sitemap documents listed in [xml_documents];
    - [ET_tostring], for trees whose tags have the sitemap namespace or
      none (elements have neither attributes nor tails here). *)
Module Demo.

Fixpoint take_until (c : codepoint) (s : str) : str :=
  match s with
  | [] => []
  | x :: s' => if (x =? c)%N then [] else x :: take_until c s'
  end.

Fixpoint drop_until (c : codepoint) (s : str) : str :=
  match s with
  | [] => []
  | x :: s' => if (x =? c)%N then s else drop_until c s'
  end.

Fixpoint soup_a_hrefs (content : str) : list str :=
  match content with
  | [] => []
  | _ :: rest =>
      (if startswith content (py "href=" ++ [c_dquote])
       then [take_until c_dquote (drop 6 content)]
       else if startswith content (py "href=" ++ [c_squote])
       then [take_until c_squote (drop 6 content)]
       else [])
      ++ soup_a_hrefs rest
  end.

Definition urlparse_path (url : str) : option str :=
  let url := take_until 35%N url in
  let url := take_until 63%N url in
  if startswith url (py "http://") then Some (drop_until c_slash (drop 7 url))
  else if startswith url (py "https://") then Some (drop_until c_slash (drop 8 url))
  else Some url.

Definition in_sitemap_ns (tag : str) : bool :=
  startswith tag (py "{" ++ sitemap_ns ++ py "}").

(** The qualified name that [ElementTree] writes for a tag: the sitemap
    namespace, the first that the writer meets, gets the prefix [ns0]. *)
Definition qname (tag : str) : str :=
  if in_sitemap_ns tag then py "ns0:" ++ drop (length sitemap_ns + 2) tag else tag.

(** [_escape_cdata] *)
Definition escape_cdata (text : str) : str :=
  flat_map (fun c => if (c =? 38)%N then py "&amp;"
                     else if (c =? 60)%N then py "&lt;"
                     else if (c =? 62)%N then py "&gt;"
                     else [c]) text.

(** [_serialize_xml]: [decl] holds the namespace declarations, which are
    written on the root only; an element without text and without
    children is written as an empty-element tag. *)
Fixpoint serialize (decl : str) (e : element) {struct e} : str :=
  let 'Element tag text children := e in
  let text := default [] text in
  py "<" ++ qname tag ++ decl
  ++ (if bool_decide (text = []) && match children with [] => true | _ => false end
      then py " />"
      else py ">" ++ escape_cdata text
           ++ concat (List.map (serialize []) children)
           ++ py "</" ++ qname tag ++ py ">").

Definition ET_tostring (root : element) : str :=
  let decl :=
    if existsb in_sitemap_ns (tag_of root :: List.map tag_of (descendants root))
    then py " xmlns:ns0=" ++ [c_dquote] ++ sitemap_ns ++ [c_dquote]
    else [] in
  py "<?xml version='1.0' encoding='utf-8'?>" ++ [10%N] ++ serialize decl root.

(** A sitemap in the standard namespace with two locations. *)
Definition sitemap_text : str :=
  py "<urlset xmlns=" ++ [c_dquote] ++ sitemap_ns ++ [c_dquote] ++ py ">"
  ++ py "<url><loc>http://example.com/Página.html</loc></url>"
  ++ py "<url><loc>http://example.com/contato.html</loc></url></urlset>".

Definition ns_tag (name : string) : str := py "{" ++ sitemap_ns ++ py "}" ++ py name.

Definition sitemap_tree : element :=
  Element (ns_tag "urlset") None
    [ Element (ns_tag "url") None
        [Element (ns_tag "loc") (Some (py "http://example.com/Página.html")) []];
      Element (ns_tag "url") None
        [Element (ns_tag "loc") (Some (py "http://example.com/contato.html")) []] ].

(** A sitemap whose first location is in the standard namespace, bound to
    a prefix, and whose second location has no namespace. *)
Definition mixed_sitemap_text : str :=
  py "<urlset xmlns:s=" ++ [c_dquote] ++ sitemap_ns ++ [c_dquote] ++ py ">"
  ++ py "<s:url><s:loc>http://example.com/Página.html</s:loc></s:url>"
  ++ py "<url><loc>http://example.org/Página.html</loc></url></urlset>".

Definition mixed_sitemap_tree : element :=
  Element (py "urlset") None
    [ Element (ns_tag "url") None
        [Element (ns_tag "loc") (Some (py "http://example.com/Página.html")) []];
      Element (py "url") None
        [Element (py "loc") (Some (py "http://example.org/Página.html")) []] ].

(** A sitemap whose locations are already clean. *)
Definition clean_sitemap_text : str :=
  py "<urlset xmlns=" ++ [c_dquote] ++ sitemap_ns ++ [c_dquote] ++ py ">"
  ++ py "<url><loc>http://example.com/pagina.html</loc></url></urlset>".

Definition clean_sitemap_tree : element :=
  Element (ns_tag "urlset") None
    [ Element (ns_tag "url") None
        [Element (ns_tag "loc") (Some (py "http://example.com/pagina.html")) []] ].

Definition xml_documents : list (str * element) :=
  [ (sitemap_text, sitemap_tree);
    (mixed_sitemap_text, mixed_sitemap_tree);
    (clean_sitemap_text, clean_sitemap_tree) ].

Definition ET_parse (data : str) : option element :=
  snd <$> List.find (fun doc => bool_decide (doc.1 = data)) xml_documents.

(** An index page with a link to each of the given names. *)
Definition index_page (names : list str) : str :=
  py "<html><body>"
  ++ concat (List.map (fun name => py "<a " ++ Renamer.href_dq name ++ py ">x</a>") names)
  ++ py "</body></html>".

(** A folder with the given children and an empty journal. *)
Definition folder (children : list (str * node)) : world :=
  World (list_to_map children) [].

Definition page : node := File (py "<html></html>").

End Demo.

Lemma id_order_perm (s : list str) : s ≡ₚ s.
Proof. reflexivity. Qed.

Lemma rev_order_perm (s : list str) : rev s ≡ₚ s.
Proof. symmetry. apply Permutation_rev. Qed.

(** Two orders of iteration for the examples: the order of the model's
    lists, and the reverse order. *)
#[export] Instance list_order : HashOrder := {|
  set_iter := fun s => s;
  set_iter_perm := id_order_perm
|}.

Definition reverse_order : HashOrder := {|
  set_iter := @rev str;
  set_iter_perm := rev_order_perm
|}.

#[export] Instance demo_parsers : Parsers := {|
  soup_a_hrefs := Demo.soup_a_hrefs;
  urlparse_path := Demo.urlparse_path;
  ET_parse := Demo.ET_parse;
  ET_tostring := Demo.ET_tostring
|}.

(* ===================================================================== *)
(** * [LinkCleaner]: finding, reporting and rewriting the links *)
(* ===================================================================== *)

(** [os.listdir(folder_path)]: the names of the children of the folder. *)
Definition listdir (w : world) : list str := List.map fst (map_to_list (disk w)).

(** [str.strip()]: the white space at both ends is removed. *)
Fixpoint lstrip_space `{UnicodeData} (s : str) : str :=
  match s with
  | [] => []
  | x :: s' => if isspace x then lstrip_space s' else s
  end.

Definition strip_space `{UnicodeData} (s : str) : str :=
  rev (lstrip_space (rev (lstrip_space s))).

Module Cleaner.

(** The value under the key ['type'] of a link. *)
Inductive link_type := html_link | sitemap_url.

(** An element of [self.links_found]. *)
Record link := Link {
  found_original : str;
  found_file : str;
  found_type : link_type
}.

(** An element of [self.cleaned_links]. *)
Record cleaned_link := CleanedLink {
  original : str;
  cleaned : str;
  file : str;
  type : link_type;
  needs_update : bool
}.

(** The attributes of a [LinkCleaner] that change during a run. The paths
    of the folder are the names of its children: [os.path.join(folder_path,
    name)] is represented by [name]. *)
Record cleaner := Self {
  html_files : list str;
  links_found : list link;
  cleaned_links : list cleaned_link
}.

Definition index_file : str := py "index.html".
Definition sitemap_file : str := py "sitemap.xml".

(** A new [LinkCleaner], as [__init__] leaves it. *)
Definition init : cleaner := Self [] [] [].

(** [text and text.endswith('.html')] *)
Definition is_html_link (text : str) : bool :=
  negb (bool_decide (text = [])) && endswith text (py ".html").

Section WithLibraries.
Context `{UnicodeData} `{Parsers}.

(** [extract_links_from_html(html_file)]; an exception is printed and the
    links found so far, none at that point, are returned. *)
Definition extract_links_from_html (w : world) (html_file : str) : list link :=
  match read_text w html_file with
  | Raised _ => []
  | Returned content =>
      List.map (fun href => Link href html_file html_link)
               (List.filter is_html_link (soup_a_hrefs content))
  end.

(** One of the two loops of [extract_links_from_sitemap], over the texts
    of the elements that [findall] returned. *)
Definition sitemap_links (sitemap_file : str) (texts : list str) : list link :=
  List.map (fun text => Link text sitemap_file sitemap_url)
           (List.filter is_html_link texts).

Definition extract_links_from_sitemap (w : world) (sitemap_file : str) : list link :=
  match read_file w sitemap_file with
  | Raised _ => []
  | Returned data =>
      match ET_parse data with
      | None => []
      | Some root =>
          let links := sitemap_links sitemap_file (Renamer.loc_texts ns_loc_tag root) in
          match links with
          | [] => sitemap_links sitemap_file (Renamer.loc_texts loc_tag root)
          | _ :: _ => links
          end
      end
  end.

Definition scan_folder (w : world) (self : cleaner) : cleaner :=
  Self (html_files self
          ++ List.filter (fun file => endswith file (py ".html")) (listdir w))
       (links_found self) (cleaned_links self).

(** [self.links_found.extend(links)] *)
Definition extend (self : cleaner) (links : list link) : cleaner :=
  Self (html_files self) (links_found self ++ links) (cleaned_links self).

(** The element that the last loop of [process_all_links] appends for a
    link found. *)
Definition clean_link (link_data : link) : cleaned_link :=
  let original_url := found_original link_data in
  let cleaned_url := LinkCleaner.clean_url original_url in
  CleanedLink original_url cleaned_url (found_file link_data) (found_type link_data)
              (negb (bool_decide (original_url = cleaned_url))).

Definition process_all_links (w : world) (self : cleaner) : cleaner :=
  let self := scan_folder w self in
  let self :=
    if path_exists w index_file
    then extend self (extract_links_from_html w index_file) else self in
  let self :=
    if path_exists w sitemap_file
    then extend self (extract_links_from_sitemap w sitemap_file) else self in
  let self :=
    fold_left (fun self html_file =>
                 if negb (bool_decide (html_file = index_file))
                 then extend self (extract_links_from_html w html_file)
                 else self)
              (html_files self) self in
  fold_left (fun self link_data =>
               Self (html_files self) (links_found self)
                    (cleaned_links self ++ [clean_link link_data]))
            (links_found self) self.

(** ** The report file *)

Definition newline : str := [10%N].

(** [f"{link['type']}"] *)
Definition type_name (t : link_type) : str :=
  match t with
  | html_link => py "html_link"
  | sitemap_url => py "sitemap_url"
  end.

(** The five lines written for a link that needs an update. *)
Definition report_entry (link : cleaned_link) : str :=
  py "Arquivo: " ++ basename (file link) ++ newline
  ++ py "Tipo: " ++ type_name (type link) ++ newline
  ++ py "Original: " ++ original link ++ newline
  ++ py "Limpo: " ++ cleaned link ++ newline
  ++ replicate 30 c_hyphen ++ newline.

Definition report_text (cleaned_links : list cleaned_link) : str :=
  py "URLs ORIGINAIS -> URLs LIMPAS" ++ newline
  ++ replicate 50 61%N ++ newline ++ newline
  ++ flat_map (fun link => if needs_update link then report_entry link else [])
              cleaned_links.

(** [save_cleaned_urls_file(output_file)]; it raises when [open] does. *)
Definition save_cleaned_urls_file (w : world) (self : cleaner) (output_file : str)
    : outcome world :=
  write_text w output_file (report_text (cleaned_links self)).

(** ** Rewriting the files *)

(** [files_to_update[file_path].append(link)] *)
Fixpoint dict_append (file_path : str) (link : cleaned_link)
    (files_to_update : list (str * list cleaned_link))
    : list (str * list cleaned_link) :=
  match files_to_update with
  | [] => []
  | (k, links) :: rest =>
      if bool_decide (k = file_path) then (k, links ++ [link]) :: rest
      else (k, links) :: dict_append file_path link rest
  end.

(** One turn of the first loop of [update_files]. *)
Definition group_link (files_to_update : list (str * list cleaned_link))
    (link : cleaned_link) : list (str * list cleaned_link) :=
  if needs_update link then
    let file_path := file link in
    let files_to_update :=
      if negb (Renamer.dict_mem file_path files_to_update)
      then Renamer.dict_set file_path [] files_to_update
      else files_to_update in
    dict_append file_path link files_to_update
  else files_to_update.

(** [file_path + '.backup'] *)
Definition backup_path (file_path : str) : str := file_path ++ py ".backup".

(** [for link in links: content = content.replace(link['original'],
    link['cleaned'])] *)
Definition replace_links (links : list cleaned_link) (content : str) : str :=
  fold_left (fun content link => replace (original link) (cleaned link) content)
            links content.

(** One turn of the second loop of [update_files]: the body of the [try]
    for one file; an exception ends the turn with what was done so far. *)
Definition update_file (backup : bool) (w : world) (file_path : str)
    (links : list cleaned_link) : world :=
  match (if backup then
           match read_text w file_path with
           | Raised e => Raised e
           | Returned data => write_text w (backup_path file_path) data
           end
         else Returned w) with
  | Raised _ => w
  | Returned w1 =>
      match read_text w1 file_path with
      | Raised _ => w1
      | Returned content =>
          match write_text w1 file_path (replace_links links content) with
          | Raised _ => w1
          | Returned w2 => w2
          end
      end
  end.

Definition update_files (backup : bool) (w : world) (self : cleaner) : world :=
  let files_to_update := fold_left group_link (cleaned_links self) [] in
  fold_left (fun w item => update_file backup w item.1 item.2) files_to_update w.

(** ** The whole run *)

(** What the path that the user gives denotes. *)
Inductive target :=
| Missing
| NotAFolder
| Folder (w : world).

(** [main()]. [generate_report] only prints and is left out. The result
    is the folder that was processed, with its contents at the end, if
    there is one, and the exception if the run ended with one. *)
Definition main (stdin : list str) (getcwd : str) (lookup : str -> target)
    : option (str * world) * option exn :=
  match Renamer.input stdin with
  | Raised e => (None, Some e)
  | Returned (line, stdin) =>
      let pasta_atual := strip_space line in
      let pasta_atual := if bool_decide (pasta_atual = []) then getcwd else pasta_atual in
      match lookup pasta_atual with
      | Missing => (None, None)
      | NotAFolder => (None, Some NotADirectoryError)
      | Folder w =>
          let cleaner := process_all_links w init in
          match save_cleaned_urls_file w cleaner (py "urls_limpas.txt") with
          | Raised e => (Some (pasta_atual, w), Some e)
          | Returned w =>
              match Renamer.input stdin with
              | Raised e => (Some (pasta_atual, w), Some e)
              | Returned (update_choice, stdin) =>
                  if Renamer.says_yes update_choice then
                    match Renamer.input stdin with
                    | Raised e => (Some (pasta_atual, w), Some e)
                    | Returned (backup_choice, _) =>
                        let create_backup := Renamer.says_yes backup_choice in
                        (Some (pasta_atual, update_files create_backup w cleaner), None)
                    end
                  else (Some (pasta_atual, w), None)
              end
          end
      end
  end.

End WithLibraries.

End Cleaner.

(** The links of [cleaned_links] that [update_files] applies to the file
    [f]: those that need an update and were found in [f], in order. *)
Definition links_of (f : str) (cleaned_links : list Cleaner.cleaned_link)
    : list Cleaner.cleaned_link :=
  List.filter (fun l => Cleaner.needs_update l && bool_decide (Cleaner.file l = f))
              cleaned_links.
(* ===================================================================== *)
(** * Facts about strings *)
(* ===================================================================== *)

#[local] Arguments N.eqb : simpl never.
#[local] Arguments N.leb : simpl never.
#[local] Arguments N.ltb : simpl never.

(** Boolean tests on code points as linear arithmetic. *)
Ltac bool_prop :=
  rewrite ?orb_true_iff, ?andb_true_iff, ?negb_true_iff, ?orb_false_iff,
    ?andb_false_iff, ?negb_false_iff, ?N.leb_le, ?N.leb_gt, ?N.ltb_lt,
    ?N.ltb_ge, ?N.eqb_eq, ?N.eqb_neq in *.

Ltac bool_lia :=
  unfold ascii_lower, url_char in *; unfold filename_char in *;
  unfold is_ascii, is_upper, is_lower, is_digit, is_hyphen, ascii_isspace in *;
  intros; repeat (progress bool_prop); lia.

Lemma not_elem_of_existsb (c : codepoint) (s : str) :
  existsb (N.eqb c) s = false -> c ∉ s.
Proof.
  induction s as [|x s IH]; simpl; [intros _; apply not_elem_of_nil|].
  intros [Hx Hs]%orb_false_iff. apply N.eqb_neq in Hx.
  rewrite not_elem_of_cons. auto.
Qed.

Lemma startswith_spec (s pre : str) :
  startswith s pre = true <-> exists t, s = pre ++ t.
Proof.
  revert s. induction pre as [|a pre IH]; intros s; simpl.
  - split; [intros _; by exists s | done].
  - destruct s as [|b s].
    + split; [discriminate | intros [t Ht]; discriminate].
    + rewrite andb_true_iff, N.eqb_eq, IH. split.
      * intros [-> [t ->]]. eauto.
      * intros [t Ht]. injection Ht as -> ->. eauto.
Qed.

Lemma startswith_app (pre t : str) : startswith (pre ++ t) pre = true.
Proof. apply startswith_spec. eauto. Qed.

Lemma contains_spec (sub s : str) :
  contains sub s = true <-> exists u v, s = u ++ sub ++ v.
Proof.
  induction s as [|c s IH]; simpl.
  - rewrite orb_false_r, startswith_spec. split.
    + intros [t Ht]. exists [], t. done.
    + intros (u & v & Huv). symmetry in Huv.
      apply app_eq_nil in Huv as [-> Huv]. apply app_eq_nil in Huv as [-> ->].
      exists []. done.
  - rewrite orb_true_iff, startswith_spec, IH. split.
    + intros [[t Ht] | (u & v & ->)].
      * exists [], t. done.
      * exists (c :: u), v. done.
    + intros (u & v & Huv). destruct u as [|c' u]; simpl in Huv.
      * left. eauto.
      * right. injection Huv as -> ->. eauto.
Qed.

(** ** [rfind] *)

Lemma rfind_from_spec (c : codepoint) (p : str) (i : Z) :
  (0 <= i)%Z ->
  ((c ∉ p) /\ rfind_from c p i = (-1)%Z) \/
  (exists a w, p = a ++ c :: w /\ (c ∉ w) /\ rfind_from c p i = (i + Z.of_nat (length a))%Z).
Proof.
  revert i. induction p as [|x p IH]; intros i Hi; simpl.
  - left. split; [apply not_elem_of_nil | done].
  - destruct (IH (i + 1)%Z ltac:(lia)) as [[Hn ->] | (a & w & -> & Hw & ->)].
    + simpl. destruct (N.eqb_spec x c) as [-> | Hne].
      * right. exists [], p. split_and!; [done | done | simpl; lia].
      * left. split; [|done]. rewrite not_elem_of_cons. done.
    + right. exists (x :: a), w.
      replace (0 <=? i + 1 + Z.of_nat (length a))%Z with true
        by (symmetry; apply Z.leb_le; lia).
      split_and!; [done | done | simpl length; lia].
Qed.

Lemma rfind_absent (c : codepoint) (p : str) : c ∉ p -> rfind c p = (-1)%Z.
Proof.
  intros Hn. unfold rfind.
  destruct (rfind_from_spec c p 0 ltac:(lia)) as [[_ ->] | (a & w & -> & _ & _)]; [done|].
  exfalso. apply Hn. rewrite elem_of_app, elem_of_cons. auto.
Qed.

Lemma app_cons_last_unique (c : codepoint) (a a' w w' : str) :
  a ++ c :: w = a' ++ c :: w' -> c ∉ w -> c ∉ w' -> a = a' /\ w = w'.
Proof.
  revert a'. induction a as [|x a IH]; intros [|x' a'] Heq Hw Hw'; simpl in *.
  - injection Heq as ->. done.
  - injection Heq as Hx Hw2. subst. exfalso. apply Hw.
    rewrite elem_of_app, elem_of_cons. auto.
  - injection Heq as Hx Hw2. subst. exfalso. apply Hw'.
    rewrite elem_of_app, elem_of_cons. auto.
  - injection Heq as Hx Heq. subst x'. destruct (IH _ Heq Hw Hw') as [-> ->]. done.
Qed.

Lemma rfind_last (c : codepoint) (a w : str) :
  c ∉ w -> rfind c (a ++ c :: w) = Z.of_nat (length a).
Proof.
  intros Hw. unfold rfind.
  destruct (rfind_from_spec c (a ++ c :: w) 0 ltac:(lia))
    as [[Hn _] | (a' & w' & Heq & Hw' & ->)].
  - exfalso. apply Hn. rewrite elem_of_app, elem_of_cons. auto.
  - destruct (app_cons_last_unique _ _ _ _ _ Heq Hw Hw') as [-> _]. lia.
Qed.

Lemma rfind_cases (c : codepoint) (p : str) :
  ((c ∉ p) /\ rfind c p = (-1)%Z) \/
  (exists a w, p = a ++ c :: w /\ (c ∉ w) /\ rfind c p = Z.of_nat (length a)).
Proof.
  destruct (rfind_from_spec c p 0 ltac:(lia)) as [Hn | (a & w & Hp & Hw & Hr)].
  - by left.
  - right. exists a, w. split_and!; done.
Qed.

Lemma app_cons_later (x y : codepoint) (a w a' w' : str) :
  a ++ x :: w = a' ++ y :: w' -> length a' < length a -> x ∈ w'.
Proof.
  revert a. induction a' as [|z a' IH]; intros [|z' a] Heq Hlen; simpl in *; try lia.
  - injection Heq as _ <-. rewrite elem_of_app, elem_of_cons. auto.
  - injection Heq as _ Heq. apply (IH a Heq). lia.
Qed.

Lemma rfind_lt (c : codepoint) (a w : str) :
  c ∉ w -> (rfind c (a ++ w) < Z.of_nat (length a))%Z.
Proof.
  intros Hw. destruct (rfind_cases c (a ++ w)) as [[_ ->] | (a' & w' & Heq & Hw' & ->)]; [lia|].
  destruct (decide (length a' < length a)) as [|Hge]; [lia|]. exfalso.
  assert (Hl : (a ++ w) !! length a' = Some c) by (rewrite Heq; apply list_lookup_middle; done).
  rewrite lookup_app_r in Hl by lia.
  apply Hw. eapply list_elem_of_lookup_2. exact Hl.
Qed.

Lemma rfind_ge (c : codepoint) (a w : str) :
  c ∈ w -> (Z.of_nat (length a) <= rfind c (a ++ w))%Z.
Proof.
  intros Hw. destruct (rfind_cases c (a ++ w)) as [[Hn _] | (a' & w' & Heq & Hw' & ->)].
  - exfalso. apply Hn. rewrite elem_of_app. auto.
  - destruct (decide (length a' < length a)) as [Hlt|]; [|lia]. exfalso.
    apply list_elem_of_split in Hw as (w1 & w2 & ->).
    rewrite (assoc_L (++)) in Heq.
    apply Hw'. eapply app_cons_later; [exact Heq|]. rewrite length_app. lia.
Qed.

(** ** [os.path.splitext] *)

Lemma slice1_middle (a w : str) (x : codepoint) :
  slice1 (a ++ x :: w) (Z.of_nat (length a)) = [x].
Proof. unfold slice1. rewrite Nat2Z.id, drop_app_length. done. Qed.

Lemma splitext_scan_result (p : str) (i d : Z) (fuel : nat) :
  splitext_scan p i d fuel = (p, []) \/
  splitext_scan p i d fuel = (slice_to p d, slice_from p d).
Proof.
  revert i. induction fuel as [|fuel IH]; intros i; simpl; [by left|].
  destruct (i <? d)%Z; [|by left].
  destruct (negb _); [by right | apply IH].
Qed.

Lemma splitext_scan_found (p : str) (i d k : Z) (fuel : nat) :
  (i <= k < d)%Z -> slice1 p k ≠ [c_dot] -> (d - i <= Z.of_nat fuel)%Z ->
  splitext_scan p i d fuel = (slice_to p d, slice_from p d).
Proof.
  revert i. induction fuel as [|fuel IH]; intros i Hk Hne Hfuel; simpl; [lia|].
  destruct (Z.ltb_spec i d); [|lia].
  destruct (decide (slice1 p i = [c_dot])) as [Hd | Hd].
  - rewrite (bool_decide_eq_true_2 _ Hd). simpl. apply IH; [|done|lia].
    destruct (decide (i = k)) as [-> |]; [done | lia].
  - rewrite (bool_decide_eq_false_2 _ Hd). done.
Qed.

Lemma splitext_scan_dots (p : str) (i d : Z) (fuel : nat) :
  (forall j, (i <= j < d)%Z -> slice1 p j = [c_dot]) ->
  splitext_scan p i d fuel = (p, []).
Proof.
  revert i. induction fuel as [|fuel IH]; intros i Hdots; simpl; [done|].
  destruct (Z.ltb_spec i d); [|done].
  rewrite (bool_decide_eq_true_2 _ (Hdots i ltac:(lia))). simpl.
  apply IH. intros j Hj. apply Hdots. lia.
Qed.

(** The extension starts at the last dot when a character other than a
    dot precedes that dot in the last path component. *)
Lemma splitext_ext (a1 a2 w : str) (y : codepoint) :
  y ≠ c_dot -> y ≠ c_slash -> c_slash ∉ a2 -> c_dot ∉ w -> c_slash ∉ w ->
  splitext (a1 ++ y :: a2 ++ c_dot :: w) = (a1 ++ y :: a2, c_dot :: w).
Proof.
  intros Hy1 Hy2 Ha2 Hw1 Hw2. unfold splitext.
  set (p := a1 ++ y :: a2 ++ c_dot :: w).
  assert (Hp : p = (a1 ++ y :: a2) ++ c_dot :: w)
    by (unfold p; rewrite <- (assoc_L (++)); done).
  assert (Hdot : rfind c_dot p = Z.of_nat (length (a1 ++ y :: a2)))
    by (rewrite Hp; apply rfind_last; done).
  assert (Hsep : (rfind c_slash p < Z.of_nat (length a1))%Z).
  { apply rfind_lt. rewrite not_elem_of_cons, not_elem_of_app, not_elem_of_cons.
    split_and!; try done. }
  assert (Hsep' : (-1 <= rfind c_slash p)%Z).
  { destruct (rfind_cases c_slash p) as [[_ ->] | (? & ? & _ & _ & ->)]; lia. }
  rewrite Hdot, length_app in *. simpl length in *.
  destruct (Z.gtb_spec (Z.of_nat (length a1 + S (length a2))) (rfind c_slash p)); [|lia].
  rewrite (splitext_scan_found _ _ _ (Z.of_nat (length a1))).
  - unfold slice_to, slice_from. rewrite Nat2Z.id, Hp.
    replace (length a1 + S (length a2)) with (length (a1 ++ y :: a2))
      by (rewrite length_app; done).
    rewrite take_app_length, drop_app_length. done.
  - lia.
  - unfold p. rewrite slice1_middle. congruence.
  - subst p. rewrite !length_app. simpl. rewrite length_app. simpl. lia.
Qed.

Lemma splitext_no_dot (p : str) : c_dot ∉ p -> splitext p = (p, []).
Proof.
  intros Hn. unfold splitext. rewrite (rfind_absent c_dot p Hn).
  destruct (Z.gtb_spec (-1) (rfind c_slash p)) as [Hgt|]; [|done].
  destruct (rfind_cases c_slash p) as [[_ Hr] | (? & ? & _ & _ & Hr)];
    rewrite Hr in Hgt; lia.
Qed.

(** A name whose only dot is its first character has no extension. *)
Lemma splitext_leading_dot (w : str) :
  c_dot ∉ w -> splitext (c_dot :: w) = (c_dot :: w, []).
Proof.
  intros Hw. unfold splitext.
  pose proof (rfind_last c_dot [] w Hw) as Hd. simpl in Hd. rewrite Hd.
  destruct (Z.gtb_spec (Z.of_nat 0) (rfind c_slash (c_dot :: w))); [|done].
  apply splitext_scan_dots. intros j Hj.
  destruct (rfind_cases c_slash (c_dot :: w)) as [[_ Hr] | (? & ? & _ & _ & Hr)];
    rewrite Hr in Hj; lia.
Qed.

(** In every case the two parts make up the path, and the extension is
    empty or runs from the last dot of the path, with no separator in
    it. *)
Lemma splitext_cases (p : str) :
  splitext p = (p, []) \/
  exists a w, p = a ++ c_dot :: w /\ (c_dot ∉ w) /\ (c_slash ∉ w) /\
              splitext p = (a, c_dot :: w).
Proof.
  unfold splitext.
  destruct (Z.gtb_spec (rfind c_dot p) (rfind c_slash p)) as [Hgt|]; [|by left].
  destruct (splitext_scan_result p (rfind c_slash p + 1) (rfind c_dot p) (length p))
    as [-> | ->]; [by left|].
  right.
  destruct (rfind_cases c_dot p) as [[_ Hr] | (a & w & -> & Hw & Hr)].
  - destruct (rfind_cases c_slash p) as [[_ Hs] | (? & ? & _ & _ & Hs)];
      rewrite Hr, Hs in Hgt; lia.
  - exists a, w. rewrite Hr. unfold slice_to, slice_from.
    rewrite Nat2Z.id, take_app_length, drop_app_length. split_and!; try done.
    intros Hin. rewrite Hr in Hgt.
    pose proof (rfind_ge c_slash (a ++ [c_dot]) w Hin) as Hge.
    rewrite <- (assoc_L (++)), length_app in Hge. simpl in Hge. lia.
Qed.

Lemma splitext_app (p : str) : (splitext p).1 ++ (splitext p).2 = p.
Proof.
  destruct (splitext_cases p) as [-> | (a & w & Hp & _ & _ & ->)]; simpl.
  - apply app_nil_r.
  - done.
Qed.

(** ** When [os.path.splitext] finds an extension *)

Lemma splitext_all_dots (pre comp w : str) :
  pre = [] \/ (exists pre', pre = pre' ++ [c_slash]) ->
  Forall (fun c => c = c_dot) comp -> c_dot ∉ w -> c_slash ∉ w ->
  splitext (pre ++ comp ++ c_dot :: w) = (pre ++ comp ++ c_dot :: w, []).
Proof.
  intros Hpre Hcomp Hw1 Hw2. unfold splitext.
  set (p := pre ++ comp ++ c_dot :: w).
  assert (Hp : p = (pre ++ comp) ++ c_dot :: w)
    by (unfold p; by rewrite <- (assoc_L (++))).
  assert (Hdot : rfind c_dot p = Z.of_nat (length (pre ++ comp)))
    by (rewrite Hp; apply rfind_last; done).
  assert (Hno : c_slash ∉ comp ++ c_dot :: w).
  { rewrite not_elem_of_app, not_elem_of_cons. split_and!; [|done|done].
    intros Hin. rewrite Forall_forall in Hcomp. by specialize (Hcomp _ Hin). }
  assert (Hsep : (rfind c_slash p + 1 = Z.of_nat (length pre))%Z).
  { destruct Hpre as [-> | [pre' ->]].
    - unfold p. simpl. rewrite rfind_absent by done. done.
    - unfold p. rewrite <- (assoc_L (++)). simpl.
      rewrite rfind_last by done. rewrite length_app. simpl. lia. }
  rewrite Hdot.
  destruct (_ >? _)%Z; [|done].
  apply splitext_scan_dots. intros j Hj. rewrite Hsep, length_app in Hj.
  assert (Hk : exists k, j = Z.of_nat (length pre + k) /\ k < length comp).
  { exists (Z.to_nat j - length pre). lia. }
  destruct Hk as (k & -> & Hk).
  destruct (lookup_lt_is_Some_2 comp k Hk) as [x Hx].
  assert (x = c_dot) as ->.
  { rewrite Forall_forall in Hcomp. apply Hcomp. by eapply list_elem_of_lookup_2. }
  pose proof (take_drop_middle comp k c_dot Hx) as Hsplit.
  assert (Hp' : p = (pre ++ take k comp) ++ c_dot :: (drop (S k) comp ++ c_dot :: w)).
  { unfold p. rewrite <- Hsplit at 1. by rewrite <- !(assoc_L (++)). }
  rewrite Hp'.
  replace (length pre + k) with (length (pre ++ take k comp)).
  - apply slice1_middle.
  - rewrite length_app, length_take. lia.
Qed.

(** An extension that is not empty comes with a character other than a
    dot before the last dot, in the last path component. *)
Lemma splitext_ext_inv (p a e : str) :
  splitext p = (a, e) -> e ≠ [] -> has_extension p.
Proof.
  intros Hsplit He.
  destruct (splitext_cases p) as [Hnone | (a' & w & Hp & Hw1 & Hw2 & Hext)];
    [congruence|].
  assert (Hdec : exists pre comp,
            a' = pre ++ comp /\ (pre = [] \/ exists pre', pre = pre' ++ [c_slash])
            /\ (c_slash ∉ comp)).
  { destruct (rfind_cases c_slash a') as [[Hn _] | (pre' & comp & -> & Hc & _)].
    - exists [], a'. split_and!; [done | by left | done].
    - exists (pre' ++ [c_slash]), comp. split_and!; [|right; by exists pre'|done].
      by rewrite <- (assoc_L (++)). }
  destruct Hdec as (pre & comp & -> & Hpre & Hcomp).
  destruct (decide (Forall (fun c => c = c_dot) comp)) as [Hall | Hnot].
  - exfalso. rewrite Hp, <- (assoc_L (++)) in Hext.
    rewrite (splitext_all_dots pre comp w Hpre Hall Hw1 Hw2) in Hext.
    injection Hext as _ Hext. discriminate.
  - apply not_Forall_Exists in Hnot; [|apply _].
    apply Exists_exists in Hnot as (y & Hy & Hdot).
    apply list_elem_of_split in Hy as (c1 & c2 & ->).
    exists (pre ++ c1), y, c2, w.
    rewrite not_elem_of_app, not_elem_of_cons in Hcomp.
    destruct Hcomp as (Hc1 & Hys & Hc2).
    split_and!; try done.
    rewrite Hp, <- !(assoc_L (++)). done.
Qed.

(** The two cases of [os.path.splitext]. *)
Lemma splitext_iff (p : str) :
  (has_extension p -> exists a w, p = a ++ c_dot :: w /\ (c_dot ∉ w)
                                  /\ splitext p = (a, c_dot :: w))
  /\ (~ has_extension p -> splitext p = (p, [])).
Proof.
  split.
  - intros (a1 & y & a2 & w & -> & Hy1 & Hy2 & Ha2 & Hw1 & Hw2).
    exists (a1 ++ y :: a2), w. split_and!; [|done|by apply splitext_ext].
    by rewrite <- (assoc_L (++)).
  - intros Hno. destruct (splitext p) as [a e] eqn:Hs.
    destruct e as [|c e].
    + pose proof (splitext_app p) as Happ. rewrite Hs in Happ. simpl in Happ.
      rewrite app_nil_r in Happ. by rewrite Happ.
    + exfalso. apply Hno. by apply (splitext_ext_inv p a (c :: e)).
Qed.

(** ** [strip] *)

Lemma lstrip_no_head (c : codepoint) (s : str) : startswith (lstrip c s) [c] = false.
Proof.
  induction s as [|x s IH]; simpl; [done|].
  destruct (N.eqb_spec x c) as [-> | Hne]; [done|]. simpl.
  rewrite andb_true_r. apply N.eqb_neq. congruence.
Qed.

Lemma lstrip_suffix (c : codepoint) (s : str) : exists x, s = x ++ lstrip c s.
Proof.
  induction s as [|y s [x IH]]; simpl; [by exists []|].
  destruct (y =? c)%N; [exists (y :: x); simpl; congruence | by exists []].
Qed.

Lemma lstrip_id (c : codepoint) (s : str) : startswith s [c] = false -> lstrip c s = s.
Proof.
  destruct s as [|x s]; simpl; [done|]. rewrite andb_true_r, N.eqb_sym.
  intros ->. done.
Qed.

Lemma rstrip_no_last (c : codepoint) (s : str) : endswith (rstrip c s) [c] = false.
Proof. unfold endswith, rstrip. rewrite rev_involutive. apply lstrip_no_head. Qed.

Lemma rstrip_prefix (c : codepoint) (s : str) : exists y, s = rstrip c s ++ y.
Proof.
  unfold rstrip. destruct (lstrip_suffix c (rev s)) as [x Hx].
  exists (rev x). rewrite <- rev_app_distr, <- Hx, rev_involutive. done.
Qed.

Lemma rstrip_id (c : codepoint) (s : str) : endswith s [c] = false -> rstrip c s = s.
Proof.
  unfold endswith, rstrip. simpl. intros Hs. rewrite lstrip_id by done.
  apply rev_involutive.
Qed.

Lemma strip_no_last (c : codepoint) (s : str) : endswith (strip c s) [c] = false.
Proof. apply rstrip_no_last. Qed.

Lemma strip_no_head (c : codepoint) (s : str) : startswith (strip c s) [c] = false.
Proof.
  unfold strip. pose proof (lstrip_no_head c s) as Hu.
  destruct (rstrip_prefix c (lstrip c s)) as [y Hy].
  destruct (rstrip c (lstrip c s)) as [|x t]; [done|].
  rewrite Hy in Hu. exact Hu.
Qed.

Lemma strip_infix (c : codepoint) (s : str) : exists x y, s = x ++ strip c s ++ y.
Proof.
  destruct (lstrip_suffix c s) as [x Hx].
  destruct (rstrip_prefix c (lstrip c s)) as [y Hy].
  exists x, y. unfold strip. rewrite <- Hy. done.
Qed.

Lemma strip_id (c : codepoint) (s : str) :
  startswith s [c] = false -> endswith s [c] = false -> strip c s = s.
Proof. intros H1 H2. unfold strip. rewrite lstrip_id by done. by apply rstrip_id. Qed.

Lemma contains_false_infix (sub x t y : str) :
  contains sub (x ++ t ++ y) = false -> contains sub t = false.
Proof.
  intros Hs. destruct (contains sub t) eqn:Ht; [|done].
  apply contains_spec in Ht as (u & v & ->).
  rewrite <- Hs. symmetry. apply contains_spec.
  exists (x ++ u), (v ++ y). rewrite <- !(assoc_L (++)). done.
Qed.

Lemma forallb_infix (P : codepoint -> bool) (x t y : str) :
  forallb P (x ++ t ++ y) = true -> forallb P t = true.
Proof.
  rewrite !forallb_app, !andb_true_iff. tauto.
Qed.

(** ** [re.sub] *)

Lemma filter_forallb (keep : codepoint -> bool) (s : str) :
  forallb keep (List.filter keep s) = true.
Proof.
  induction s as [|c s IH]; simpl; [done|].
  destruct (keep c) eqn:Hc; simpl; [rewrite Hc|]; done.
Qed.

Lemma filter_id (keep : codepoint -> bool) (s : str) :
  forallb keep s = true -> List.filter keep s = s.
Proof.
  induction s as [|c s IH]; simpl; [done|].
  intros [-> Hs]%andb_true_iff. rewrite IH; done.
Qed.

Lemma forallb_impl (P Q : codepoint -> bool) (s : str) :
  (forall c, P c = true -> Q c = true) -> forallb P s = true -> forallb Q s = true.
Proof.
  intros HPQ. induction s as [|c s IH]; simpl; [done|].
  intros [Hc Hs]%andb_true_iff. rewrite (HPQ c Hc), IH; done.
Qed.

Lemma re_sub_runs_from_none (cls : codepoint -> bool) (repl : str) (b : bool) (s : str) :
  forallb (fun c => negb (cls c)) s = true -> re_sub_runs_from cls repl b s = s.
Proof.
  revert b. induction s as [|c s IH]; intros b; simpl; [done|].
  intros [Hc Hs]%andb_true_iff. apply negb_true_iff in Hc. rewrite Hc, IH; done.
Qed.

Lemma is_hyphen_eq (c : codepoint) : is_hyphen c = true -> c = c_hyphen.
Proof. unfold is_hyphen. apply N.eqb_eq. Qed.

Lemma collapse_forallb (P : codepoint -> bool) (b : bool) (s : str) :
  forallb P s = true ->
  forallb P (re_sub_runs_from is_hyphen [c_hyphen] b s) = true.
Proof.
  revert b. induction s as [|c s IH]; intros b; simpl; [done|].
  intros [Hc Hs]%andb_true_iff.
  destruct (is_hyphen c) eqn:Hh.
  - apply is_hyphen_eq in Hh as ->. destruct b; simpl; rewrite ?Hc; simpl; auto.
  - simpl. rewrite Hc. simpl. auto.
Qed.

Lemma collapse_no_double (b : bool) (s : str) :
  contains [c_hyphen; c_hyphen] (re_sub_runs_from is_hyphen [c_hyphen] b s) = false
  /\ (b = true -> startswith (re_sub_runs_from is_hyphen [c_hyphen] b s) [c_hyphen] = false).
Proof.
  revert b. induction s as [|c s IH]; intros b; simpl; [done|].
  destruct (is_hyphen c) eqn:Hh.
  - destruct b.
    + apply IH.
    + split; [|done]. destruct (IH true) as [IH1 IH2]. specialize (IH2 eq_refl).
      simpl. rewrite IH1, orb_false_r.
      destruct (re_sub_runs_from is_hyphen [c_hyphen] true s); [done|].
      simpl in IH2. rewrite andb_true_r in IH2 |- *. exact IH2.
  - destruct (IH false) as [IH1 _]. unfold is_hyphen in Hh.
    rewrite N.eqb_sym in Hh. simpl. rewrite Hh, IH1. simpl.
    split; [done|]. intros _. done.
Qed.

Lemma collapse_id (b : bool) (s : str) :
  contains [c_hyphen; c_hyphen] s = false ->
  (b = true -> startswith s [c_hyphen] = false) ->
  re_sub_runs_from is_hyphen [c_hyphen] b s = s.
Proof.
  revert b. induction s as [|c s IH]; intros b; simpl; [done|].
  intros [Hd Hs]%orb_false_iff Hb. unfold is_hyphen at 1.
  destruct (N.eqb_spec c c_hyphen) as [-> | Hne].
  - destruct b; [specialize (Hb eq_refl); done|]. simpl in Hd |- *.
    f_equal. apply IH; [done|]. intros _.
    destruct s as [|y s]; [done|]. simpl in Hd |- *. exact Hd.
  - f_equal. apply IH; [done | discriminate].
Qed.

(** ** Lowering ASCII text *)

Lemma ascii_lower_hyphen (c : codepoint) :
  (c_hyphen =? ascii_lower c)%N = (c_hyphen =? c)%N.
Proof.
  unfold ascii_lower. destruct (is_upper c) eqn:Hu; [|done].
  apply eq_true_iff_eq. revert Hu. bool_lia.
Qed.

Lemma startswith_lower (t : str) :
  startswith (List.map ascii_lower t) [c_hyphen] = startswith t [c_hyphen].
Proof. destruct t; simpl; [done|]. rewrite ascii_lower_hyphen. done. Qed.

Lemma endswith_lower (t : str) :
  endswith (List.map ascii_lower t) [c_hyphen] = endswith t [c_hyphen].
Proof. unfold endswith. rewrite <- map_rev. apply startswith_lower. Qed.

Lemma contains_double_lower (t : str) :
  contains [c_hyphen; c_hyphen] (List.map ascii_lower t)
  = contains [c_hyphen; c_hyphen] t.
Proof.
  induction t as [|c t IH]; [done|].
  cbn [List.map contains]. rewrite IH. f_equal.
  cbn [startswith]. rewrite ascii_lower_hyphen. f_equal.
  destruct t; simpl; [done|]. rewrite ascii_lower_hyphen. done.
Qed.

Lemma map_lower_id (t : str) :
  forallb (fun c => negb (is_upper c)) t = true -> List.map ascii_lower t = t.
Proof.
  induction t as [|c t IH]; simpl; [done|].
  intros [Hc Ht]%andb_true_iff. rewrite IH by done. f_equal.
  unfold ascii_lower. apply negb_true_iff in Hc. rewrite Hc. done.
Qed.

(* ===================================================================== *)
(** * The cleaning functions *)
(* ===================================================================== *)

Section Cleaning.
Context `{UnicodeData}.

Lemma reorder_insert_starter (c : codepoint) (acc : str) :
  combining c = 0%N -> reorder_insert c acc = c :: acc.
Proof. intros Hc. destruct acc; simpl; [done|]. rewrite Hc. done. Qed.

Lemma canonical_order_starters (s : str) :
  forallb (fun c => (combining c =? 0)%N) s = true -> canonical_order s = s.
Proof.
  intros Hs. unfold canonical_order.
  enough (Hacc : forall acc,
    fold_left (fun acc c => reorder_insert c acc) s acc = rev s ++ acc).
  { rewrite Hacc, app_nil_r. apply rev_involutive. }
  induction s as [|c s IH]; intros acc; simpl in *; [done|].
  apply andb_true_iff in Hs as [Hc Hs]. apply N.eqb_eq in Hc.
  rewrite reorder_insert_starter, IH, <- (assoc_L (++)); done.
Qed.

Lemma decomposition_ascii_text (s : str) :
  forallb is_ascii s = true -> flat_map decomposition s = s.
Proof.
  induction s as [|c s IH]; simpl; [done|].
  intros [Hc Hs]%andb_true_iff. rewrite decomposition_ascii, IH; done.
Qed.

Lemma starters_ascii (s : str) :
  forallb is_ascii s = true -> forallb (fun c => (combining c =? 0)%N) s = true.
Proof.
  apply forallb_impl. intros c Hc. rewrite combining_ascii; done.
Qed.

(** Basic Latin has no accents to remove. *)
Lemma remove_accents_ascii (s : str) :
  forallb is_ascii s = true -> FileRenamer.remove_accents s = s.
Proof.
  intros Hs. unfold FileRenamer.remove_accents, normalize_NFD.
  rewrite decomposition_ascii_text, canonical_order_starters by auto using starters_ascii.
  apply filter_id, starters_ascii, Hs.
Qed.

Lemma re_sub_runs_isspace_ascii (repl : str) (b : bool) (s : str) :
  forallb is_ascii s = true ->
  re_sub_runs_from isspace repl b s = re_sub_runs_from ascii_isspace repl b s.
Proof.
  revert b. induction s as [|c s IH]; intros b; simpl; [done|].
  intros [Hc Hs]%andb_true_iff. rewrite isspace_ascii, !IH; done.
Qed.

Lemma re_sub_runs_ascii (cls : codepoint -> bool) (b : bool) (s : str) :
  forallb is_ascii s = true ->
  forallb is_ascii (re_sub_runs_from cls [c_hyphen] b s) = true.
Proof.
  revert b. induction s as [|c s IH]; intros b; simpl; [done|].
  intros [Hc Hs]%andb_true_iff.
  destruct (cls c), b; simpl; rewrite ?Hc; simpl; auto.
Qed.

(** On Basic Latin the steps do not depend on the Unicode tables. *)
Lemma clean_steps_on_ascii (keep : codepoint -> bool) (s : str) :
  forallb is_ascii s = true -> clean_steps keep s = clean_steps_ascii keep s.
Proof.
  intros Hs. unfold clean_steps, clean_steps_ascii, re_sub_runs.
  rewrite re_sub_runs_isspace_ascii by done.
  apply lower_ascii.
  set (x0 := re_sub_outside keep _).
  assert (Hx0 : forallb is_ascii x0 = true).
  { unfold x0, re_sub_outside.
    pose proof (re_sub_runs_ascii ascii_isspace false s Hs) as Hr.
    revert Hr. generalize (re_sub_runs_from ascii_isspace [c_hyphen] false s).
    intros l. induction l as [|c l IH]; simpl; [done|].
    intros [Hc Hl]%andb_true_iff. destruct (keep c); simpl; rewrite ?Hc; auto. }
  destruct (strip_infix c_hyphen (re_sub_runs_from is_hyphen [c_hyphen] false x0))
    as (x & y & Hxy).
  apply (forallb_infix _ x _ y). rewrite <- Hxy.
  apply re_sub_runs_ascii, Hx0.
Qed.

Section Steps.
Variable keep : codepoint -> bool.
Hypothesis keep_ascii : forall c, keep c = true -> is_ascii c = true.
Hypothesis keep_nonspace : forall c, keep c = true -> ascii_isspace c = false.
Hypothesis keep_lower : forall c, keep c = true -> keep (ascii_lower c) = true.

Lemma keep_lower_forallb (t : str) :
  forallb keep t = true ->
  forallb (fun c => keep c && negb (is_upper c)) (List.map ascii_lower t) = true.
Proof using keep_lower.
  induction t as [|c t IH]; simpl; [done|].
  intros [Hc Ht]%andb_true_iff. rewrite (keep_lower c Hc), IH by done.
  rewrite andb_true_r. simpl. clear.
  unfold ascii_lower. destruct (is_upper c) eqn:Hu; [revert Hu; bool_lia | by rewrite Hu].
Qed.

(** Whatever the text, the steps leave it in clean form. *)
Lemma clean_steps_form (s : str) : clean_form keep (clean_steps keep s).
Proof using keep_ascii keep_lower.
  unfold clean_steps, re_sub_runs.
  set (x0 := re_sub_outside keep _).
  set (x1 := re_sub_runs_from is_hyphen [c_hyphen] false x0).
  set (x2 := strip c_hyphen x1).
  assert (H1 : forallb keep x1 = true)
    by (apply collapse_forallb, filter_forallb).
  assert (H1' : contains [c_hyphen; c_hyphen] x1 = false)
    by (apply collapse_no_double).
  destruct (strip_infix c_hyphen x1) as (x & y & Hxy). fold x2 in Hxy.
  assert (H2 : forallb keep x2 = true)
    by (apply (forallb_infix _ x _ y); rewrite <- Hxy; done).
  assert (H2' : contains [c_hyphen; c_hyphen] x2 = false)
    by (apply (contains_false_infix _ x _ y); rewrite <- Hxy; done).
  rewrite lower_ascii by (eapply forallb_impl; [apply keep_ascii | done]).
  split_and!.
  - apply keep_lower_forallb, H2.
  - rewrite contains_double_lower. done.
  - rewrite startswith_lower. apply strip_no_head.
  - rewrite endswith_lower. apply strip_no_last.
Qed.

Lemma clean_form_ascii (t : str) : clean_form keep t -> forallb is_ascii t = true.
Proof using keep_ascii.
  intros [Ht _]. revert Ht. apply forallb_impl.
  intros c [Hc _]%andb_true_iff. auto.
Qed.

(** A text in clean form is left as it is, by the removal of accents and
    by the steps. *)
Lemma clean_form_fixed (t : str) :
  clean_form keep t ->
  FileRenamer.remove_accents t = t /\ clean_steps keep t = t.
Proof using keep_ascii keep_nonspace.
  intros Hform. pose proof (clean_form_ascii t Hform) as Hascii.
  destruct Hform as (Hchars & Hdouble & Hhead & Hlast).
  split; [by apply remove_accents_ascii|].
  rewrite clean_steps_on_ascii by done. unfold clean_steps_ascii, re_sub_runs.
  rewrite (re_sub_runs_from_none ascii_isspace).
  2:{ revert Hchars. apply forallb_impl. intros c [Hc _]%andb_true_iff.
      rewrite keep_nonspace; done. }
  unfold re_sub_outside. rewrite filter_id.
  2:{ revert Hchars. apply forallb_impl. intros c [Hc _]%andb_true_iff. done. }
  rewrite collapse_id by done.
  rewrite strip_id by done.
  apply map_lower_id. revert Hchars. apply forallb_impl.
  intros c [_ Hc]%andb_true_iff. done.
Qed.

End Steps.

Lemma filename_char_ascii (c : codepoint) : filename_char c = true -> is_ascii c = true.
Proof. bool_lia. Qed.
Lemma filename_char_nonspace (c : codepoint) :
  filename_char c = true -> ascii_isspace c = false.
Proof. bool_lia. Qed.
Lemma url_char_ascii (c : codepoint) : url_char c = true -> is_ascii c = true.
Proof. bool_lia. Qed.
Lemma url_char_nonspace (c : codepoint) : url_char c = true -> ascii_isspace c = false.
Proof. bool_lia. Qed.
Lemma filename_char_lower (c : codepoint) :
  filename_char c = true -> filename_char (ascii_lower c) = true.
Proof.
  unfold ascii_lower. destruct (is_upper c) eqn:Hu; [|done]. revert Hu. bool_lia.
Qed.
Lemma url_char_lower (c : codepoint) : url_char c = true -> url_char (ascii_lower c) = true.
Proof.
  unfold ascii_lower. destruct (is_upper c) eqn:Hu; [|done]. revert Hu. bool_lia.
Qed.

Lemma stem_char_spec (c : codepoint) :
  filename_char c && negb (is_upper c) = stem_char c.
Proof.
  apply eq_true_iff_eq. unfold stem_char. bool_lia.
Qed.

End Cleaning.

(** ** The excerpt satisfies the interface *)

Lemma latin1_decomposition_ascii (c : codepoint) :
  is_ascii c = true -> Latin1.decomposition c = [c].
Proof.
  intros Hc. unfold Latin1.decomposition, Latin1.base_letter.
  repeat match goal with
  | |- context [if ?b then _ else _] =>
      let Hb := fresh "Hb" in
      destruct b eqn:Hb; [exfalso; revert Hc Hb; clear; bool_lia | clear Hb]
  end.
  done.
Qed.

Lemma latin1_combining_ascii (c : codepoint) :
  is_ascii c = true -> Latin1.combining c = 0%N.
Proof.
  intros Hc. unfold Latin1.combining.
  repeat match goal with
  | |- context [if ?b then _ else _] =>
      let Hb := fresh "Hb" in
      destruct b eqn:Hb; [exfalso; revert Hc Hb; clear; bool_lia | clear Hb]
  end.
  done.
Qed.

Lemma latin1_isspace_ascii (c : codepoint) :
  is_ascii c = true -> Latin1.isspace c = ascii_isspace c.
Proof.
  intros Hc. unfold Latin1.isspace.
  repeat match goal with
  | |- context [?x || ?b] =>
      lazymatch b with
      | ascii_isspace _ => fail
      | _ => replace b with false by (symmetry; revert Hc; clear; bool_lia)
      end; rewrite orb_false_r
  end.
  done.
Qed.

Lemma latin1_lower_ascii (s : str) :
  forallb is_ascii s = true -> Latin1.lower s = List.map ascii_lower s.
Proof.
  unfold Latin1.lower. induction s as [|c s IH]; simpl; [done|].
  intros [Hc Hs]%andb_true_iff. rewrite IH by done. f_equal.
  unfold Latin1.lower_char, ascii_lower. destruct (is_upper c); [done|].
  destruct (_ && _) eqn:Hb; [exfalso; revert Hc Hb; clear; bool_lia | done].
Qed.

#[export] Instance latin1 : UnicodeData := {|
  decomposition := Latin1.decomposition;
  combining := Latin1.combining;
  isspace := Latin1.isspace;
  lower := Latin1.lower;
  decomposition_ascii := latin1_decomposition_ascii;
  combining_ascii := latin1_combining_ascii;
  isspace_ascii := latin1_isspace_ascii;
  lower_ascii := latin1_lower_ascii
|}.

Example clean_accents :
  FileRenamer.clean_filename (py "Página Principal.html") = py "pagina-principal.html".
Proof. vm_compute. reflexivity. Qed.

Example clean_specials :
  FileRenamer.clean_filename (py "My  File!!.html") = py "my-file.html".
Proof. vm_compute. reflexivity. Qed.

Example clean_url_quoted :
  LinkCleaner.clean_url (py "Pasta/P%C3%A1gina%20Principal.HTML")
  = py "pasta/pagina-principal.html".
Proof. vm_compute. reflexivity. Qed.

Section CleaningTheorems.
Context `{UnicodeData}.

Lemma clean_name_form (name : str) :
  clean_form filename_char (FileRenamer.clean_name name).
Proof.
  apply (clean_steps_form filename_char filename_char_ascii filename_char_lower).
Qed.

Lemma clean_name_fixed (t : str) :
  clean_form filename_char t -> FileRenamer.clean_name t = t.
Proof.
  intros Ht.
  destruct (clean_form_fixed filename_char filename_char_ascii
              filename_char_nonspace t Ht) as [Ha Hs].
  unfold FileRenamer.clean_name. rewrite Ha. exact Hs.
Qed.

Lemma clean_form_elem (keep : codepoint -> bool) (t : str) (c : codepoint) :
  clean_form keep t -> c ∈ t -> keep c = true.
Proof.
  intros [Ht _] Hc. rewrite forallb_forall in Ht.
  apply list_elem_of_In, Ht, andb_true_iff in Hc as [Hc _]. done.
Qed.

Lemma clean_name_no_dot (name : str) : c_dot ∉ FileRenamer.clean_name name.
Proof. intros Hc. by apply (clean_form_elem _ _ _ (clean_name_form name)) in Hc. Qed.

Lemma clean_name_no_slash (name : str) : c_slash ∉ FileRenamer.clean_name name.
Proof. intros Hc. by apply (clean_form_elem _ _ _ (clean_name_form name)) in Hc. Qed.

Lemma clean_filename_eq (filename : str) :
  FileRenamer.clean_filename filename
  = FileRenamer.clean_name (splitext filename).1 ++ (splitext filename).2.
Proof. unfold FileRenamer.clean_filename. destruct (splitext filename). done. Qed.

(** A cleaned name without extension is cleaned to itself. *)
Lemma clean_filename_stem (name : str) :
  FileRenamer.clean_filename (FileRenamer.clean_name name)
  = FileRenamer.clean_name name.
Proof.
  rewrite clean_filename_eq, splitext_no_dot by apply clean_name_no_dot. simpl.
  rewrite app_nil_r. apply clean_name_fixed, clean_name_form.
Qed.

(** So is a non-empty cleaned name followed by an extension. *)
Lemma clean_filename_stem_ext (name w : str) :
  FileRenamer.clean_name name ≠ [] -> c_dot ∉ w -> c_slash ∉ w ->
  FileRenamer.clean_filename (FileRenamer.clean_name name ++ c_dot :: w)
  = FileRenamer.clean_name name ++ c_dot :: w.
Proof.
  intros Hne Hw1 Hw2.
  pose proof (clean_name_no_dot name) as Hd.
  pose proof (clean_name_no_slash name) as Hs.
  pose proof (clean_name_form name) as Hform.
  destruct (exists_last Hne) as (a & y & Hay).
  rewrite Hay in Hd, Hs, Hform |- *.
  rewrite not_elem_of_app, not_elem_of_cons in Hd, Hs.
  rewrite clean_filename_eq, <- (assoc_L (++)).
  change ([y] ++ c_dot :: w) with (y :: [] ++ c_dot :: w).
  destruct Hd as (_ & Hd & _), Hs as (_ & Hs & _).
  rewrite splitext_ext; [| congruence | congruence | apply not_elem_of_nil | done | done].
  simpl. rewrite clean_name_fixed by done. rewrite <- (assoc_L (++)). done.
Qed.

(** A name that is only an extension loses its dot. *)
Lemma clean_filename_leading_dot (w : str) :
  c_dot ∉ w ->
  FileRenamer.clean_filename (c_dot :: w) = FileRenamer.clean_name (c_dot :: w).
Proof.
  intros Hw. rewrite clean_filename_eq, splitext_leading_dot by done.
  apply app_nil_r.
Qed.

Lemma clean_form_no_percent (t : str) :
  clean_form url_char t -> existsb (N.eqb c_percent) t = false.
Proof.
  intros [Ht _]. induction t as [|c t IH]; simpl in *; [done|].
  apply andb_true_iff in Ht as [Hc Ht]. rewrite IH, orb_false_r by done.
  revert Hc. clear. bool_lia.
Qed.

(** C2 (as amended). [clean_url] is idempotent on every input;
    [clean_filename] is idempotent exactly on the inputs whose cleaned
    stem is not empty or whose extension is empty. *)
Theorem clean_idempotence (url filename : str) :
  LinkCleaner.clean_url (LinkCleaner.clean_url url) = LinkCleaner.clean_url url
  /\ (FileRenamer.clean_filename (FileRenamer.clean_filename filename)
        = FileRenamer.clean_filename filename
      <-> (FileRenamer.clean_name (splitext filename).1 ≠ []
           \/ (splitext filename).2 = [])).
Proof.
  split.
  - set (t := LinkCleaner.clean_url url).
    assert (Hform : clean_form url_char t)
      by apply (clean_steps_form url_char url_char_ascii url_char_lower).
    destruct (clean_form_fixed url_char url_char_ascii url_char_nonspace t Hform)
      as [Ha Hs].
    unfold LinkCleaner.clean_url at 1. unfold unquote.
    rewrite (clean_form_no_percent t Hform). simpl.
    change (LinkCleaner.remove_accents t) with (FileRenamer.remove_accents t).
    rewrite Ha. exact Hs.
  - rewrite (clean_filename_eq filename).
    destruct (splitext_cases filename) as [-> | (a & w & _ & Hw1 & Hw2 & ->)]; simpl.
    + rewrite app_nil_r, clean_filename_stem. split; auto.
    + destruct (decide (FileRenamer.clean_name a = [])) as [He | Hne].
      * rewrite He. simpl. rewrite clean_filename_leading_dot by done. split.
        -- intros Heq. exfalso. apply (clean_name_no_dot (c_dot :: w)).
           rewrite Heq. left.
        -- intros [? | ?]; done.
      * rewrite clean_filename_stem_ext by done. split; auto.
Qed.

(** C3 (as amended). The output of [clean_filename] is the cleaned stem
    followed by the extension that [os.path.splitext] yields, unchanged.
    When the last dot of the name lies in its last path component and
    comes after a character of that component that is not a dot, the
    extension is the text from that dot on and the stem is the text
    before it; in every other case (no dot, a last dot before the last
    separator, or only dots between the start of the last component and
    the last dot) the extension is empty and the stem is the whole name.
    The cleaned stem holds only [[a-z0-9-_]], neither starts nor ends
    with a hyphen and has no two hyphens in a row. *)
Theorem clean_filename_shape (filename : str) :
  let name := (splitext filename).1 in
  let ext := (splitext filename).2 in
  FileRenamer.clean_filename filename = FileRenamer.clean_name name ++ ext
  /\ name ++ ext = filename
  /\ (ext = [] \/ ext = (split_at_last_dot filename).2)
  /\ (has_extension filename ->
      ext ≠ [] /\ (name, ext) = split_at_last_dot filename)
  /\ (~ has_extension filename -> name = filename /\ ext = [])
  /\ forallb stem_char (FileRenamer.clean_name name) = true
  /\ startswith (FileRenamer.clean_name name) [c_hyphen] = false
  /\ endswith (FileRenamer.clean_name name) [c_hyphen] = false
  /\ contains [c_hyphen; c_hyphen] (FileRenamer.clean_name name) = false.
Proof.
  intros name ext. subst name ext.
  destruct (clean_name_form (splitext filename).1) as (Hc & Hd & Hh & Hl).
  destruct (splitext_iff filename) as [Hyes Hno].
  split_and!; try done.
  - apply clean_filename_eq.
  - apply splitext_app.
  - destruct (splitext_cases filename) as [-> | (a & w & -> & Hw1 & Hw2 & ->)]; simpl.
    + by left.
    + right. unfold split_at_last_dot. rewrite rfind_last by done.
      destruct (Z.leb_spec 0 (Z.of_nat (length a))); [|lia].
      unfold slice_from. simpl. rewrite Nat2Z.id, drop_app_length. done.
  - intros Hext. destruct (Hyes Hext) as (a & w & -> & Hw & ->). simpl.
    split; [done|]. unfold split_at_last_dot. rewrite rfind_last by done.
    destruct (Z.leb_spec 0 (Z.of_nat (length a))); [|lia].
    unfold slice_to, slice_from. rewrite Nat2Z.id, take_app_length, drop_app_length.
    done.
  - intros Hext. by rewrite (Hno Hext).
  - revert Hc. apply forallb_impl. intros c. rewrite stem_char_spec. done.
Qed.

(** C9. A name whose only dot is its first character has no extension for
    [os.path.splitext]: the whole name is cleaned as a stem and the dot
    goes; so [clean_filename(".html")] is [html], and an input with an
    empty cleaned stem and the extension [.html] is cleaned to [.html],
    which [clean_filename] does not leave as it is. *)
Theorem clean_filename_dot_only (w filename : str) :
  c_dot ∉ w ->
  FileRenamer.clean_name (splitext filename).1 = [] ->
  (splitext filename).2 = py ".html" ->
  splitext (c_dot :: w) = (c_dot :: w, [])
  /\ FileRenamer.clean_filename (c_dot :: w) = FileRenamer.clean_name (c_dot :: w)
  /\ (c_dot ∉ FileRenamer.clean_filename (c_dot :: w))
  /\ FileRenamer.clean_filename (py ".html") = py "html"
  /\ FileRenamer.clean_filename filename = py ".html"
  /\ FileRenamer.clean_filename (FileRenamer.clean_filename filename) = py "html"
  /\ FileRenamer.clean_filename (FileRenamer.clean_filename filename)
     ≠ FileRenamer.clean_filename filename.
Proof.
  intros Hw Hname Hext.
  assert (Hhtml : FileRenamer.clean_filename (py ".html") = py "html").
  { change (py ".html") with (c_dot :: py "html").
    rewrite clean_filename_leading_dot by (by apply not_elem_of_existsb).
    unfold FileRenamer.clean_name.
    rewrite remove_accents_ascii by reflexivity.
    change (lower _) with (clean_steps filename_char (c_dot :: py "html")).
    rewrite clean_steps_on_ascii by reflexivity. vm_compute. reflexivity. }
  assert (Hclean : FileRenamer.clean_filename filename = py ".html")
    by (rewrite clean_filename_eq, Hname, Hext; done).
  split_and!.
  - by apply splitext_leading_dot.
  - by apply clean_filename_leading_dot.
  - rewrite clean_filename_leading_dot by done. apply clean_name_no_dot.
  - exact Hhtml.
  - exact Hclean.
  - rewrite Hclean. exact Hhtml.
  - rewrite Hclean, Hhtml. vm_compute. discriminate.
Qed.

End CleaningTheorems.

Lemma clean_filename_dot_only_witness :
  (c_dot ∉ py "html")
  /\ FileRenamer.clean_filename (py "!.html") = py ".html"
  /\ FileRenamer.clean_filename (FileRenamer.clean_filename (py "!.html"))
     ≠ FileRenamer.clean_filename (py "!.html").
Proof.
  assert (Hw : c_dot ∉ py "html").
  { by apply not_elem_of_existsb. }
  pose proof (@clean_filename_dot_only latin1 (py "html") (py "!.html") Hw
                ltac:(vm_compute; reflexivity) ltac:(vm_compute; reflexivity))
    as (_ & _ & _ & _ & H5 & _ & H7).
  split_and!; [exact Hw | exact H5 | exact H7].
Defined.

(** C2 fails as stated: [!.html] is cleaned to [.html], and [.html] to
    [html]. *)
Lemma clean_filename_not_idempotent :
  FileRenamer.clean_filename (py "!.html") = py ".html"
  /\ FileRenamer.clean_filename (FileRenamer.clean_filename (py "!.html")) = py "html"
  /\ FileRenamer.clean_filename (FileRenamer.clean_filename (py "!.html"))
     ≠ FileRenamer.clean_filename (py "!.html").
Proof. vm_compute. split_and!; [reflexivity | reflexivity | discriminate]. Qed.

Lemma clean_filename_shape_witness :
  has_extension (py "Página.html")
  /\ splitext (py "Página.html") = (py "Página", py ".html")
  /\ ~ has_extension (py "a.b/.html")
  /\ splitext (py "a.b/.html") = (py "a.b/.html", []).
Proof.
  assert (H1 : has_extension (py "Página.html")).
  { exists [], 80%N, (py "ágina"), (py "html").
    split_and!; [vm_compute; reflexivity | done | done | | |];
      apply (bool_decide_unpack _); vm_compute; exact I. }
  assert (H2 : ~ has_extension (py "a.b/.html")).
  { intros Hext. destruct (proj1 (splitext_iff _) Hext) as (a & w & _ & _ & Hs).
    vm_compute in Hs. discriminate. }
  destruct (@clean_filename_shape latin1 (py "Página.html"))
    as (_ & _ & _ & Hyes & _).
  destruct (@clean_filename_shape latin1 (py "a.b/.html"))
    as (_ & _ & _ & _ & Hno & _).
  destruct (Hyes H1) as [_ Hsplit]. destruct (Hno H2) as [Hname Hext].
  split_and!; [exact H1 | | exact H2 |].
  - rewrite (surjective_pairing (splitext (py "Página.html"))), Hsplit.
    vm_compute. reflexivity.
  - rewrite (surjective_pairing (splitext (py "a.b/.html"))), Hname, Hext. done.
Defined.

(** C3 fails as stated: the last dot of [.html] is its first character,
    and the output [html] does not end with the text from that dot on. *)
Lemma clean_filename_last_dot_counterexample :
  (split_at_last_dot (py ".html")).2 = py ".html"
  /\ FileRenamer.clean_filename (py ".html") = py "html"
  /\ ~ exists t, FileRenamer.clean_filename (py ".html")
                 = t ++ (split_at_last_dot (py ".html")).2.
Proof.
  assert (H1 : (split_at_last_dot (py ".html")).2 = py ".html")
    by (vm_compute; reflexivity).
  assert (H2 : FileRenamer.clean_filename (py ".html") = py "html")
    by (vm_compute; reflexivity).
  split_and!; [exact H1 | exact H2 |].
  intros [t Ht]. rewrite H1, H2 in Ht.
  apply (f_equal length) in Ht. rewrite length_app in Ht.
  change (length (py "html")) with 4 in Ht.
  change (length (py ".html")) with 5 in Ht. lia.
Qed.

(* ===================================================================== *)
(** * Conflicts *)
(* ===================================================================== *)

Import Renamer.

Lemma suffixed_eq (n : str) :
  suffixed n = (splitext n).1 ++ [c_hyphen; 50%N] ++ (splitext n).2.
Proof. unfold suffixed. destruct (splitext n). reflexivity. Qed.

Lemma app_pair_tail (u v w : str) (p q c : codepoint) :
  u ++ [p; q] = v ++ c :: w -> c ≠ p -> c ≠ q ->
  exists w', w = w' ++ [p; q] /\ u = v ++ c :: w'.
Proof.
  intros Heq Hp Hq.
  destruct w as [|z1 w1] using rev_ind.
  { change (u ++ [p; q]) with (u ++ [p] ++ [q]) in Heq.
    rewrite (assoc_L (++)) in Heq. apply app_inj_tail in Heq as [_ ?]. congruence. }
  clear IHw1.
  change (u ++ [p; q]) with (u ++ [p] ++ [q]) in Heq.
  change (v ++ c :: w1 ++ [z1]) with (v ++ (c :: w1) ++ [z1]) in Heq.
  rewrite !(assoc_L (++)) in Heq. apply app_inj_tail in Heq as [Heq ->].
  destruct w1 as [|z2 w2] using rev_ind.
  { apply app_inj_tail in Heq as [_ ?]. congruence. }
  clear IHw2.
  change (v ++ c :: w2 ++ [z2]) with (v ++ (c :: w2) ++ [z2]) in Heq.
  rewrite (assoc_L (++)) in Heq. apply app_inj_tail in Heq as [-> ->].
  exists w2. rewrite <- (assoc_L (++)). done.
Qed.

(** Two new names never get the same [-2] form. *)
Lemma suffixed_inj (n1 n2 : str) : suffixed n1 = suffixed n2 -> n1 = n2.
Proof.
  assert (Hmixed : forall n a w,
    splitext n = (n, []) -> (c_dot ∉ w) -> (c_slash ∉ w) ->
    n ++ [c_hyphen; 50%N] ++ [] = a ++ [c_hyphen; 50%N] ++ c_dot :: w -> False).
  { intros n a w Hn Hw1 Hw2 Heq. rewrite app_nil_r, (assoc_L (++)) in Heq.
    apply app_pair_tail in Heq as (w' & -> & ->); [|done|done].
    rewrite not_elem_of_app in Hw1, Hw2.
    rewrite <- (assoc_L (++)) in Hn.
    change (a ++ [c_hyphen; 50%N] ++ c_dot :: w')
      with (a ++ [c_hyphen] ++ 50%N :: [] ++ c_dot :: w') in Hn.
    rewrite (assoc_L (++)), splitext_ext in Hn;
      [| done | done | apply not_elem_of_nil | tauto | tauto].
    injection Hn as _ Hn. apply (f_equal length) in Hn. simpl in Hn. lia. }
  rewrite !suffixed_eq.
  destruct (splitext_cases n1) as [H1 | (a1 & w1 & -> & Hd1 & Hs1 & H1)];
    destruct (splitext_cases n2) as [H2 | (a2 & w2 & -> & Hd2 & Hs2 & H2)];
    rewrite H1, H2; simpl fst; simpl snd; intros Heq.
  - rewrite !app_nil_r in Heq. by apply app_inv_tail in Heq.
  - exfalso. by eapply (Hmixed n1 a2 w2).
  - exfalso. symmetry in Heq. by eapply (Hmixed n2 a1 w1).
  - rewrite !(assoc_L (++)) in Heq.
    apply app_cons_last_unique in Heq as [Ha ->]; [|done|done].
    apply app_inv_tail in Ha as ->. done.
Qed.

(** The conflicts found from a given state of [new_names]. *)
Fixpoint conflicts_of (names : gmap str str) (items : list (str * rename_info))
    : list conflict :=
  match items with
  | [] => []
  | (_, e) :: rest =>
      match names !! new_name e with
      | Some first =>
          Conflict (new_name e) [first; old_name e] :: conflicts_of names rest
      | None => conflicts_of (<[new_name e := old_name e]> names) rest
      end
  end.

Lemma check_conflicts_loop_eq (items : list (str * rename_info))
    (names : gmap str str) (acc : list conflict) :
  check_conflicts_loop items names acc = acc ++ conflicts_of names items.
Proof.
  revert names acc. induction items as [|[k e] rest IH]; intros names acc; simpl.
  - by rewrite app_nil_r.
  - destruct (names !! new_name e); rewrite IH; [|done].
    by rewrite <- (assoc_L (++)).
Qed.

(** Every conflict is a pair: the first entry with the name, and the entry
    at hand. *)
Lemma conflicts_are_pairs (items : list (str * rename_info)) (names : gmap str str) :
  Forall (fun c => length (conflicting_files c) = 2) (conflicts_of names items).
Proof.
  revert names. induction items as [|[k e] rest IH]; intros names; simpl; [done|].
  destruct (names !! new_name e); [constructor|]; auto.
Qed.

(** The plan once the conflicts found from [names] are resolved. *)
Fixpoint resolved_items (names : gmap str str) (items : list (str * rename_info))
    : list (str * rename_info) :=
  match items with
  | [] => []
  | (k, e) :: rest =>
      match names !! new_name e with
      | Some _ => (k, resolve_to e (suffixed (new_name e))) :: resolved_items names rest
      | None => (k, e) :: resolved_items (<[new_name e := old_name e]> names) rest
      end
  end.

Lemma resolve_entry_unique (pre rest : list (str * rename_info)) (k : str)
    (e : rename_info) (r : str) :
  old_name e ∉ old_names pre ->
  resolve_entry (old_name e) r (pre ++ (k, e) :: rest)
  = pre ++ (k, resolve_to e r) :: rest.
Proof.
  induction pre as [|[k0 e0] pre IH]; simpl; intros Hn.
  - rewrite bool_decide_eq_true_2 by done. done.
  - apply not_elem_of_cons in Hn as [Hne Hn].
    rewrite bool_decide_eq_false_2 by congruence. rewrite IH; done.
Qed.

Lemma resolve_conflicts_loop_eq (items pre : list (str * rename_info))
    (names : gmap str str) :
  NoDup (old_names (pre ++ items)) ->
  resolve_conflicts_loop (conflicts_of names items) (pre ++ items)
  = pre ++ resolved_items names items.
Proof.
  revert pre names. induction items as [|[k e] rest IH]; intros pre names Hnd; [done|].
  assert (Hfresh : old_name e ∉ old_names pre).
  { unfold old_names in Hnd. rewrite fmap_app in Hnd.
    apply NoDup_app in Hnd as (_ & Hnd & _). intros Hin. apply (Hnd _ Hin). left. }
  simpl. destruct (names !! new_name e) as [first|].
  - simpl. unfold suffixed. destruct (splitext (new_name e)) as [name ext]. simpl.
    rewrite resolve_entry_unique by done.
    rewrite (cons_middle _ pre rest), (assoc_L (++)), IH.
    + rewrite <- (assoc_L (++)). done.
    + rewrite <- (assoc_L (++)). unfold old_names in *.
      rewrite fmap_app in *. exact Hnd.
  - rewrite (cons_middle _ pre rest), (assoc_L (++)), IH.
    + rewrite <- (assoc_L (++)). done.
    + rewrite <- (assoc_L (++)). done.
Qed.

Lemma resolved_items_lookup (items : list (str * rename_info)) (names : gmap str str)
    (seen : list str) (i : nat) (k : str) (e : rename_info) :
  (forall n, is_Some (names !! n) <-> n ∈ seen) ->
  items !! i = Some (k, e) ->
  resolved_items names items !! i
  = Some (k, if bool_decide (new_name e ∈ seen ++ new_names (take i items))
             then resolve_to e (suffixed (new_name e)) else e).
Proof.
  revert names seen i.
  induction items as [|[k0 e0] rest IH]; intros names seen i Hseen Hi; [done|].
  simpl. destruct i as [|i]; simpl in Hi.
  - injection Hi as -> ->. simpl. rewrite app_nil_r.
    destruct (names !! new_name e) as [first|] eqn:Hn; simpl.
    + rewrite bool_decide_eq_true_2; [done|]. apply Hseen. eauto.
    + rewrite bool_decide_eq_false_2; [done|]. rewrite <- Hseen, Hn.
      by intros [? ?].
  - destruct (names !! new_name e0) as [first|] eqn:Hn; simpl.
    + rewrite (IH names seen i Hseen Hi).
      assert (Hb : bool_decide (new_name e ∈ seen ++ new_names (take i rest))
                   = bool_decide (new_name e ∈ seen ++ new_name e0
                                    :: new_names (take i rest))).
      { apply bool_decide_ext. rewrite !elem_of_app, elem_of_cons.
        assert (new_name e0 ∈ seen) by (apply Hseen; eauto).
        split; [intros [?|?]; auto | intros [?|[->|?]]; auto]. }
      rewrite Hb. done.
    + rewrite (IH (<[new_name e0 := old_name e0]> names) (new_name e0 :: seen) i).
      * assert (Hb : bool_decide (new_name e ∈ (new_name e0 :: seen)
                                    ++ new_names (take i rest))
                     = bool_decide (new_name e ∈ seen ++ new_name e0
                                      :: new_names (take i rest))).
        { apply bool_decide_ext. rewrite !elem_of_app, !elem_of_cons. tauto. }
        rewrite Hb. done.
      * intros n. rewrite elem_of_cons, <- Hseen, lookup_insert_is_Some.
        destruct (decide (new_name e0 = n)); naive_solver.
      * done.
Qed.

Lemma occurrences_cons (n x : str) (l : list str) :
  occurrences n (x :: l) = (if bool_decide (x = n) then 1 else 0) + occurrences n l.
Proof. unfold occurrences. simpl. destruct (bool_decide (x = n)); done. Qed.

Lemma occurrences_lookup (n : str) (l : list str) (h : nat) :
  l !! h = Some n -> 1 + occurrences n (drop (S h) l) <= occurrences n l.
Proof.
  revert h. induction l as [|x l IH]; intros h Hh; [done|].
  rewrite occurrences_cons. destruct h as [|h]; simpl in *.
  - injection Hh as ->. rewrite bool_decide_eq_true_2 by done. rewrite drop_0. lia.
  - specialize (IH h Hh). lia.
Qed.

Lemma occurrences_three (n : str) (l : list str) (h i j : nat) :
  h < i < j -> l !! h = Some n -> l !! i = Some n -> l !! j = Some n ->
  3 <= occurrences n l.
Proof.
  intros Hlt Hh Hi Hj.
  pose proof (occurrences_lookup n l h Hh) as H1.
  assert (Hi' : drop (S h) l !! (i - S h) = Some n)
    by (rewrite lookup_drop; replace (S h + (i - S h)) with i by lia; done).
  pose proof (occurrences_lookup n _ _ Hi') as H2.
  assert (Hj' : drop (S (i - S h)) (drop (S h) l) !! (j - S i) = Some n).
  { rewrite !lookup_drop.
    replace (S h + (S (i - S h) + (j - S i))) with j by lia. done. }
  pose proof (occurrences_lookup n _ _ Hj') as H3. lia.
Qed.

Lemma later_duplicates_lookup (l seen : list str) (i : nat) (n : str) :
  l !! i = Some n -> n ∈ seen ++ take i l -> n ∈ later_duplicates seen l.
Proof.
  revert seen i. induction l as [|x l IH]; intros seen i Hi Hin; [done|].
  simpl. destruct i as [|i]; simpl in *.
  - injection Hi as ->. rewrite app_nil_r in Hin.
    rewrite bool_decide_eq_true_2 by done. left.
  - apply elem_of_app. right. apply (IH _ i Hi).
    revert Hin. rewrite !elem_of_app, !elem_of_cons. tauto.
Qed.

Lemma new_names_lookup (m : list (str * rename_info)) (i : nat) (k : str)
    (e : rename_info) :
  m !! i = Some (k, e) -> new_names m !! i = Some (new_name e).
Proof. intros Hi. unfold new_names. rewrite list_lookup_fmap, Hi. done. Qed.

Lemma new_names_take (m : list (str * rename_info)) (i : nat) :
  new_names (take i m) = take i (new_names m).
Proof. unfold new_names. rewrite fmap_take. done. Qed.

Lemma resolve_plan_rename_map (self : renamer) :
  NoDup (old_names (rename_map self)) ->
  rename_map (resolve_plan self) = resolved_items ∅ (rename_map self).
Proof.
  intros Hnd. unfold resolve_plan, check_conflicts.
  rewrite check_conflicts_loop_eq. simpl.
  pose proof (resolve_conflicts_loop_eq (rename_map self) [] ∅ Hnd) as Hres.
  simpl in Hres.
  destruct (conflicts_of ∅ (rename_map self)) as [|c cs] eqn:Hc.
  - rewrite <- Hres. done.
  - simpl. rewrite <- Hres. done.
Qed.

(** C1 (as amended). In a plan with one entry per old name in which no
    new name is shared by more than two entries, detection and resolution
    leave the first entry of a conflict on [stem.ext] with that name and
    give the second [stem-2.ext], every other entry being left as it was;
    the new names are then pairwise distinct, provided none of the [-2]
    names given is already the new name of an entry (the names given are
    not checked again). *)
Theorem conflicts_resolved (self : renamer) :
  NoDup (old_names (rename_map self)) ->
  Forall (fun n => occurrences n (new_names (rename_map self)) <= 2)
         (new_names (rename_map self)) ->
  (forall i k e, rename_map self !! i = Some (k, e) ->
     rename_map (resolve_plan self) !! i
     = Some (k, if bool_decide (new_name e ∈ new_names (take i (rename_map self)))
                then resolve_to e (suffixed (new_name e)) else e))
  /\ (Forall (fun n => suffixed n ∉ new_names (rename_map self))
             (later_duplicates [] (new_names (rename_map self))) ->
      NoDup (new_names (rename_map (resolve_plan self)))).
Proof.
  intros Hnd Htwo. set (m := rename_map self) in *.
  assert (Hpos : forall i k e, m !! i = Some (k, e) ->
     rename_map (resolve_plan self) !! i
     = Some (k, if bool_decide (new_name e ∈ new_names (take i m))
                then resolve_to e (suffixed (new_name e)) else e)).
  { intros i k e Hi. rewrite resolve_plan_rename_map by done. fold m.
    rewrite (resolved_items_lookup m ∅ [] i k e); [done | | done].
    intros n. rewrite lookup_empty, elem_of_nil. split; [by intros [? ?] | done]. }
  split; [exact Hpos|]. intros Hfree.
  assert (Hlen : length (rename_map (resolve_plan self)) = length m).
  { rewrite resolve_plan_rename_map by done. fold m. clear.
    generalize (∅ : gmap str str). induction m as [|[k e] m IH]; intros names; [done|].
    simpl. destruct (names !! new_name e); simpl; rewrite IH; done. }
  (* the new name at a position of the resolved plan *)
  assert (Hname : forall i x, new_names (rename_map (resolve_plan self)) !! i = Some x ->
    exists n, new_names m !! i = Some n
      /\ x = if bool_decide (n ∈ take i (new_names m)) then suffixed n else n).
  { intros i x Hx. unfold new_names at 1 in Hx. rewrite list_lookup_fmap in Hx.
    destruct (rename_map (resolve_plan self) !! i) as [[k' e']|] eqn:Hi'; [|done].
    injection Hx as <-.
    destruct (m !! i) as [[k e]|] eqn:Hi.
    - rewrite (Hpos i k e Hi) in Hi'. injection Hi' as <- <-.
      exists (new_name e). split; [by apply (new_names_lookup m i k)|].
      rewrite new_names_take. destruct (bool_decide _); done.
    - apply lookup_ge_None in Hi. apply lookup_lt_Some in Hi'. lia. }
  assert (Hlt : forall i j x, i < j ->
    new_names (rename_map (resolve_plan self)) !! i = Some x ->
    new_names (rename_map (resolve_plan self)) !! j = Some x -> False).
  { intros i j x Hij Hi Hj.
    destruct (Hname i x Hi) as (ni & Hni & Hxi).
    destruct (Hname j x Hj) as (nj & Hnj & Hxj).
    rewrite Forall_forall in Hfree, Htwo.
    assert (Hin_i : ni ∈ new_names m) by (eapply list_elem_of_lookup_2; done).
    assert (Hin_j : nj ∈ new_names m) by (eapply list_elem_of_lookup_2; done).
    assert (Hdup : forall p n, new_names m !! p = Some n ->
              n ∈ take p (new_names m) -> suffixed n ∉ new_names m).
    { intros p n Hp Hn. apply Hfree.
      eapply later_duplicates_lookup; [exact Hp | done]. }
    destruct (decide (ni ∈ take i (new_names m))) as [Hdi | Hdi];
      destruct (decide (nj ∈ take j (new_names m))) as [Hdj | Hdj].
    - rewrite bool_decide_eq_true_2 in Hxi, Hxj by done.
      assert (ni = nj) as -> by (apply suffixed_inj; congruence).
      apply list_elem_of_lookup in Hdi as [h Hh].
      pose proof (lookup_lt_Some _ _ _ Hh) as Hhlt. rewrite length_take in Hhlt.
      rewrite lookup_take_lt in Hh by lia.
      pose proof (occurrences_three nj (new_names m) h i j ltac:(lia) Hh Hni Hnj).
      specialize (Htwo nj Hin_j). simpl in Htwo. lia.
    - rewrite bool_decide_eq_true_2 in Hxi by done.
      rewrite bool_decide_eq_false_2 in Hxj by done.
      apply (Hdup i ni Hni Hdi). rewrite <- Hxi, Hxj. done.
    - rewrite bool_decide_eq_false_2 in Hxi by done.
      rewrite bool_decide_eq_true_2 in Hxj by done.
      apply (Hdup j nj Hnj Hdj). rewrite <- Hxj, Hxi. done.
    - rewrite bool_decide_eq_false_2 in Hxi, Hxj by done.
      apply Hdj. subst x. subst nj. apply list_elem_of_lookup. exists i.
      rewrite lookup_take_lt by lia. done. }
  apply NoDup_alt. intros i j x Hi Hj.
  destruct (Nat.lt_trichotomy i j) as [Hij | [-> | Hij]]; [|done|].
  - exfalso. eapply (Hlt i j); done.
  - exfalso. eapply (Hlt j i); done.
Qed.

(* ===================================================================== *)
(** * The plan that [create_rename_map] builds *)
(* ===================================================================== *)

Lemma dict_set_absent {V} (key : str) (value : V) (d : list (str * V)) :
  dict_mem key d = false -> dict_set key value d = d ++ [(key, value)].
Proof.
  induction d as [|[k v] d IH]; simpl; [done|].
  intros [Hk Hd]%orb_false_iff. rewrite Hk, IH; done.
Qed.

Lemma dict_set_keys {V} (key : str) (value : V) (d : list (str * V)) :
  (dict_set key value d).*1
  = if dict_mem key d then d.*1 else d.*1 ++ [key].
Proof.
  induction d as [|[k v] d IH]; [done|].
  cbn [dict_set dict_mem existsb fst]. fold (dict_mem key d).
  destruct (bool_decide (k = key)) eqn:Hk; cbn [orb]; rewrite !fmap_cons; [done|].
  rewrite IH. destruct (dict_mem key d); done.
Qed.

Lemma dict_mem_keys {V} (key : str) (d : list (str * V)) :
  dict_mem key d = true <-> key ∈ d.*1.
Proof.
  induction d as [|[k v] d IH]; simpl.
  - rewrite elem_of_nil. split; [discriminate | done].
  - rewrite orb_true_iff, IH, elem_of_cons, bool_decide_eq_true. naive_solver.
Qed.

Lemma dict_set_elem {V} (key : str) (value : V) (d : list (str * V)) (kv : str * V) :
  kv ∈ dict_set key value d -> kv = (key, value) \/ kv ∈ d.
Proof.
  induction d as [|[k v] d IH]; simpl.
  - rewrite list_elem_of_singleton. auto.
  - destruct (bool_decide_reflect (k = key)) as [-> | Hne].
    + rewrite !elem_of_cons. tauto.
    + rewrite !elem_of_cons. intros [-> | Hin]; [tauto|]. destruct (IH Hin); tauto.
Qed.

(** The invariant of the plan under construction: one entry per key, and
    each key is the path of the old name of its entry, which is not empty
    and is not a cleaned name. *)
Definition entry_wf `{UnicodeData} (item : str * rename_info) : Prop :=
  item.1 = joinpath (old_name item.2)
  /\ old_name item.2 ≠ []
  /\ FileRenamer.clean_filename (old_name item.2) ≠ old_name item.2.

Definition plan_wf `{UnicodeData} (m : list (str * rename_info)) : Prop :=
  NoDup m.*1 /\ Forall entry_wf m.

Lemma joinpath_inj (a b : str) : a ≠ [] -> b ≠ [] -> joinpath a = joinpath b -> a = b.
Proof.
  unfold joinpath. intros Ha Hb.
  destruct (bool_decide_reflect (a = [c_dot])), (bool_decide_reflect (b = [c_dot]));
    congruence.
Qed.

Section Plan.
Context `{UnicodeData}.

Lemma plan_wf_old_names (m : list (str * rename_info)) :
  plan_wf m -> NoDup (old_names m).
Proof.
  intros [Hnd Hwf]. induction m as [|[k e] m IH]; simpl in *; [constructor|].
  apply NoDup_cons in Hnd as [Hk Hnd]. apply Forall_cons in Hwf as [He Hwf].
  apply NoDup_cons. split; [|by apply IH].
  intros Hin. apply Hk. unfold old_names in Hin.
  apply list_elem_of_fmap in Hin as ([k' e'] & Heq & Hin). simpl in Heq.
  rewrite Forall_forall in Hwf. destruct (Hwf _ Hin) as (Hk' & Hne' & _).
  destruct He as (Hke & Hne & _). simpl in *.
  assert (old_name e = old_name e') by done.
  apply list_elem_of_fmap. exists (k', e'). split; [|done]. simpl. congruence.
Qed.

Lemma plan_wf_set (m : list (str * rename_info)) (k : str) (e : rename_info) :
  plan_wf m -> entry_wf (k, e) -> plan_wf (dict_set k e m).
Proof.
  intros [Hnd Hwf] He. split.
  - rewrite dict_set_keys. destruct (dict_mem k m) eqn:Hk; [done|].
    apply NoDup_app. split_and!; [done | | apply NoDup_singleton].
    intros x Hx ->%list_elem_of_singleton.
    apply dict_mem_keys in Hx. congruence.
  - apply Forall_forall. intros kv [-> | Hin]%dict_set_elem; [done|].
    rewrite Forall_forall in Hwf. auto.
Qed.

Lemma plan_referenced_wf (w : world) (refs : list str) (m : list (str * rename_info)) :
  Forall (fun f => f ≠ []) refs -> plan_wf m -> plan_wf (plan_referenced w refs m).
Proof.
  revert m. induction refs as [|f refs IH]; intros m Hrefs Hm; simpl; [done|].
  apply Forall_cons in Hrefs as [Hf Hrefs].
  destruct (path_exists w (joinpath f)); [|by apply IH].
  destruct (bool_decide_reflect (f = FileRenamer.clean_filename f)) as [Heq | Hne];
    simpl; [by apply IH|].
  apply IH; [done|]. apply plan_wf_set; [done|].
  split_and!; simpl; [done | done | congruence].
Qed.

Lemma plan_physical_wf (files : list str) (m : list (str * rename_info)) :
  Forall (fun f => f ≠ [] /\ f ≠ [c_dot]) files -> plan_wf m ->
  plan_wf (plan_physical files m).
Proof.
  revert m. induction files as [|f files IH]; intros m Hfiles Hm; simpl; [done|].
  apply Forall_cons in Hfiles as [[Hf Hdot] Hfiles].
  destruct (bool_decide_reflect (f = FileRenamer.clean_filename f)) as [Heq | Hne];
    simpl; [by apply IH|].
  destruct (dict_mem f m); simpl; [by apply IH|].
  apply IH; [done|]. apply plan_wf_set; [done|].
  split_and!; simpl; [|done|congruence].
  unfold joinpath. rewrite bool_decide_eq_false_2; done.
Qed.

(** The second loop only appends to the plan. *)
Lemma plan_physical_prefix (files : list str) (m : list (str * rename_info)) :
  exists extra, plan_physical files m = m ++ extra.
Proof.
  revert m. induction files as [|f files IH]; intros m; simpl.
  - exists []. by rewrite app_nil_r.
  - destruct (negb _ && negb (dict_mem f m)) eqn:Hc; [|apply IH].
    apply andb_true_iff in Hc as [_ Hc]. apply negb_true_iff in Hc.
    rewrite dict_set_absent by done.
    destruct (IH (m ++ [(f, RenameInfo f (FileRenamer.clean_filename f) f
                               (joinpath (FileRenamer.clean_filename f)) false)]))
      as [extra ->].
    eexists. rewrite <- (assoc_L (++)). done.
Qed.

Lemma set_add_nonempty (x : str) (s : list str) :
  x ≠ [] -> Forall (fun f => f ≠ []) s -> Forall (fun f => f ≠ []) (set_add x s).
Proof.
  intros Hx Hs. unfold set_add. destruct (bool_decide _); [done|].
  apply Forall_app. split; [done|]. by constructor.
Qed.

Lemma set_union_nonempty (s t : list str) :
  Forall (fun f => f ≠ []) s -> Forall (fun f => f ≠ []) t ->
  Forall (fun f => f ≠ []) (set_union s t).
Proof.
  unfold set_union. revert s. induction t as [|x t IH]; intros s Hs Ht; simpl; [done|].
  apply Forall_cons in Ht as [Hx Ht]. apply IH; [|done]. by apply set_add_nonempty.
Qed.

Lemma endswith_nonempty (s suf : str) : suf ≠ [] -> endswith s suf = true -> s ≠ [].
Proof.
  intros Hsuf Hs ->. unfold endswith in Hs. simpl in Hs.
  destruct (rev suf) as [|x r] eqn:Hr; [|done].
  apply (f_equal (@rev N)) in Hr. rewrite rev_involutive in Hr. done.
Qed.

Lemma physical_files_names (w : world) :
  Forall (fun f => f ≠ [] /\ f ≠ [c_dot]) (physical_files w).
Proof.
  apply Forall_forall. intros f Hf. unfold physical_files, glob_html in Hf.
  apply list_elem_of_In, filter_In in Hf as [Hf _].
  apply filter_In in Hf as [_ Hf].
  split.
  - eapply endswith_nonempty; [|exact Hf]. vm_compute. discriminate.
  - intros ->. vm_compute in Hf. discriminate.
Qed.

End Plan.

Section PlanLibraries.
Context `{UnicodeData} `{Parsers} `{HashOrder}.

Lemma referenced_order_elem (w : world) (f : str) :
  f ∈ referenced_order w <-> f ∈ all_referenced w.
Proof. unfold referenced_order. by rewrite (set_iter_perm (all_referenced w)). Qed.

Lemma collect_links_nonempty (links acc : list str) :
  Forall (fun f => f ≠ []) acc ->
  Forall (fun f => f ≠ []) (collect_links links acc).1.
Proof.
  revert acc. induction links as [|href links IH]; intros acc Hacc; simpl; [done|].
  destruct (_ && _); [|by apply IH].
  destruct (urlparse_path href) as [path|]; [|done].
  destruct (bool_decide_reflect (basename path = [])) as [He | Hne]; simpl;
    [by apply IH|].
  destruct (negb _); [|by apply IH].
  apply IH. by apply set_add_nonempty.
Qed.

Lemma extract_links_from_index_result (w : world) (self : renamer) :
  (extract_links_from_index w self).1 = (extract_links_from_index w init).1
  /\ html_files (extract_links_from_index w self).2 = html_files self
  /\ rename_map (extract_links_from_index w self).2 = rename_map self.
Proof.
  unfold extract_links_from_index.
  destruct (path_exists w index_file); [|done].
  destruct (read_text w index_file) as [content | e]; [|done].
  destruct (collect_links (soup_a_hrefs content) []) as [refs [e|]]; done.
Qed.

Lemma extract_links_from_sitemap_result (w : world) (self : renamer) :
  (extract_links_from_sitemap w self).1 = (extract_links_from_sitemap w init).1
  /\ html_files (extract_links_from_sitemap w self).2 = html_files self
  /\ rename_map (extract_links_from_sitemap w self).2 = rename_map self.
Proof.
  unfold extract_links_from_sitemap.
  destruct (path_exists w sitemap_file); [|done].
  destruct (read_file w sitemap_file) as [data | e]; [|done].
  destruct (ET_parse data) as [root|]; [|done].
  destruct (collect_links (loc_texts ns_loc_tag root) []) as [[|r refs] [e|]]; try done.
  destruct (collect_links (loc_texts loc_tag root) []) as [refs [e|]]; done.
Qed.

Lemma all_referenced_nonempty (w : world) : Forall (fun f => f ≠ []) (all_referenced w).
Proof.
  apply set_union_nonempty.
  - unfold extract_links_from_index.
    destruct (path_exists w index_file); [|done].
    destruct (read_text w index_file) as [content | e]; [|done].
    pose proof (collect_links_nonempty (soup_a_hrefs content) [] ltac:(done)) as Hc.
    destruct (collect_links (soup_a_hrefs content) []) as [refs [e|]]; done.
  - unfold extract_links_from_sitemap.
    destruct (path_exists w sitemap_file); [|done].
    destruct (read_file w sitemap_file) as [data | e]; [|done].
    destruct (ET_parse data) as [root|]; [|done].
    pose proof (collect_links_nonempty (loc_texts ns_loc_tag root) [] ltac:(done)) as Hc.
    pose proof (collect_links_nonempty (loc_texts loc_tag root) [] ltac:(done)) as Hc'.
    destruct (collect_links (loc_texts ns_loc_tag root) []) as [[|r refs] [e|]]; try done.
    destruct (collect_links (loc_texts loc_tag root) []) as [refs [e|]]; done.
Qed.

(** The plan of a new renamer: the entries for the referenced files, then
    those for the other physical files. *)
Lemma referenced_order_nonempty (w : world) :
  Forall (fun f => f ≠ []) (referenced_order w).
Proof.
  unfold referenced_order. rewrite (set_iter_perm (all_referenced w)).
  apply all_referenced_nonempty.
Qed.

Lemma create_rename_map_plan (w : world) :
  rename_map (create_rename_map w init)
  = plan_physical (physical_files w) (plan_referenced w (referenced_order w) []).
Proof.
  unfold create_rename_map, referenced_order, all_referenced.
  destruct (extract_links_from_index_result w init) as (_ & Hh1 & Hm1).
  destruct (extract_links_from_index w init) as [refs1 self1]. simpl in *.
  destruct (extract_links_from_sitemap_result w self1) as (Hr2 & Hh2 & Hm2).
  destruct (extract_links_from_sitemap w self1) as [refs2 self2]. simpl in *.
  rewrite Hr2, Hh2, Hm2, Hh1, Hm1. done.
Qed.

Lemma created_plan_wf (w : world) : plan_wf (rename_map (create_rename_map w init)).
Proof.
  rewrite create_rename_map_plan.
  apply plan_physical_wf; [apply physical_files_names|].
  apply plan_referenced_wf; [apply referenced_order_nonempty|].
  split; constructor.
Qed.

End PlanLibraries.

Lemma set_add_NoDup (x : str) (s : list str) : NoDup s -> NoDup (set_add x s).
Proof.
  intros Hs. unfold set_add. destruct (bool_decide_reflect (x ∈ s)); [done|].
  apply NoDup_app. split_and!; [done | | apply NoDup_singleton].
  intros y Hy ->%list_elem_of_singleton. done.
Qed.

Lemma set_union_NoDup (s t : list str) : NoDup s -> NoDup (set_union s t).
Proof.
  unfold set_union. revert s. induction t as [|x t IH]; intros s Hs; simpl; [done|].
  apply IH. by apply set_add_NoDup.
Qed.

Lemma resolved_items_old_names (m : list (str * rename_info)) (names : gmap str str) :
  old_names (resolved_items names m) = old_names m.
Proof.
  revert names. induction m as [|[k e] m IH]; intros names; [done|].
  simpl. destruct (names !! new_name e); unfold old_names in *;
    rewrite !fmap_cons, IH; done.
Qed.

Section Collision.
Context `{UnicodeData} `{Parsers} `{HashOrder}.

Lemma collect_links_NoDup (links acc : list str) :
  NoDup acc -> NoDup (collect_links links acc).1.
Proof.
  revert acc. induction links as [|href links IH]; intros acc Hacc; simpl; [done|].
  destruct (_ && _); [|by apply IH].
  destruct (urlparse_path href) as [path|]; [|done].
  destruct (_ && _); [|by apply IH].
  apply IH. by apply set_add_NoDup.
Qed.

Lemma all_referenced_NoDup (w : world) : NoDup (all_referenced w).
Proof.
  apply set_union_NoDup. unfold extract_links_from_index.
  destruct (path_exists w index_file); [|constructor].
  destruct (read_text w index_file) as [content | e]; [|constructor].
  pose proof (collect_links_NoDup (soup_a_hrefs content) [] ltac:(constructor)) as Hc.
  destruct (collect_links (soup_a_hrefs content) []) as [refs [e|]]; done.
Qed.

Lemma referenced_order_NoDup (w : world) : NoDup (referenced_order w).
Proof.
  unfold referenced_order. rewrite (set_iter_perm (all_referenced w)).
  apply all_referenced_NoDup.
Qed.

Lemma planned_old_names (w : world) :
  old_names (rename_map (planned w init))
  = old_names (rename_map (create_rename_map w init)).
Proof.
  unfold planned.
  rewrite resolve_plan_rename_map by apply plan_wf_old_names, created_plan_wf.
  apply resolved_items_old_names.
Qed.

(** A file that is already its own cleaned name gets no entry. *)
Lemma clean_file_not_planned (w : world) (f : str) :
  FileRenamer.clean_filename f = f -> f ∉ old_names (rename_map (planned w init)).
Proof.
  intros Hf. rewrite planned_old_names. intros Hin.
  destruct (created_plan_wf w) as [_ Hwf]. rewrite Forall_forall in Hwf.
  unfold old_names in Hin. apply list_elem_of_fmap in Hin as (item & -> & Hin).
  destruct (Hwf _ Hin) as (_ & _ & Hne). done.
Qed.

(** C4 (as amended). When the set of referenced names holds two names
    that exist as physical files, that both differ from their cleaned
    form and that both clean to [relatorio.html], the plan assigns
    [relatorio.html] to the one that the iteration of the set yields
    first and [relatorio-2.html] to the other. Which of the two comes
    first is the order of the set, a hash order that changes from run to
    run, and not the order of the links or of a list. A file that is
    already its own cleaned name, as [relatorio.html] is, gets no
    entry. *)
Theorem referenced_collision (w : world) (f1 f2 : str) :
  referenced_order w = [f1; f2] ->
  path_exists w (joinpath f1) = true ->
  path_exists w (joinpath f2) = true ->
  FileRenamer.clean_filename f1 = py "relatorio.html" ->
  FileRenamer.clean_filename f2 = py "relatorio.html" ->
  f1 ≠ py "relatorio.html" ->
  f2 ≠ py "relatorio.html" ->
  rename_map (planned w init) !! 0
  = Some (joinpath f1,
          RenameInfo f1 (py "relatorio.html") (joinpath f1) (py "relatorio.html") true)
  /\ rename_map (planned w init) !! 1
     = Some (joinpath f2,
             RenameInfo f2 (py "relatorio-2.html") (joinpath f2)
                        (py "relatorio-2.html") true)
  /\ (forall f, FileRenamer.clean_filename f = f ->
        f ∉ old_names (rename_map (planned w init))).
Proof.
  intros Hrefs Hex1 Hex2 Hc1 Hc2 Hn1 Hn2.
  pose proof (referenced_order_NoDup w) as Hnd.
  pose proof (referenced_order_nonempty w) as Hne.
  rewrite Hrefs in Hnd, Hne.
  apply NoDup_cons in Hnd as [Hf12 _].
  rewrite not_elem_of_cons in Hf12. destruct Hf12 as [Hf12 _].
  apply Forall_cons in Hne as [He1 Hne]. apply Forall_cons in Hne as [He2 _].
  assert (Hk : joinpath f1 ≠ joinpath f2)
    by (intros Hk; by apply joinpath_inj in Hk).
  assert (Hplan : exists extra,
    rename_map (create_rename_map w init)
    = [ (joinpath f1, RenameInfo f1 (py "relatorio.html") (joinpath f1)
                                 (joinpath (py "relatorio.html")) true);
        (joinpath f2, RenameInfo f2 (py "relatorio.html") (joinpath f2)
                                 (joinpath (py "relatorio.html")) true) ] ++ extra).
  { rewrite create_rename_map_plan, Hrefs. cbn [plan_referenced].
    rewrite Hex1, Hex2, Hc1, Hc2.
    destruct (bool_decide_reflect (f1 = py "relatorio.html")); [done|].
    destruct (bool_decide_reflect (f2 = py "relatorio.html")); [done|].
    cbn [negb dict_set].
    destruct (bool_decide_reflect (joinpath f1 = joinpath f2)); [done|].
    apply plan_physical_prefix. }
  destruct Hplan as [extra Hplan].
  assert (Hempty : forall n : str, is_Some ((∅ : gmap str str) !! n) <-> n ∈ @nil str).
  { intros n. rewrite lookup_empty, elem_of_nil. split; [by intros [? ?] | done]. }
  split_and!; [| | apply clean_file_not_planned].
  - unfold planned.
    rewrite resolve_plan_rename_map by apply plan_wf_old_names, created_plan_wf.
    rewrite Hplan.
    erewrite (resolved_items_lookup _ ∅ [] 0); [| exact Hempty | reflexivity].
    simpl. destruct (bool_decide_reflect (py "relatorio.html" ∈ @nil str)) as [Hin|_].
    + by apply elem_of_nil in Hin.
    + done.
  - unfold planned.
    rewrite resolve_plan_rename_map by apply plan_wf_old_names, created_plan_wf.
    rewrite Hplan.
    erewrite (resolved_items_lookup _ ∅ [] 1); [| exact Hempty | reflexivity].
    simpl.
    destruct (bool_decide_reflect (py "relatorio.html" ∈ [py "relatorio.html"]))
      as [_|Hin]; [done|].
    exfalso. apply Hin. left.
Qed.

End Collision.

(* ===================================================================== *)
(** * Plans of concrete folders *)
(* ===================================================================== *)

(** Three pages, two of which collide on [a.html]. *)
Definition pair_folder : world :=
  Demo.folder [ (py "A.html", Demo.page); (py "a!.html", Demo.page);
                (py "B.html", Demo.page) ].

(** Two pages that collide on [a.html], and a page whose cleaned name is
    [a-2.html]. *)
Definition suffix_folder : world :=
  Demo.folder [ (py "A.html", Demo.page); (py "a!.html", Demo.page);
                (py "A-2.html", Demo.page) ].

(** Three pages that collide on [a.html]. *)
Definition triple_folder : world :=
  Demo.folder [ (py "A.html", Demo.page); (py "a!.html", Demo.page);
                (py "a$.html", Demo.page) ].

(** An index that refers to [Relatório.html] and [relatorio.html], in
    either order, with both pages in the folder. *)
Definition report_folder (names : list str) : world :=
  Demo.folder [ (py "index.html", File (Demo.index_page names));
                (py "Relatório.html", Demo.page);
                (py "relatorio.html", Demo.page) ].

(** An index that refers to [Relatório.html] and [RELATORIO.html], with
    both pages in the folder. *)
Definition reports_folder : world :=
  Demo.folder [ (py "index.html",
                 File (Demo.index_page [py "Relatório.html"; py "RELATORIO.html"]));
                (py "Relatório.html", Demo.page);
                (py "RELATORIO.html", Demo.page) ].

(** Settles a decidable statement about concrete data by evaluation. *)
Ltac decide_by_computation :=
  match goal with
  | |- ?P =>
      let d := constr:(_ : Decision P) in
      apply (@bool_decide_unpack P d); vm_compute; exact I
  end.

Lemma conflicts_resolved_witness :
  NoDup (old_names (rename_map (create_rename_map pair_folder init)))
  /\ Forall (fun n => occurrences n
                        (new_names (rename_map (create_rename_map pair_folder init))) <= 2)
            (new_names (rename_map (create_rename_map pair_folder init)))
  /\ Forall (fun n => suffixed n
                      ∉ new_names (rename_map (create_rename_map pair_folder init)))
            (later_duplicates []
               (new_names (rename_map (create_rename_map pair_folder init))))
  /\ rename_map (planned pair_folder init) !! 2
     = Some (py "A.html",
             RenameInfo (py "A.html") (py "a-2.html") (py "A.html") (py "a-2.html") false)
  /\ NoDup (new_names (rename_map (planned pair_folder init))).
Proof.
  assert (H1 : NoDup (old_names (rename_map (create_rename_map pair_folder init))))
    by decide_by_computation.
  assert (H2 : Forall (fun n => occurrences n
                        (new_names (rename_map (create_rename_map pair_folder init))) <= 2)
            (new_names (rename_map (create_rename_map pair_folder init))))
    by decide_by_computation.
  assert (H3 : Forall (fun n => suffixed n
                      ∉ new_names (rename_map (create_rename_map pair_folder init)))
            (later_duplicates []
               (new_names (rename_map (create_rename_map pair_folder init)))))
    by decide_by_computation.
  destruct (conflicts_resolved (create_rename_map pair_folder init) H1 H2) as [Hpos Hnd].
  split_and!; [exact H1 | exact H2 | exact H3 | | exact (Hnd H3)].
  unfold planned.
  rewrite (Hpos 2 (py "A.html")
             (RenameInfo (py "A.html") (py "a.html") (py "A.html") (py "a.html") false))
    by (vm_compute; reflexivity).
  vm_compute. reflexivity.
Defined.

(** C1 fails as stated: in the plan of [suffix_folder] the second of the
    two files that collide on [a.html] is given [a-2.html], which is
    already the new name of [A-2.html]. Whatever the order in which the
    folder is listed, two entries of the resolved plan have the new name
    [a-2.html]. *)
Lemma resolved_name_taken :
  old_names (rename_map (planned suffix_folder init))
  = [py "A-2.html"; py "a!.html"; py "A.html"]
  /\ new_names (rename_map (planned suffix_folder init))
     = [py "a-2.html"; py "a.html"; py "a-2.html"]
  /\ ~ NoDup (new_names (rename_map (planned suffix_folder init))).
Proof.
  split_and!; [vm_compute; reflexivity | vm_compute; reflexivity |].
  intros Hnd. apply (bool_decide_pack _) in Hnd. vm_compute in Hnd. exact Hnd.
Qed.

(** When three entries collide, [check_conflicts] reports two pairs and
    [resolve_conflicts] numbers each pair from 2: the second and the third
    file both get [a-2.html], and none gets [a-3.html]. *)
Example three_way_conflict :
  check_conflicts (create_rename_map triple_folder init)
  = [ Conflict (py "a.html") [py "a$.html"; py "a!.html"];
      Conflict (py "a.html") [py "a$.html"; py "A.html"] ]
  /\ old_names (rename_map (planned triple_folder init))
     = [py "a$.html"; py "a!.html"; py "A.html"]
  /\ new_names (rename_map (planned triple_folder init))
     = [py "a.html"; py "a-2.html"; py "a-2.html"].
Proof. split_and!; vm_compute; reflexivity. Qed.

Lemma referenced_collision_witness :
  @referenced_order demo_parsers list_order reports_folder
  = [py "Relatório.html"; py "RELATORIO.html"]
  /\ @referenced_order demo_parsers reverse_order reports_folder
     = [py "RELATORIO.html"; py "Relatório.html"]
  /\ path_exists reports_folder (joinpath (py "Relatório.html")) = true
  /\ path_exists reports_folder (joinpath (py "RELATORIO.html")) = true
  /\ FileRenamer.clean_filename (py "Relatório.html") = py "relatorio.html"
  /\ FileRenamer.clean_filename (py "RELATORIO.html") = py "relatorio.html"
  /\ rename_map (@planned latin1 demo_parsers list_order reports_folder init) !! 1
     = Some (py "RELATORIO.html",
             RenameInfo (py "RELATORIO.html") (py "relatorio-2.html")
                        (py "RELATORIO.html") (py "relatorio-2.html") true)
  /\ rename_map (@planned latin1 demo_parsers reverse_order reports_folder init) !! 1
     = Some (py "Relatório.html",
             RenameInfo (py "Relatório.html") (py "relatorio-2.html")
                        (py "Relatório.html") (py "relatorio-2.html") true).
Proof.
  assert (H1 : @referenced_order demo_parsers list_order reports_folder
               = [py "Relatório.html"; py "RELATORIO.html"])
    by (vm_compute; reflexivity).
  assert (H1' : @referenced_order demo_parsers reverse_order reports_folder
                = [py "RELATORIO.html"; py "Relatório.html"])
    by (vm_compute; reflexivity).
  assert (H2 : path_exists reports_folder (joinpath (py "Relatório.html")) = true)
    by (vm_compute; reflexivity).
  assert (H3 : path_exists reports_folder (joinpath (py "RELATORIO.html")) = true)
    by (vm_compute; reflexivity).
  assert (H4 : FileRenamer.clean_filename (py "Relatório.html") = py "relatorio.html")
    by (vm_compute; reflexivity).
  assert (H5 : FileRenamer.clean_filename (py "RELATORIO.html") = py "relatorio.html")
    by (vm_compute; reflexivity).
  assert (H6 : py "Relatório.html" ≠ py "relatorio.html") by (vm_compute; discriminate).
  assert (H7 : py "RELATORIO.html" ≠ py "relatorio.html") by (vm_compute; discriminate).
  destruct (@referenced_collision latin1 demo_parsers list_order reports_folder _ _
              H1 H2 H3 H4 H5 H6 H7) as (_ & Hsecond & _).
  destruct (@referenced_collision latin1 demo_parsers reverse_order reports_folder _ _
              H1' H3 H2 H5 H4 H7 H6) as (_ & Hsecond' & _).
  split_and!; [exact H1 | exact H1' | exact H2 | exact H3 | exact H4 | exact H5 | |].
  - rewrite Hsecond. vm_compute. reflexivity.
  - rewrite Hsecond'. vm_compute. reflexivity.
Defined.

(** C4 fails as stated: [relatorio.html] is already its own cleaned name,
    so the plan has one entry, for [Relatório.html], and no conflict; no
    file is assigned [relatorio-2.html]. Neither the order of the two
    links nor the order in which the set is iterated matters. *)
Lemma clean_referenced_file_unplanned :
  let names := [py "Relatório.html"; py "relatorio.html"] in
  all_referenced (report_folder names) = names
  /\ all_referenced (report_folder (rev names)) = rev names
  /\ FileRenamer.clean_filename (py "Relatório.html") = py "relatorio.html"
  /\ FileRenamer.clean_filename (py "relatorio.html") = py "relatorio.html"
  /\ check_conflicts (create_rename_map (report_folder names) init) = []
  /\ rename_map (planned (report_folder names) init)
     = [ (py "Relatório.html",
          RenameInfo (py "Relatório.html") (py "relatorio.html")
                     (py "Relatório.html") (py "relatorio.html") true) ]
  /\ rename_map (planned (report_folder (rev names)) init)
     = rename_map (planned (report_folder names) init)
  /\ @check_conflicts
       (@create_rename_map latin1 demo_parsers reverse_order (report_folder names) init)
     = []
  /\ rename_map (@planned latin1 demo_parsers reverse_order (report_folder names) init)
     = rename_map (planned (report_folder names) init).
Proof. split_and!; vm_compute; reflexivity. Qed.

(* ===================================================================== *)
(** * Applying the plan *)
(* ===================================================================== *)

Lemma with_errors_nil (self : renamer) : with_errors self [] = self.
Proof. destruct self. unfold with_errors. simpl. by rewrite app_nil_r. Qed.

Lemma with_errors_app (self : renamer) (errs1 errs2 : list error) :
  with_errors (with_errors self errs1) errs2 = with_errors self (errs1 ++ errs2).
Proof. unfold with_errors. simpl. by rewrite (assoc_L (++)). Qed.

Lemma backup_folder_child :
  backup_folder ≠ [] /\ backup_folder ≠ [c_dot; c_dot].
Proof. split; vm_compute; discriminate. Qed.

Lemma stat_child (w : world) (p : str) :
  p ≠ [] -> p ≠ [c_dot; c_dot] -> stat w p = disk w !! p.
Proof.
  intros H1 H2. unfold stat.
  destruct (bool_decide_reflect (p = [])); [done|].
  destruct (bool_decide_reflect (p = [c_dot; c_dot])); done.
Qed.

Lemma stat_file_child (w : world) (p : str) (data : str) :
  stat w p = Some (File data) -> disk w !! p = Some (File data).
Proof.
  unfold stat.
  destruct (bool_decide_reflect (p = [])); [done|].
  destruct (bool_decide_reflect (p = [c_dot; c_dot])); done.
Qed.

(** An entry whose source is missing is reported and left alone. *)
Lemma rename_step_missing (backup : bool) (e : rename_info) (w : world)
    (self : renamer) (ok : list renamed) :
  path_exists w (old_path e) = false ->
  rename_step backup e (w, self, ok)
  = (w, record_error self (ErrNotFound (old_path e)), ok).
Proof. intros Hm. unfold rename_step. rewrite Hm. done. Qed.

(** So is an entry whose destination is taken by another file. *)
Lemma rename_step_occupied (backup : bool) (e : rename_info) (w : world)
    (self : renamer) (ok : list renamed) :
  path_exists w (old_path e) = true ->
  path_exists w (new_path e) = true -> new_path e ≠ old_path e ->
  rename_step backup e (w, self, ok)
  = (w, record_error self (ErrDestinationExists (new_path e)), ok).
Proof.
  intros Ho Hn Hne. unfold rename_step. rewrite Ho, Hn. simpl.
  rewrite bool_decide_eq_false_2 by done. done.
Qed.

(** Once the copy is made, the rename itself cannot fail. *)
Lemma rename_after_copy (w w1 : world) (old new : str) :
  copy2 w old backup_folder old = Returned w1 ->
  exists w2, rename w1 old new = Returned w2.
Proof.
  unfold copy2. destruct (stat w old) as [[data|]|] eqn:Hst; try done.
  destruct (disk w !! backup_folder) as [[|children]|] eqn:Hb; try done.
  intros [= <-]. unfold rename.
  destruct (bool_decide (old = new)); [eauto|].
  unfold stat in Hst.
  destruct (bool_decide (old = []) || bool_decide (old = [c_dot; c_dot])); [done|].
  simpl. rewrite lookup_insert_ne by congruence. rewrite Hst. eauto.
Qed.

(** One turn of the loop either appends one message and leaves the folder
    and the result as they were, or appends the entry to the result. What
    it does to the folder does not depend on the renamer or the result. *)
Lemma rename_step_frame (backup : bool) (e : rename_info) (w : world) :
  exists w' errs oks,
    length errs + length oks = 1
    /\ (oks = [] -> w' = w)
    /\ (oks = [] \/ oks = [renamed_of e])
    /\ forall self ok,
         rename_step backup e (w, self, ok) = (w', with_errors self errs, ok ++ oks).
Proof.
  unfold rename_step.
  destruct (path_exists w (old_path e)); simpl.
  2:{ exists w, [ErrNotFound (old_path e)], []. split_and!; auto.
      intros. by rewrite app_nil_r. }
  destruct (path_exists w (new_path e) && _); simpl.
  { exists w, [ErrDestinationExists (new_path e)], []. split_and!; auto.
    intros. by rewrite app_nil_r. }
  destruct backup.
  - destruct (copy2 w (old_path e) backup_folder (old_path e)) as [w1|exc] eqn:Hc.
    + destruct (rename_after_copy _ _ _ (new_path e) Hc) as [w2 Hr]. rewrite Hr.
      exists w2, [], [renamed_of e]. split_and!; auto; [done|].
      intros. by rewrite with_errors_nil.
    + exists w, [ErrRename (old_name e) exc], []. split_and!; auto.
      intros. by rewrite app_nil_r.
  - destruct (rename w (old_path e) (new_path e)) as [w2|exc].
    + exists w2, [], [renamed_of e]. split_and!; auto; [done|].
      intros. by rewrite with_errors_nil.
    + exists w, [ErrRename (old_name e) exc], []. split_and!; auto.
      intros. by rewrite app_nil_r.
Qed.

Lemma rename_loop_cons (backup : bool) (k : str) (e : rename_info)
    (m : list (str * rename_info)) (st : world * renamer * list renamed) :
  rename_loop backup ((k, e) :: m) st
  = rename_loop backup m (rename_step backup e st).
Proof. reflexivity. Qed.

Lemma rename_loop_frame (backup : bool) (m : list (str * rename_info)) (w : world) :
  exists w' errs oks,
    length errs + length oks = length m
    /\ forall self ok,
         rename_loop backup m (w, self, ok) = (w', with_errors self errs, ok ++ oks).
Proof.
  revert w. induction m as [|[k e] m IH]; intros w.
  - exists w, [], []. split; [done|]. intros. simpl.
    by rewrite with_errors_nil, app_nil_r.
  - destruct (rename_step_frame backup e w) as (w1 & errs1 & oks1 & Hlen1 & _ & _ & Hstep).
    destruct (IH w1) as (w2 & errs2 & oks2 & Hlen2 & Hloop).
    exists w2, (errs1 ++ errs2), (oks1 ++ oks2). split.
    + rewrite !length_app. simpl. lia.
    + intros self ok. rewrite rename_loop_cons, Hstep, Hloop.
      rewrite with_errors_app, (assoc_L (++)). done.
Qed.

Lemma rename_loop_app (backup : bool) (before after : list (str * rename_info))
    (st : world * renamer * list renamed) :
  rename_loop backup (before ++ after) st
  = rename_loop backup after (rename_loop backup before st).
Proof. apply fold_left_app. Qed.


(** ** Successful turns *)

Lemma path_exists_false (w : world) (p : str) :
  path_exists w p = false -> p ≠ [] /\ p ≠ [c_dot; c_dot] /\ disk w !! p = None.
Proof.
  unfold path_exists, stat.
  destruct (bool_decide_reflect (p = [])) as [-> | Hp]; simpl; [done|].
  destruct (bool_decide_reflect (p = [c_dot; c_dot])) as [-> | Hq]; simpl; [done|].
  destruct (disk w !! p); done.
Qed.

Lemma stat_file (w : world) (p : str) (data : str) :
  stat w p = Some (File data) ->
  p ≠ [] /\ p ≠ [c_dot; c_dot] /\ disk w !! p = Some (File data).
Proof.
  unfold stat.
  destruct (bool_decide_reflect (p = [])) as [-> | Hp]; simpl; [done|].
  destruct (bool_decide_reflect (p = [c_dot; c_dot])) as [-> | Hq]; simpl; done.
Qed.

(** One turn of the loop of [perform_renames] on an entry whose source is
    a regular file and whose destination does not exist (with the backup
    folder in place when backups are on) succeeds: the source path is
    gone, the destination holds the text the source held and, with
    backups on, the backup folder holds that text under the old name. No
    other child of the folder changes. *)
Lemma rename_step_success (backup : bool) (e : rename_info) (w : world)
    (self : renamer) (ok : list renamed) (data : str) :
  stat w (old_path e) = Some (File data) ->
  path_exists w (new_path e) = false ->
  (backup = true -> is_dir w backup_folder) ->
  let st := rename_step backup e (w, self, ok) in
  st.1.2 = self
  /\ st.2 = ok ++ [renamed_of e]
  /\ disk st.1.1 !! old_path e = None
  /\ disk st.1.1 !! new_path e = Some (File data)
  /\ (backup = true ->
      forall children,
        disk w !! backup_folder = Some (Dir children) ->
        disk st.1.1 !! backup_folder = Some (Dir (<[old_path e := data]> children)))
  /\ (forall p, p ≠ old_path e -> p ≠ new_path e ->
                (backup = true -> p ≠ backup_folder) ->
                disk st.1.1 !! p = disk w !! p).
Proof.
  intros Hold Hnew Hdir st. subst st.
  pose proof (stat_file _ _ _ Hold) as (Ho1 & Ho2 & Hodisk).
  pose proof (path_exists_false _ _ Hnew) as (Hn1 & Hn2 & Hndisk).
  assert (Hne : old_path e ≠ new_path e) by congruence.
  assert (Hex : path_exists w (old_path e) = true)
    by (unfold path_exists; by rewrite Hold).
  unfold rename_step. rewrite Hex, Hnew. simpl.
  destruct backup.
  - destruct (Hdir eq_refl) as [children Hb].
    assert (Hob : old_path e ≠ backup_folder) by congruence.
    assert (Hnb : new_path e ≠ backup_folder) by congruence.
    unfold copy2. rewrite Hold, Hb. unfold rename. simpl.
    rewrite bool_decide_eq_false_2 by done.
    rewrite (bool_decide_eq_false_2 (old_path e = [])) by done.
    rewrite (bool_decide_eq_false_2 (old_path e = [c_dot; c_dot])) by done. simpl.
    rewrite lookup_insert_ne, Hodisk by done. simpl.
    split_and!; try done.
    + rewrite lookup_insert_ne by done. apply lookup_delete_eq.
    + by rewrite lookup_insert_eq.
    + intros _ children' Hb'. assert (children' = children) as -> by congruence.
      rewrite lookup_insert_ne, lookup_delete_ne, lookup_insert_eq by done. done.
    + intros p Hp1 Hp2 Hp3. specialize (Hp3 eq_refl).
      rewrite lookup_insert_ne, lookup_delete_ne, lookup_insert_ne by done. done.
  - unfold rename. simpl.
    rewrite bool_decide_eq_false_2 by done.
    rewrite (bool_decide_eq_false_2 (old_path e = [])) by done.
    rewrite (bool_decide_eq_false_2 (old_path e = [c_dot; c_dot])) by done. simpl.
    rewrite Hodisk. simpl.
    split_and!; try done.
    + rewrite lookup_insert_ne by done. apply lookup_delete_eq.
    + by rewrite lookup_insert_eq.
    + intros p Hp1 Hp2 Hp3.
      rewrite lookup_insert_ne, lookup_delete_ne by done. done.
Qed.

Definition old_paths (items : list (str * rename_info)) : list str :=
  (fun item => old_path item.2) <$> items.

Definition new_paths (items : list (str * rename_info)) : list str :=
  (fun item => new_path item.2) <$> items.

(** The entry can be applied in the folder [w] as part of the plan
    [plan]: its source is a regular file, its destination does not exist
    and is not the source of an entry of the plan. *)
Definition applicable (w : world) (plan : list (str * rename_info))
    (item : str * rename_info) : Prop :=
  (exists data, stat w (old_path item.2) = Some (File data))
  /\ path_exists w (new_path item.2) = false
  /\ new_path item.2 ∉ old_paths plan.

(** The entry was applied: in the folder [w'] its destination holds the
    text that its source held in [w], its source is gone and, with
    backups on, the backup folder holds that text under the old name. *)
Definition applied (backup : bool) (w w' : world) (item : str * rename_info) : Prop :=
  forall data,
    stat w (old_path item.2) = Some (File data) ->
    disk w' !! new_path item.2 = Some (File data)
    /\ disk w' !! old_path item.2 = None
    /\ (backup = true ->
        exists children,
          disk w' !! backup_folder = Some (Dir children)
          /\ children !! old_path item.2 = Some data).

Lemma stat_frame (w w' : world) (p : str) :
  disk w' !! p = disk w !! p -> stat w' p = stat w p.
Proof. intros Hp. unfold stat. destruct (_ || _); done. Qed.

Lemma rename_loop_succeeds (backup : bool) (todo : list (str * rename_info)) :
  forall (w : world) (self : renamer) (ok : list renamed),
    NoDup (old_paths todo) -> NoDup (new_paths todo) ->
    Forall (applicable w todo) todo ->
    (backup = true ->
     is_dir w backup_folder
     /\ Forall (fun item => new_path item.2 ≠ backup_folder) todo) ->
    let st := rename_loop backup todo (w, self, ok) in
    st.1.2 = self
    /\ st.2 = ok ++ (renamed_of <$> todo.*2)
    /\ Forall (applied backup w st.1.1) todo
    /\ (forall p, p ∉ old_paths todo -> p ∉ new_paths todo ->
                  (backup = true -> p ≠ backup_folder) ->
                  disk st.1.1 !! p = disk w !! p)
    /\ (backup = true -> forall children,
          disk w !! backup_folder = Some (Dir children) ->
          exists children',
            disk st.1.1 !! backup_folder = Some (Dir children')
            /\ forall q, q ∉ old_paths todo -> children' !! q = children !! q).
Proof.
  induction todo as [|[k e] rest IH]; intros w self ok Hold Hnew Happ Hback.
  { simpl. split_and!; [done | by rewrite app_nil_r | constructor | done |].
    intros _ children Hc. eauto. }
  change (old_paths ((k, e) :: rest)) with (old_path e :: old_paths rest) in *.
  change (new_paths ((k, e) :: rest)) with (new_path e :: new_paths rest) in *.
  apply NoDup_cons in Hold as [Hold_e Hold]. apply NoDup_cons in Hnew as [Hnew_e Hnew].
  apply Forall_cons in Happ as [((data & Hst) & Hfree & Hnot_old) Happ].
  cbn [fst snd] in *.
  pose proof (stat_file _ _ _ Hst) as (Ho1 & Ho2 & Hodisk).
  pose proof (path_exists_false _ _ Hfree) as (Hn1 & Hn2 & Hndisk).
  assert (Hob : backup = true -> old_path e ≠ backup_folder).
  { intros Hb. destruct (Hback Hb) as [[children Hc] _]. congruence. }
  assert (Hnb : backup = true -> new_path e ≠ backup_folder).
  { intros Hb. destruct (Hback Hb) as [_ Hall]. by apply Forall_cons in Hall as [? _]. }
  destruct (rename_step_success backup e w self ok data Hst Hfree)
    as (Hself1 & Hok1 & Hgone & Hthere & Hcopy & Hframe).
  { intros Hb. by destruct (Hback Hb). }
  rewrite rename_loop_cons.
  destruct (rename_step backup e (w, self, ok)) as [[w1 self1] ok1]. simpl in *.
  subst self1 ok1.
  assert (Hstat1 : forall item, item ∈ rest ->
            stat w1 (old_path item.2) = stat w (old_path item.2)).
  { intros item Hin. rewrite Forall_forall in Happ.
    destruct (Happ _ Hin) as ((d & Hd) & _ & Hno).
    apply stat_frame, Hframe.
    - intros Heq. apply Hold_e. rewrite <- Heq.
      apply list_elem_of_fmap. by exists item.
    - intros Heq. apply Hnot_old. rewrite <- Heq. right.
      apply list_elem_of_fmap. by exists item.
    - intros Hb Heq. destruct (Hback Hb) as [[children Hc] _].
      apply stat_file in Hd as (_ & _ & Hd). congruence. }
  assert (Happ1 : Forall (applicable w1 rest) rest).
  { apply Forall_forall. intros item Hin. rewrite Forall_forall in Happ.
    destruct (Happ _ Hin) as ((d & Hd) & Hf & Hno).
    pose proof (path_exists_false _ _ Hf) as (Hp1 & Hp2 & Hpdisk).
    split_and!.
    - exists d. by rewrite Hstat1.
    - unfold path_exists. rewrite stat_child by done. rewrite Hframe, Hpdisk; [done | | |].
      + intros Heq. apply Hno. rewrite Heq. left.
      + intros Heq. apply Hnew_e. rewrite <- Heq.
        apply list_elem_of_fmap. by exists item.
      + intros Hb. destruct (Hback Hb) as [_ Hall].
        apply Forall_cons in Hall as [_ Hall]. rewrite Forall_forall in Hall.
        by apply Hall.
    - intros Hin'. apply Hno. by right. }
  assert (Hback1 : backup = true ->
            is_dir w1 backup_folder
            /\ Forall (fun item => new_path item.2 ≠ backup_folder) rest).
  { intros Hb. destruct (Hback Hb) as [[children Hc] Hall].
    apply Forall_cons in Hall as [_ Hall]. split; [|done].
    exists (<[old_path e := data]> children). by apply Hcopy. }
  destruct (IH w1 self (ok ++ [renamed_of e]) Hold Hnew Happ1 Hback1)
    as (Hself & Hok & Hdone & Hframe' & Hcopies).
  assert (Hrest_new : forall item, item ∈ rest -> new_path item.2 ≠ old_path e).
  { intros item Hin Heq. rewrite Forall_forall in Happ.
    destruct (Happ _ Hin) as (_ & _ & Hno). apply Hno. rewrite Heq. left. }
  assert (Hold_new : old_path e ∉ new_paths rest).
  { intros (item & Heq & Hin)%list_elem_of_fmap. by apply (Hrest_new item). }
  split_and!.
  - done.
  - rewrite Hok, <- (assoc_L (++)). done.
  - constructor.
    + intros d Hd. simpl in *. assert (d = data) as -> by congruence.
      split_and!.
      * rewrite Hframe'; [done | | done | by auto].
        intros Hin. apply Hnot_old. by right.
      * rewrite Hframe'; [done | done | done | by auto].
      * intros Hb. destruct (Hback Hb) as [[children Hc] _].
        destruct (Hcopies Hb _ (Hcopy Hb _ Hc)) as (children' & Hc' & Hsame).
        exists children'. split; [done|]. rewrite Hsame by done.
        apply lookup_insert_eq.
    + apply Forall_forall. intros item Hin. rewrite Forall_forall in Hdone.
      intros d Hd. apply (Hdone item Hin). by rewrite Hstat1.
  - intros p Hp1 Hp2 Hp3. apply not_elem_of_cons in Hp1 as [Hp1 Hp1'].
    apply not_elem_of_cons in Hp2 as [Hp2 Hp2'].
    rewrite Hframe' by done. by apply Hframe.
  - intros Hb children Hc.
    destruct (Hcopies Hb _ (Hcopy Hb _ Hc)) as (children' & Hc' & Hsame).
    exists children'. split; [done|]. intros q [Hq Hq']%not_elem_of_cons.
    rewrite Hsame by done. by rewrite lookup_insert_ne.
Qed.

Lemma rename_loop_skip_missing (backup : bool)
    (before after : list (str * rename_info)) (bad : str * rename_info)
    (w w' : world) (self self' : renamer) (ok' : list renamed) :
  path_exists (rename_loop backup before (w, self, [])).1.1 (old_path bad.2) = false ->
  rename_loop backup (before ++ after) (w, self, []) = (w', self', ok') ->
  length ok' = length (before ++ after) ->
  rename_loop backup (before ++ bad :: after) (w, self, [])
  = (w', record_error self' (ErrNotFound (old_path bad.2)), ok').
Proof.
  intros Hmiss Hothers Hall.
  destruct (rename_loop_frame backup before w) as (w1 & errs1 & oks1 & Hlen1 & Hl1).
  destruct (rename_loop_frame backup after w1) as (w2 & errs2 & oks2 & Hlen2 & Hl2).
  rewrite rename_loop_app, Hl1, Hl2 in Hothers. injection Hothers as <- <- <-.
  rewrite rename_loop_app. destruct bad as [k e]. rewrite rename_loop_cons.
  rewrite Hl1 in Hmiss |- *. simpl in Hmiss.
  rewrite rename_step_missing by done. rewrite Hl2.
  rewrite length_app in Hall. simpl in Hall. rewrite !length_app in Hall.
  assert (errs1 = []) as -> by (apply length_zero_iff_nil; lia).
  assert (errs2 = []) as -> by (apply length_zero_iff_nil; lia).
  unfold record_error, with_errors. simpl. rewrite !app_nil_r. done.
Qed.

(** A plan in which one entry has no source while the others can be
    applied: the others are renamed, and the entry without source is
    reported. *)
Lemma rename_loop_others (backup : bool) (before after : list (str * rename_info))
    (bad : str * rename_info) (w : world) (self : renamer) :
  NoDup (old_paths (before ++ after)) -> NoDup (new_paths (before ++ after)) ->
  Forall (applicable w (before ++ after)) (before ++ after) ->
  (backup = true ->
   is_dir w backup_folder
   /\ Forall (fun item => new_path item.2 ≠ backup_folder) (before ++ after)) ->
  path_exists w (old_path bad.2) = false ->
  old_path bad.2 ∉ new_paths before ->
  let final := rename_loop backup (before ++ bad :: after) (w, self, []) in
  final.2 = renamed_of <$> (before ++ after).*2
  /\ final.1.2 = record_error self (ErrNotFound (old_path bad.2))
  /\ Forall (applied backup w final.1.1) (before ++ after).
Proof.
  intros Hold Hnew Happ Hback Hmiss Hfresh final. subst final.
  destruct (rename_loop_succeeds backup (before ++ after) w self [] Hold Hnew Happ Hback)
    as (Hself & Hok & Happlied & _).
  pose proof (path_exists_false _ _ Hmiss) as (Hm1 & Hm2 & Hmdisk).
  assert (Hold_b : NoDup (old_paths before)).
  { unfold old_paths in *. rewrite fmap_app in Hold. by apply NoDup_app in Hold as [? _]. }
  assert (Hnew_b : NoDup (new_paths before)).
  { unfold new_paths in *. rewrite fmap_app in Hnew. by apply NoDup_app in Hnew as [? _]. }
  assert (Happ_b : Forall (applicable w before) before).
  { apply Forall_app in Happ as [Happ _]. eapply Forall_impl; [exact Happ|].
    intros item (Hd & Hf & Hno). split_and!; [done | done |].
    intros Hin. apply Hno. unfold old_paths in *. rewrite fmap_app, elem_of_app.
    by left. }
  assert (Hback_b : backup = true ->
            is_dir w backup_folder
            /\ Forall (fun item => new_path item.2 ≠ backup_folder) before).
  { intros Hb. destruct (Hback Hb) as [Hdir Hall]. split; [done|].
    by apply Forall_app in Hall as [? _]. }
  destruct (rename_loop_succeeds backup before w self [] Hold_b Hnew_b Happ_b Hback_b)
    as (_ & _ & _ & Hframe & _).
  assert (Hturn : path_exists (rename_loop backup before (w, self, [])).1.1
                    (old_path bad.2) = false).
  { unfold path_exists. rewrite stat_child by done. rewrite Hframe, Hmdisk; [done | | |].
    - intros (item & Heq & Hin)%list_elem_of_fmap.
      rewrite Forall_forall in Happ_b. destruct (Happ_b _ Hin) as ((d & Hd) & _).
      rewrite <- Heq in Hd. unfold path_exists in Hmiss. by rewrite Hd in Hmiss.
    - done.
    - intros Hb Heq. destruct (Hback Hb) as [[children Hc] _]. congruence. }
  destruct (rename_loop backup (before ++ after) (w, self, []))
    as [[w' self'] ok'] eqn:Hothers. simpl in *. subst self'.
  rewrite (rename_loop_skip_missing backup before after bad w w' self self ok'
             Hturn Hothers).
  - done.
  - rewrite Hok, length_fmap, length_fmap. done.
Qed.

(** C5. The loop of [perform_renames] takes the entries in the order of
    the plan and goes on after each of them; an entry whose source is
    missing, or whose destination is taken by another file, adds its
    message to [self.errors] and leaves the folder and the result as they
    were; every entry adds either one message or itself to the result; an
    entry whose source is a regular file and whose destination is free is
    renamed: its source path is gone and its destination holds the text
    of the source (and the backup folder a copy under the old name, with
    backups on). When one entry of a plan has no source while the others
    can be applied, as in a plan of three entries with one missing file,
    the others are renamed all the same: each destination holds the text
    of its source, each source is gone, the result lists them in order,
    and the only error recorded is that of the missing file. *)
Theorem partial_failure (backup : bool) (before after : list (str * rename_info))
    (bad : str * rename_info) (w : world) (self : renamer) :
  let turn := rename_loop backup before (w, self, []) in
  rename_loop backup (before ++ bad :: after) (w, self, [])
  = rename_loop backup after (rename_step backup bad.2 turn)
  /\ (path_exists turn.1.1 (old_path bad.2) = false ->
      rename_step backup bad.2 turn
      = (turn.1.1, record_error turn.1.2 (ErrNotFound (old_path bad.2)), turn.2))
  /\ (path_exists turn.1.1 (old_path bad.2) = true ->
      path_exists turn.1.1 (new_path bad.2) = true ->
      new_path bad.2 ≠ old_path bad.2 ->
      rename_step backup bad.2 turn
      = (turn.1.1, record_error turn.1.2 (ErrDestinationExists (new_path bad.2)),
         turn.2))
  /\ (let final := rename_loop backup (before ++ bad :: after) (w, self, []) in
      length final.2 + length (errors final.1.2)
      = length (errors self) + length (before ++ bad :: after))
  /\ ((exists err, rename_step backup bad.2 turn
                    = (turn.1.1, record_error turn.1.2 err, turn.2))
      \/ (exists w', rename_step backup bad.2 turn
                     = (w', turn.1.2, turn.2 ++ [renamed_of bad.2])))
  /\ (forall w0,
        rename_map self = before ++ bad :: after ->
        (if backup then mkdir_exist_ok w0 backup_folder else Returned w0) = Returned w ->
        let final := rename_loop backup (before ++ bad :: after) (w, self, []) in
        perform_renames backup w0 self = (final.1.1, final.1.2, Returned (Some final.2)))
  /\ (forall w' self' ok',
        path_exists turn.1.1 (old_path bad.2) = false ->
        rename_loop backup (before ++ after) (w, self, []) = (w', self', ok') ->
        length ok' = length (before ++ after) ->
        rename_loop backup (before ++ bad :: after) (w, self, [])
        = (w', record_error self' (ErrNotFound (old_path bad.2)), ok'))
  /\ (forall data,
        stat turn.1.1 (old_path bad.2) = Some (File data) ->
        path_exists turn.1.1 (new_path bad.2) = false ->
        (backup = true -> is_dir turn.1.1 backup_folder) ->
        let st := rename_step backup bad.2 turn in
        st.1.2 = turn.1.2
        /\ st.2 = turn.2 ++ [renamed_of bad.2]
        /\ disk st.1.1 !! old_path bad.2 = None
        /\ disk st.1.1 !! new_path bad.2 = Some (File data)
        /\ (backup = true ->
            forall children,
              disk turn.1.1 !! backup_folder = Some (Dir children) ->
              disk st.1.1 !! backup_folder
              = Some (Dir (<[old_path bad.2 := data]> children)))
        /\ (forall p, p ≠ old_path bad.2 -> p ≠ new_path bad.2 ->
                      (backup = true -> p ≠ backup_folder) ->
                      disk st.1.1 !! p = disk turn.1.1 !! p))
  /\ (NoDup (old_paths (before ++ after)) -> NoDup (new_paths (before ++ after)) ->
      Forall (applicable w (before ++ after)) (before ++ after) ->
      (backup = true ->
       is_dir w backup_folder
       /\ Forall (fun item => new_path item.2 ≠ backup_folder) (before ++ after)) ->
      path_exists w (old_path bad.2) = false ->
      old_path bad.2 ∉ new_paths before ->
      let final := rename_loop backup (before ++ bad :: after) (w, self, []) in
      final.2 = renamed_of <$> (before ++ after).*2
      /\ final.1.2 = record_error self (ErrNotFound (old_path bad.2))
      /\ Forall (applied backup w final.1.1) (before ++ after)).
Proof.
  intros turn.
  assert (Hsplit : rename_loop backup (before ++ bad :: after) (w, self, [])
                   = rename_loop backup after (rename_step backup bad.2 turn)).
  { rewrite rename_loop_app. destruct bad as [k e]. apply rename_loop_cons. }
  split_and!.
  - exact Hsplit.
  - destruct turn as [[w1 self1] ok1]. apply rename_step_missing.
  - destruct turn as [[w1 self1] ok1]. apply rename_step_occupied.
  - destruct (rename_loop_frame backup (before ++ bad :: after) w)
      as (w' & errs & oks & Hlen & Hloop).
    simpl. rewrite Hloop. simpl. rewrite length_app. lia.
  - destruct turn as [[w1 self1] ok1]. cbn [fst snd].
    destruct (rename_step_frame backup bad.2 w1)
      as (w2 & errs & oks & Hlen & Hsame & [-> | ->] & Hstep); rewrite Hstep.
    + left. destruct errs as [|err [|? ?]]; simpl in Hlen; try lia.
      exists err. rewrite (Hsame eq_refl), app_nil_r. done.
    + right. destruct errs; simpl in Hlen; [|lia].
      exists w2. rewrite with_errors_nil. done.
  - intros w0 Hmap Hmk final. unfold perform_renames. rewrite Hmap.
    destruct (before ++ bad :: after) as [|item rest] eqn:Hplan.
    { by destruct before. }
    rewrite Hmk. subst final. rewrite <- Hmap.
    destruct (rename_loop backup (rename_map self) (w, self, [])) as [[w2 self2] ok2].
    done.
  - intros w' self' ok' Hmiss Hothers Hall.
    by apply rename_loop_skip_missing.
  - destruct turn as [[w1 self1] ok1]. cbn [fst snd]. intros data Hst Hfree Hdir.
    apply (rename_step_success backup bad.2 w1 self1 ok1 data Hst Hfree Hdir).
  - apply rename_loop_others.
Qed.

Lemma journal_grows_step (backup : bool) (e : rename_info)
    (st : world * renamer * list renamed) :
  exists ops, journal (rename_step backup e st).1.1 = journal st.1.1 ++ ops.
Proof.
  destruct st as [[w self] ok]. unfold rename_step. simpl.
  assert (Hsame : exists ops, journal w = journal w ++ ops)
    by (exists []; by rewrite app_nil_r).
  destruct (path_exists w (old_path e)); simpl; [|done].
  destruct (path_exists w (new_path e) && _); simpl; [done|].
  assert (Hren : forall w1, (exists ops, journal w1 = journal w ++ ops) ->
    exists ops,
      journal (match rename w1 (old_path e) (new_path e) with
               | Returned w2 => (w2, self, ok ++ [renamed_of e])
               | Raised exc => (w1, record_error self (ErrRename (old_name e) exc), ok)
               end).1.1 = journal w ++ ops).
  { intros w1 [ops Hops]. unfold rename.
    destruct (bool_decide (old_path e = new_path e)); simpl; [eauto|].
    destruct (_ || _); simpl; [eauto|].
    destruct (disk w1 !! old_path e); simpl; [|eauto].
    rewrite Hops, <- (assoc_L (++)). eauto. }
  destruct backup; [|by apply Hren].
  unfold copy2. destruct (stat w (old_path e)) as [[data|]|]; simpl; try done.
  destruct (disk w !! backup_folder) as [[|children]|]; simpl; try done.
  apply Hren. simpl. eauto.
Qed.

Lemma journal_grows_loop (backup : bool) (m : list (str * rename_info))
    (st : world * renamer * list renamed) :
  exists ops, journal (rename_loop backup m st).1.1 = journal st.1.1 ++ ops.
Proof.
  revert st. induction m as [|[k e] m IH]; intros st.
  - exists []. simpl. by rewrite app_nil_r.
  - rewrite rename_loop_cons.
    destruct (IH (rename_step backup e st)) as [ops2 H2].
    destruct (journal_grows_step backup e st) as [ops1 H1].
    exists (ops1 ++ ops2). rewrite H2, H1, (assoc_L (++)). done.
Qed.

(** With backups on, no turn of the loop removes or replaces the backup
    folder. *)
Lemma backup_folder_kept_step (e : rename_info) (st : world * renamer * list renamed) :
  is_dir st.1.1 backup_folder ->
  is_dir (rename_step true e st).1.1 backup_folder.
Proof.
  destruct st as [[w self] ok]. simpl. intros [children Hdir].
  destruct backup_folder_child as [Hb1 Hb2].
  unfold rename_step.
  destruct (path_exists w (old_path e)) eqn:Hold; simpl; [|by exists children].
  destruct (path_exists w (new_path e) && _) eqn:Hdest; simpl; [by exists children|].
  unfold copy2. destruct (stat w (old_path e)) as [[data|]|] eqn:Hst; simpl;
    try by exists children.
  rewrite Hdir.
  apply stat_file_child in Hst.
  assert (Hob : old_path e ≠ backup_folder) by congruence.
  set (w1 := World _ _).
  assert (Hdir1 : is_dir w1 backup_folder).
  { eexists. unfold w1. simpl. apply lookup_insert_eq. }
  unfold rename.
  destruct (bool_decide_reflect (old_path e = new_path e)) as [Heq | Hne];
    cbn [fst]; [exact Hdir1|].
  destruct (_ || _); cbn [fst]; [exact Hdir1|].
  destruct (disk w1 !! old_path e) as [n|] eqn:Hn; cbn [fst]; [|exact Hdir1].
  assert (Hnb : new_path e ≠ backup_folder).
  { intros Heq. apply andb_false_iff in Hdest as [Hdest | Hdest].
    - unfold path_exists in Hdest. rewrite Heq, stat_child, Hdir in Hdest; done.
    - apply negb_false_iff, bool_decide_eq_true in Hdest. congruence. }
  destruct Hdir1 as [ch1 Hch1]. exists ch1. simpl.
  rewrite lookup_insert_ne, lookup_delete_ne by done. exact Hch1.
Qed.

Lemma backup_folder_kept_loop (m : list (str * rename_info))
    (st : world * renamer * list renamed) :
  is_dir st.1.1 backup_folder ->
  is_dir (rename_loop true m st).1.1 backup_folder.
Proof.
  revert st. induction m as [|[k e] m IH]; intros st Hdir; [done|].
  rewrite rename_loop_cons. apply IH. by apply backup_folder_kept_step.
Qed.

(** C10 (as amended). With an empty plan [perform_renames] returns at
    once: no folder is made and nothing changes, whatever the flag. With a
    plan that is not empty and backups on, and no regular file in the way
    under the name of the backup folder, [mkdir] comes first: the loop
    starts in a folder that holds the backup folder, every later change
    comes after it in the journal, and the backup folder is there at the
    end, whatever happens to the entries. With a regular file in the way,
    [mkdir] raises [FileExistsError], and the call ends with the folder
    as it was. *)
Theorem backup_folder_first (backup : bool) (w : world) (self : renamer) :
  (rename_map self = [] -> perform_renames backup w self = (w, self, Returned None))
  /\ (rename_map self ≠ [] ->
      (forall data, disk w !! backup_folder ≠ Some (File data)) ->
      exists w1,
        mkdir_exist_ok w backup_folder = Returned w1
        /\ is_dir w1 backup_folder
        /\ (disk w !! backup_folder = None ->
            journal w1 = journal w ++ [OpMkdir backup_folder])
        /\ (let final := rename_loop true (rename_map self) (w1, self, []) in
            perform_renames true w self = (final.1.1, final.1.2, Returned (Some final.2))
            /\ is_dir final.1.1 backup_folder
            /\ exists ops, journal final.1.1 = journal w1 ++ ops))
  /\ (rename_map self ≠ [] ->
      (exists data, disk w !! backup_folder = Some (File data)) ->
      perform_renames true w self = (w, self, Raised FileExistsError)).
Proof.
  split_and!.
  - intros Hm. unfold perform_renames. rewrite Hm. done.
  - intros Hm Hfree. unfold perform_renames, mkdir_exist_ok.
    destruct (rename_map self) as [|item rest] eqn:Hplan; [done|].
    destruct (disk w !! backup_folder) as [[data|children]|] eqn:Hb.
    + by destruct (Hfree data).
    + exists w. split; [done|]. split; [by exists children|]. split; [done|].
      cbn zeta.
      pose proof (backup_folder_kept_loop (item :: rest) (w, self, [])
                    (ex_intro _ children Hb)) as Hkept.
      pose proof (journal_grows_loop true (item :: rest) (w, self, [])) as Hj.
      destruct (rename_loop true (item :: rest) (w, self, [])) as [[w2 self2] ok2].
      split_and!; done.
    + set (w1 := World (<[backup_folder := Dir ∅]> (disk w))
                       (journal w ++ [OpMkdir backup_folder])).
      assert (Hdir1 : is_dir w1 backup_folder)
        by (eexists; unfold w1; simpl; apply lookup_insert_eq).
      exists w1. split; [done|]. split; [done|]. split; [done|].
      cbn zeta.
      pose proof (backup_folder_kept_loop (item :: rest) (w1, self, []) Hdir1)
        as Hkept.
      pose proof (journal_grows_loop true (item :: rest) (w1, self, [])) as Hj.
      destruct (rename_loop true (item :: rest) (w1, self, [])) as [[w2 self2] ok2].
      split_and!; done.
  - intros Hm [data Hb]. unfold perform_renames, mkdir_exist_ok.
    destruct (rename_map self) as [|item rest]; [done|]. rewrite Hb. done.
Qed.

(** A plan of three entries; the folder lacks the source of the second
    and already holds the backup folder. *)
Definition entry (old new : string) : str * rename_info :=
  (py old, RenameInfo (py old) (py new) (py old) (py new) false).

Definition three_entries : renamer :=
  Self [] [entry "A.html" "a.html"; entry "C.html" "c.html"; entry "B.html" "b.html"] [].

Definition two_pages_folder : world :=
  Demo.folder [ (py "A.html", Demo.page); (py "B.html", Demo.page);
                (backup_folder, Dir ∅) ].

Lemma partial_failure_witness :
  let final := rename_loop true (rename_map three_entries)
                 (two_pages_folder, three_entries, []) in
  path_exists two_pages_folder (py "C.html") = false
  /\ stat two_pages_folder (py "A.html") = Some (File (py "<html></html>"))
  /\ stat two_pages_folder (py "B.html") = Some (File (py "<html></html>"))
  /\ final.2 = [Renamed (py "A.html") (py "a.html") false;
                Renamed (py "B.html") (py "b.html") false]
  /\ errors final.1.2 = [ErrNotFound (py "C.html")]
  /\ disk final.1.1 !! py "a.html" = Some (File (py "<html></html>"))
  /\ disk final.1.1 !! py "A.html" = None
  /\ disk final.1.1 !! py "b.html" = Some (File (py "<html></html>"))
  /\ disk final.1.1 !! py "B.html" = None
  /\ (exists children,
        disk final.1.1 !! backup_folder = Some (Dir children)
        /\ children !! py "A.html" = Some (py "<html></html>"))
  /\ (exists children,
        disk final.1.1 !! backup_folder = Some (Dir children)
        /\ children !! py "B.html" = Some (py "<html></html>")).
Proof.
  intros final.
  set (before := [entry "A.html" "a.html"]).
  set (after := [entry "B.html" "b.html"]).
  set (bad := entry "C.html" "c.html").
  assert (H0 : path_exists two_pages_folder (old_path bad.2) = false)
    by (vm_compute; reflexivity).
  assert (HA : stat two_pages_folder (py "A.html") = Some (File (py "<html></html>")))
    by (vm_compute; reflexivity).
  assert (HB : stat two_pages_folder (py "B.html") = Some (File (py "<html></html>")))
    by (vm_compute; reflexivity).
  assert (H1 : NoDup (old_paths (before ++ after))) by decide_by_computation.
  assert (H2 : NoDup (new_paths (before ++ after))) by decide_by_computation.
  assert (H3 : Forall (applicable two_pages_folder (before ++ after)) (before ++ after)).
  { repeat constructor; try (exists (py "<html></html>")); try (vm_compute; reflexivity);
      decide_by_computation. }
  assert (H4 : true = true ->
    is_dir two_pages_folder backup_folder
    /\ Forall (fun item => new_path item.2 ≠ backup_folder) (before ++ after)).
  { intros _. split; [exists ∅; vm_compute; reflexivity | decide_by_computation]. }
  assert (H5 : old_path bad.2 ∉ new_paths before) by decide_by_computation.
  destruct (partial_failure true before after bad two_pages_folder three_entries)
    as (_ & _ & _ & _ & _ & _ & _ & _ & Hothers).
  destruct (Hothers H1 H2 H3 H4 H0 H5) as (Hok & Herr & Hall).
  change (rename_map three_entries) with (before ++ bad :: after) in final.
  subst final.
  apply Forall_cons in Hall as [Ha Hall]. apply Forall_cons in Hall as [Hb _].
  destruct (Ha _ HA) as (Ha1 & Ha2 & Ha3). destruct (Hb _ HB) as (Hb1 & Hb2 & Hb3).
  split_and!;
    [exact H0 | exact HA | exact HB | exact Hok | rewrite Herr; reflexivity
    | exact Ha1 | exact Ha2 | exact Hb1 | exact Hb2 | exact (Ha3 eq_refl)
    | exact (Hb3 eq_refl)].
Defined.

(** A plan whose only entry has no source, in a folder without backup
    folder. *)
Definition lost_entry : renamer := Self [] [entry "C.html" "c.html"] [].

Definition one_page_folder : world := Demo.folder [ (py "A.html", Demo.page) ].

Lemma backup_folder_first_witness :
  rename_map lost_entry ≠ []
  /\ (forall data, disk one_page_folder !! backup_folder ≠ Some (File data))
  /\ (perform_renames true one_page_folder lost_entry).2 = Returned (Some [])
  /\ is_dir (perform_renames true one_page_folder lost_entry).1.1 backup_folder
  /\ journal (perform_renames true one_page_folder lost_entry).1.1
     = [OpMkdir backup_folder].
Proof.
  assert (H1 : rename_map lost_entry ≠ []) by discriminate.
  assert (H2 : forall data, disk one_page_folder !! backup_folder ≠ Some (File data))
    by (intros data; vm_compute; discriminate).
  destruct (backup_folder_first true one_page_folder lost_entry) as (_ & Hfirst & _).
  destruct (Hfirst H1 H2) as (w1 & Hmk & _ & _ & Hrun & Hdir & _).
  split_and!; [exact H1 | exact H2 | | | ].
  - vm_compute. reflexivity.
  - rewrite Hrun. exact Hdir.
  - vm_compute. reflexivity.
Defined.

(** C10 fails as stated: with a regular file under the name of the backup
    folder, [mkdir] raises, [perform_renames] ends before it looks at any
    entry, and there is no backup folder afterwards. *)
Definition blocked_folder : world :=
  Demo.folder [ (py "A.html", Demo.page); (backup_folder, File []) ].

Definition one_entry : renamer := Self [] [entry "A.html" "a.html"] [].

Lemma backup_folder_blocked :
  rename_map one_entry ≠ []
  /\ perform_renames true blocked_folder one_entry
     = (blocked_folder, one_entry, Raised FileExistsError)
  /\ ~ is_dir (perform_renames true blocked_folder one_entry).1.1 backup_folder.
Proof.
  split_and!; [discriminate | vm_compute; reflexivity |].
  intros [children Hdir]. vm_compute in Hdir. discriminate.
Qed.

(* ===================================================================== *)
(** * A folder that is already clean *)
(* ===================================================================== *)

Section Noop.
Context `{UnicodeData} `{Parsers} `{HashOrder}.

Lemma plan_referenced_clean (w : world) (refs : list str)
    (m : list (str * rename_info)) :
  Forall (fun f => FileRenamer.clean_filename f = f) refs ->
  plan_referenced w refs m = m.
Proof.
  induction 1 as [|f refs Hf _ IH]; simpl; [done|].
  destruct (path_exists w (joinpath f)); [|done].
  rewrite Hf. rewrite bool_decide_eq_true_2 by done. done.
Qed.

Lemma plan_physical_clean (files : list str) (m : list (str * rename_info)) :
  Forall (fun f => FileRenamer.clean_filename f = f) files ->
  plan_physical files m = m.
Proof.
  induction 1 as [|f files Hf _ IH]; simpl; [done|].
  rewrite Hf. rewrite bool_decide_eq_true_2 by done. done.
Qed.

(** C6. When every physical HTML file and every referenced file has a
    name that is already its cleaned form, the plan is empty and the run
    ends with the folder, and so the index and the sitemap, as they were:
    nothing is read from the standard input and the journal gets no
    entry. *)
Theorem clean_folder_untouched (stdin : list str) (w : world) :
  Forall (fun f => FileRenamer.clean_filename f = f) (physical_files w) ->
  Forall (fun f => FileRenamer.clean_filename f = f) (all_referenced w) ->
  rename_map (create_rename_map w init) = []
  /\ rename_map (planned w init) = []
  /\ run stdin w init = (w, planned w init, None)
  /\ (run stdin w init).1.1 = w.
Proof.
  intros Hphys Hrefs.
  assert (Hplan : rename_map (create_rename_map w init) = []).
  { rewrite create_rename_map_plan, plan_referenced_clean, plan_physical_clean; [done..|].
    unfold referenced_order. by rewrite set_iter_perm. }
  assert (Hres : rename_map (planned w init) = []).
  { unfold planned, resolve_plan, check_conflicts. rewrite Hplan. simpl. exact Hplan. }
  assert (Hrun : run stdin w init = (w, planned w init, None)).
  { unfold run. rewrite Hres. done. }
  rewrite Hrun. done.
Qed.

End Noop.

(** A folder whose page, index and sitemap hold clean names only. *)
Definition clean_folder : world :=
  Demo.folder [ (py "index.html", File (Demo.index_page [py "pagina.html"]));
                (py "sitemap.xml", File Demo.clean_sitemap_text);
                (py "pagina.html", Demo.page) ].

Lemma clean_folder_untouched_witness :
  physical_files clean_folder = [py "pagina.html"]
  /\ all_referenced clean_folder = [py "pagina.html"]
  /\ Forall (fun f => FileRenamer.clean_filename f = f) (physical_files clean_folder)
  /\ Forall (fun f => FileRenamer.clean_filename f = f) (all_referenced clean_folder)
  /\ run [py "s"; py "s"; py "s"] clean_folder init
     = (clean_folder, planned clean_folder init, None).
Proof.
  assert (H1 : Forall (fun f => FileRenamer.clean_filename f = f)
                 (physical_files clean_folder)) by decide_by_computation.
  assert (H2 : Forall (fun f => FileRenamer.clean_filename f = f)
                 (all_referenced clean_folder)) by decide_by_computation.
  destruct (clean_folder_untouched [py "s"; py "s"; py "s"] clean_folder H1 H2)
    as (_ & _ & Hrun & _).
  split_and!; [vm_compute; reflexivity | vm_compute; reflexivity
              | exact H1 | exact H2 | exact Hrun].
Defined.

(* ===================================================================== *)
(** * Rewriting the references *)
(* ===================================================================== *)

(** ** [str.replace] *)

Lemma replace_scan_skip (old new u v : str) :
  replace_scan old new (length u) (u ++ v) = replace_scan old new 0 v.
Proof. induction u as [|c u IH]; simpl; [by destruct v|]. exact IH. Qed.

Lemma replace_scan_match (old new v : str) :
  old ≠ [] ->
  replace_scan old new 0 (old ++ v) = new ++ replace_scan old new 0 v.
Proof.
  intros Hne. destruct old as [|o old']; [done|].
  cbn [app replace_scan].
  change (o :: old' ++ v) with ((o :: old') ++ v). rewrite startswith_app.
  replace (length (o :: old') - 1) with (length old') by (simpl; lia).
  rewrite replace_scan_skip. done.
Qed.

Lemma replace_scan_step (old new : str) (c : codepoint) (s : str) :
  startswith (c :: s) old = false ->
  replace_scan old new 0 (c :: s) = c :: replace_scan old new 0 s.
Proof. intros Hs. cbn [replace_scan]. rewrite Hs. done. Qed.

Lemma startswith_prefix (s t old : str) :
  startswith s old = true -> startswith (s ++ t) old = true.
Proof.
  rewrite !startswith_spec. intros [x ->]. exists (x ++ t).
  by rewrite (assoc_L (++)).
Qed.

Lemma join_cons (sep u : str) (rest : list str) :
  rest ≠ [] -> join sep (u :: rest) = u ++ sep ++ join sep rest.
Proof. destruct rest; done. Qed.

Lemma join_head (sep : str) (c : codepoint) (u : str) (rest : list str) :
  join sep ((c :: u) :: rest) = c :: join sep (u :: rest).
Proof. destruct rest; done. Qed.

(** [s.replace(old, new)] cuts [s] at occurrences of [old] into pieces
    that hold no [old], and joins the pieces with [new]. *)
Lemma replace_split (old new s : str) :
  old ≠ [] ->
  exists pieces,
    s = join old pieces
    /\ replace old new s = join new pieces
    /\ Forall (fun u => contains old u = false) pieces.
Proof.
  intros Hne.
  assert (Hrep : replace old new s = replace_scan old new 0 s) by (by destruct old).
  rewrite Hrep. clear Hrep.
  enough (Hlen : forall n s, length s <= n ->
    exists pieces, pieces ≠ [] /\ s = join old pieces
      /\ replace_scan old new 0 s = join new pieces
      /\ Forall (fun u => contains old u = false) pieces).
  { destruct (Hlen (length s) s ltac:(lia)) as (pieces & _ & ?). eauto. }
  clear s. induction n as [|n IH]; intros s Hlen.
  - destruct s; [|simpl in Hlen; lia]. exists [[]]. split_and!; try done.
    constructor; [|done]. destruct old; done.
  - destruct s as [|c s'].
    { exists [[]]. split_and!; try done. constructor; [|done]. destruct old; done. }
    destruct (startswith (c :: s') old) eqn:Hst.
    + apply startswith_spec in Hst as [v Hv]. rewrite Hv.
      assert (Hv_len : length v <= n).
      { apply (f_equal length) in Hv. rewrite length_app in Hv. simpl in *.
        destruct old; [done|]. simpl in Hv. lia. }
      destruct (IH v Hv_len) as (pieces & Hp & Hjoin & Hrep & Hfree).
      exists ([] :: pieces). split_and!; [done | | |].
      * rewrite join_cons by done. simpl. by rewrite <- Hjoin.
      * rewrite replace_scan_match, join_cons by done. simpl. by rewrite Hrep.
      * constructor; [|done]. destruct old; done.
    + simpl in Hlen.
      destruct (IH s' ltac:(lia)) as (pieces & Hp & Hjoin & Hrep & Hfree).
      destruct pieces as [|u rest]; [done|].
      exists ((c :: u) :: rest). split_and!; [done | | |].
      * rewrite join_head, <- Hjoin. done.
      * rewrite replace_scan_step, join_head, Hrep by done. done.
      * apply Forall_cons in Hfree as [Hu Hrest]. constructor; [|done].
        cbn [contains]. rewrite Hu, orb_false_r.
        destruct (startswith (c :: u) old) eqn:Hcu; [|done].
        rewrite <- Hst. symmetry.
        destruct rest as [|u2 rest].
        -- simpl in Hjoin. rewrite Hjoin. done.
        -- rewrite join_cons in Hjoin by done. rewrite Hjoin.
           change (c :: u ++ old ++ join old (u2 :: rest))
             with ((c :: u) ++ old ++ join old (u2 :: rest)).
           by apply startswith_prefix.
Qed.

(** A text without [old] is left as it is. *)
Lemma replace_absent (old new s : str) :
  contains old s = false -> replace old new s = s.
Proof.
  intros Hs.
  destruct old as [|o old']; [by destruct s|].
  unfold replace. induction s as [|c s IH]; [done|].
  cbn [contains] in Hs. apply orb_false_iff in Hs as [Hst Hs].
  rewrite replace_scan_step, IH; done.
Qed.

(** ** The text of a location element *)

Lemma rewrite_loc_text_snoc (rs : list renamed) (r : renamed) (t : str) :
  rewrite_loc_text (rs ++ [r]) t = rewrite_loc_step (rewrite_loc_text rs t) r.
Proof. unfold rewrite_loc_text. by rewrite fold_left_app. Qed.

Lemma rewrite_loc_flag (rs : list renamed) (t : str) :
  (rewrite_loc_text rs t).2 = true <-> substituted rs t.
Proof.
  induction rs as [|r rs IH] using rev_ind.
  - split; [done|]. intros (before & r & after & Heq & _). by destruct before.
  - rewrite rewrite_loc_text_snoc. unfold rewrite_loc_step.
    destruct (rewrite_loc_text rs t) as [t' u] eqn:Ht'. simpl in IH.
    destruct (contains (r_old r) t') eqn:Hc; simpl.
    + split; [|done]. intros _. exists rs, r, []. rewrite Ht'. done.
    + rewrite IH. split.
      * intros (before & r' & after & -> & Hocc).
        exists before, r', (after ++ [r]). split; [|done].
        by rewrite <- (assoc_L (++)).
      * intros (before & r' & after & Heq & Hocc).
        destruct after as [|a after _] using rev_ind.
        -- apply app_inj_tail in Heq as [<- <-]. rewrite Ht' in Hocc. simpl in Hocc.
           congruence.
        -- rewrite app_comm_cons, (assoc_L (++)) in Heq.
           apply app_inj_tail in Heq as [-> _]. exists before, r', after. done.
Qed.

Lemma rewrite_loc_absent (rs : list renamed) (t : str) :
  Forall (fun r => contains (r_old r) t = false) rs ->
  rewrite_loc_text rs t = (t, false).
Proof.
  unfold rewrite_loc_text. induction 1 as [|r rs Hr _ IH]; simpl; [done|].
  rewrite Hr. exact IH.
Qed.

(** ** The tree *)

Lemma element_ind' (P : element -> Prop) :
  (forall tag text children, Forall P children -> P (Element tag text children)) ->
  forall e, P e.
Proof.
  intros Hstep. fix IH 1. intros [tag text children]. apply Hstep.
  induction children as [|c children IHc]; constructor; [apply IH | exact IHc].
Qed.

Lemma map_fst_rewrite (tag : str) (rs : list renamed) (cs : list element) :
  List.map fst (List.map (rewrite_element tag rs) cs)
  = (fun c => (rewrite_element tag rs c).1) <$> cs.
Proof.
  induction cs as [|c cs IH]; [done|].
  cbn [List.map]. rewrite IH, fmap_cons. reflexivity.
Qed.

Lemma existsb_snd_rewrite (tag : str) (rs : list renamed) (cs : list element) :
  existsb snd (List.map (rewrite_element tag rs) cs)
  = existsb (fun c => (rewrite_element tag rs c).2) cs.
Proof.
  induction cs as [|c cs IH]; [done|].
  cbn [List.map existsb]. rewrite IH. reflexivity.
Qed.

Lemma rewrite_element_eq (tag : str) (rs : list renamed) (t : str) (x : option str)
    (cs : list element) :
  rewrite_element tag rs (Element t x cs)
  = (Element t (own_text tag rs t x).1
       ((fun c => (rewrite_element tag rs c).1) <$> cs),
     (own_text tag rs t x).2 || existsb (fun c => (rewrite_element tag rs c).2) cs).
Proof.
  cbn [rewrite_element]. unfold own_text.
  rewrite map_fst_rewrite, existsb_snd_rewrite.
  destruct (bool_decide (t = tag)); [|done].
  destruct x as [text|]; [|done].
  destruct (bool_decide (text = [])); [done|].
  destruct (rewrite_loc_text rs text). done.
Qed.

Lemma rewrite_locs_eq (tag : str) (rs : list renamed) (t : str) (x : option str)
    (cs : list element) :
  rewrite_locs tag rs (Element t x cs)
  = (Element t x ((fun c => (rewrite_element tag rs c).1) <$> cs),
     existsb (fun c => (rewrite_element tag rs c).2) cs).
Proof.
  cbn [rewrite_locs].
  rewrite map_fst_rewrite, existsb_snd_rewrite. done.
Qed.

Lemma rewrite_element_tag (tag : str) (rs : list renamed) (e : element) :
  tag_of (rewrite_element tag rs e).1 = tag_of e.
Proof. destruct e as [t x cs]. rewrite rewrite_element_eq. done. Qed.

Lemma own_text_after (tag : str) (rs : list renamed) (t : str) (x : option str) :
  (own_text tag rs t x).1
  = if bool_decide (t = tag) then loc_text_after rs x else x.
Proof.
  unfold own_text, loc_text_after. destruct (bool_decide (t = tag)); [|done].
  destruct x as [text|]; [|done]. destruct (bool_decide (text = [])); done.
Qed.

Lemma rewrite_element_text (tag : str) (rs : list renamed) (e : element) :
  text_of (rewrite_element tag rs e).1
  = if bool_decide (tag_of e = tag) then loc_text_after rs (text_of e) else text_of e.
Proof. destruct e as [t x cs]. rewrite rewrite_element_eq. apply own_text_after. Qed.

Lemma descendants_children (cs : list element) (t : str) (x : option str) :
  descendants (Element t x cs) = flat_map (fun c => c :: descendants c) cs.
Proof. done. Qed.

Lemma descendants_rewrite_children (tag : str) (rs : list renamed) (cs : list element) :
  Forall (fun c => descendants (rewrite_element tag rs c).1
                   = (fun d => (rewrite_element tag rs d).1) <$> descendants c) cs ->
  flat_map (fun c => c :: descendants c) ((fun c => (rewrite_element tag rs c).1) <$> cs)
  = (fun d => (rewrite_element tag rs d).1)
      <$> flat_map (fun c => c :: descendants c) cs.
Proof.
  induction 1 as [|c cs Hc _ IH]; [done|].
  rewrite fmap_cons. cbn [flat_map]. rewrite fmap_app, fmap_cons, IH, Hc. done.
Qed.

(** The loop keeps the shape of the tree: the descendants of the result
    are, in order, the descendants of the tree after their own turn. *)
Lemma descendants_rewrite_element (tag : str) (rs : list renamed) (e : element) :
  descendants (rewrite_element tag rs e).1
  = (fun d => (rewrite_element tag rs d).1) <$> descendants e.
Proof.
  induction e as [t x cs IH] using element_ind'.
  rewrite rewrite_element_eq. cbn [fst]. rewrite !descendants_children.
  by apply descendants_rewrite_children.
Qed.

Lemma descendants_rewrite_locs (tag : str) (rs : list renamed) (root : element) :
  descendants (rewrite_locs tag rs root).1
  = (fun d => (rewrite_element tag rs d).1) <$> descendants root.
Proof.
  destruct root as [t x cs]. rewrite rewrite_locs_eq. cbn [fst].
  rewrite !descendants_children. apply descendants_rewrite_children.
  apply Forall_forall. intros c _. apply descendants_rewrite_element.
Qed.

Lemma own_text_flag (tag : str) (rs : list renamed) (t : str) (x : option str)
    (cs : list element) :
  (own_text tag rs t x).2 = true <-> touched tag rs (Element t x cs).
Proof.
  unfold own_text, touched. simpl.
  destruct (bool_decide_reflect (t = tag)) as [-> | Hne].
  - destruct x as [text|].
    + destruct (bool_decide_reflect (text = [])) as [-> | Hne]; simpl.
      * split; [done|]. intros (_ & t' & [= <-] & ? & _). done.
      * rewrite rewrite_loc_flag. split.
        -- intros Hs. split; [done|]. exists text. done.
        -- intros (_ & t' & [= <-] & _ & Hs). done.
    + split; [done|]. intros (_ & t' & ? & _). done.
  - split; [done|]. intros [? _]. done.
Qed.

Lemma existsb_flag (tag : str) (rs : list renamed) (cs : list element) :
  Forall (fun c => (rewrite_element tag rs c).2 = true
                   <-> exists d, d ∈ c :: descendants c /\ touched tag rs d) cs ->
  existsb (fun c => (rewrite_element tag rs c).2) cs = true
  <-> exists d, d ∈ flat_map (fun c => c :: descendants c) cs /\ touched tag rs d.
Proof.
  induction 1 as [|c cs Hc _ IH]; cbn [existsb flat_map].
  - split; [done|]. intros (d & Hd & _). by apply elem_of_nil in Hd.
  - rewrite orb_true_iff, Hc, IH. split.
    + intros [(d & Hd & Ht) | (d & Hd & Ht)]; exists d; (split; [|done]);
        rewrite elem_of_app; auto.
    + intros (d & Hd & Ht). rewrite elem_of_app in Hd.
      destruct Hd as [Hd | Hd]; [left | right]; exists d; done.
Qed.

(** The flag is set exactly when the text of some element changed. *)
Lemma rewrite_element_flag (tag : str) (rs : list renamed) (e : element) :
  (rewrite_element tag rs e).2 = true
  <-> exists d, d ∈ e :: descendants e /\ touched tag rs d.
Proof.
  induction e as [t x cs IH] using element_ind'.
  rewrite rewrite_element_eq. cbn [snd].
  rewrite orb_true_iff, (own_text_flag tag rs t x cs), (existsb_flag tag rs cs IH).
  rewrite descendants_children. split.
  - intros [Ht | (d & Hd & Ht)].
    + exists (Element t x cs). split; [left | done].
    + exists d. split; [by right | done].
  - intros (d & Hd & Ht). apply elem_of_cons in Hd as [-> | Hd]; [by left|].
    right. exists d. done.
Qed.

Lemma rewrite_locs_flag (tag : str) (rs : list renamed) (root : element) :
  (rewrite_locs tag rs root).2 = true
  <-> exists d, d ∈ descendants root /\ touched tag rs d.
Proof.
  destruct root as [t x cs]. rewrite rewrite_locs_eq. cbn [snd].
  rewrite descendants_children. apply existsb_flag.
  apply Forall_forall. intros c _. apply rewrite_element_flag.
Qed.

Lemma tags_differ : ns_loc_tag ≠ loc_tag.
Proof. vm_compute. discriminate. Qed.

Lemma findall_elem (tag : str) (root e : element) :
  e ∈ findall tag root <-> e ∈ descendants root /\ tag_of e = tag.
Proof.
  unfold findall. rewrite list_elem_of_In, filter_In, <- list_elem_of_In.
  rewrite bool_decide_eq_true. done.
Qed.

Lemma touched_rewritten (rs : list renamed) (d : element) :
  touched loc_tag rs (rewrite_element ns_loc_tag rs d).1 <-> touched loc_tag rs d.
Proof.
  unfold touched. rewrite rewrite_element_tag, rewrite_element_text.
  destruct (bool_decide_reflect (tag_of d = ns_loc_tag)) as [Hns | Hns]; [|done].
  split; intros [Htag _]; exfalso; apply tags_differ; congruence.
Qed.

(** The flag [updated] is set exactly when a substitution occurs in the
    text of a location element, with or without namespace. *)
Lemma rewrite_sitemap_flag (rs : list renamed) (root : element) :
  (rewrite_sitemap rs root).2 = true <-> substitution_occurs rs root.
Proof.
  unfold rewrite_sitemap, substitution_occurs.
  pose proof (rewrite_locs_flag ns_loc_tag rs root) as H1.
  pose proof (descendants_rewrite_locs ns_loc_tag rs root) as Hd1.
  destruct (rewrite_locs ns_loc_tag rs root) as [root1 u1]. simpl in H1, Hd1.
  pose proof (rewrite_locs_flag loc_tag rs root1) as H2. rewrite Hd1 in H2.
  destruct u1; simpl.
  - split; [|done]. intros _.
    destruct (proj1 H1 eq_refl) as (d & Hd & Htag & t & Ht).
    exists d, t. rewrite elem_of_app, findall_elem. split; [by left | done].
  - rewrite H2. split.
    + intros (d1 & Hd & Ht). apply list_elem_of_fmap in Hd as (d & -> & Hd).
      apply (proj1 (touched_rewritten rs d)) in Ht. destruct Ht as (Htag & t & Ht).
      exists d, t. rewrite elem_of_app, !findall_elem. split; [by right | done].
    + intros (e & t & He & Ht). rewrite elem_of_app, !findall_elem in He.
      destruct He as [[He Htag] | [He Htag]].
      * assert (false = true); [|done]. apply H1. exists e. split; [done|].
        split; [done|]. exists t. done.
      * exists (rewrite_element ns_loc_tag rs e).1. split.
        -- apply list_elem_of_fmap. exists e. done.
        -- apply touched_rewritten. split; [done|]. exists t. done.
Qed.

(** The text of every element after the two loops. *)
Lemma rewrite_sitemap_lookup (rs : list renamed) (root : element) (i : nat)
    (e : element) :
  descendants root !! i = Some e ->
  exists e',
    descendants (rewrite_sitemap rs root).1 !! i = Some e'
    /\ tag_of e' = tag_of e
    /\ text_of e'
       = if bool_decide (tag_of e = ns_loc_tag) then loc_text_after rs (text_of e)
         else if bool_decide (tag_of e = loc_tag)
                 && negb (rewrite_locs ns_loc_tag rs root).2
         then loc_text_after rs (text_of e)
         else text_of e.
Proof.
  intros Hi. unfold rewrite_sitemap.
  pose proof (descendants_rewrite_locs ns_loc_tag rs root) as Hd1.
  destruct (rewrite_locs ns_loc_tag rs root) as [root1 u1]. simpl in Hd1. simpl snd.
  destruct u1; simpl.
  - exists (rewrite_element ns_loc_tag rs e).1. split_and!.
    + rewrite Hd1, list_lookup_fmap, Hi. done.
    + apply rewrite_element_tag.
    + rewrite rewrite_element_text, andb_false_r. done.
  - exists (rewrite_element loc_tag rs (rewrite_element ns_loc_tag rs e).1).1. split_and!.
    + rewrite descendants_rewrite_locs, Hd1, !list_lookup_fmap, Hi. done.
    + rewrite !rewrite_element_tag. done.
    + rewrite !rewrite_element_text, rewrite_element_tag, andb_true_r.
      destruct (bool_decide_reflect (tag_of e = ns_loc_tag)) as [Hns | Hns].
      * rewrite bool_decide_eq_false_2; [done|]. rewrite Hns. apply tags_differ.
      * done.
Qed.

Section Documents.
Context `{Parsers}.

Lemma sitemap_file_child :
  sitemap_file ≠ [] /\ sitemap_file ≠ [c_dot; c_dot].
Proof. split; vm_compute; discriminate. Qed.

Lemma index_file_child :
  index_file ≠ [] /\ index_file ≠ [c_dot; c_dot].
Proof. split; vm_compute; discriminate. Qed.

Lemma read_file_file (w : world) (p data : str) :
  read_file w p = Returned data -> stat w p = Some (File data).
Proof. unfold read_file. destruct (stat w p) as [[?|?]|]; congruence. Qed.

Lemma read_text_file (w : world) (p content : str) :
  read_text w p = Returned content ->
  exists data, stat w p = Some (File data) /\ content = universal_newlines data.
Proof.
  unfold read_text. destruct (read_file w p) as [data|exc] eqn:Hread; [|done].
  intros [= <-]. exists data. split; [by apply read_file_file | done].
Qed.

(** A text without carriage return is read as it is stored. *)
Lemma universal_newlines_plain (data : str) :
  13%N ∉ data -> universal_newlines data = data.
Proof.
  induction data as [|c rest IH]; [done|]. intros Hno.
  apply not_elem_of_cons in Hno as [Hc Hrest]. simpl.
  destruct (N.eqb_spec c 13) as [-> | _]; [done|]. by rewrite IH.
Qed.

Lemma universal_newlines_no_cr (data : str) : 13%N ∉ universal_newlines data.
Proof.
  induction data as [data IH] using (induction_ltof1 _ (@length N)).
  unfold ltof in IH. destruct data as [|c rest]; simpl; [apply not_elem_of_nil|].
  destruct (N.eqb_spec c 13) as [-> | Hc].
  - destruct rest as [|c' rest']; [by apply not_elem_of_cons; split; [|apply not_elem_of_nil]|].
    destruct (c' =? 10)%N; apply not_elem_of_cons; (split; [done|]); apply IH; simpl; lia.
  - apply not_elem_of_cons. split; [done|]. apply IH. simpl. lia.
Qed.

Lemma read_text_stat (w : world) (p data : str) :
  stat w p = Some (File data) -> read_text w p = Returned (universal_newlines data).
Proof. intros Hst. unfold read_text, read_file. by rewrite Hst. Qed.

(** What [update_references] does to the sitemap file. *)
Lemma update_sitemap_world (rs : list renamed) (w : world) (self : renamer) :
  (update_sitemap rs w self).1
  = match read_file w sitemap_file with
    | Returned data =>
        match ET_parse data with
        | Some root =>
            if (rewrite_sitemap rs root).2
            then World (<[sitemap_file := File (ET_tostring (rewrite_sitemap rs root).1)]>
                          (disk w))
                       (journal w ++ [OpWrite sitemap_file])
            else w
        | None => w
        end
    | Raised _ => w
    end.
Proof.
  unfold update_sitemap, path_exists.
  destruct (read_file w sitemap_file) as [data|exc] eqn:Hread.
  - pose proof (read_file_file _ _ _ Hread) as Hst. rewrite Hst.
    destruct (ET_parse data) as [root|]; [|done].
    destruct (rewrite_sitemap rs root) as [root' updated]. simpl.
    destruct updated; [|done].
    unfold write_text. rewrite (stat_file_child _ _ _ Hst). done.
  - destruct (stat w sitemap_file); done.
Qed.

(** What it does to the index file. *)
Lemma update_index_world (rs : list renamed) (w : world) (self : renamer)
    (content : str) :
  read_text w index_file = Returned content ->
  update_index rs w self
  = (World (<[index_file := File (rewrite_index rs content)]> (disk w))
           (journal w ++ [OpWrite index_file]), self).
Proof.
  intros Hread. unfold update_index, path_exists.
  destruct (read_text_file _ _ _ Hread) as (data & Hst & _). rewrite Hst, Hread.
  unfold write_text. rewrite (stat_file_child _ _ _ Hst). done.
Qed.

Lemma journal_longer (w : world) (op : fs_op) : journal w ≠ journal w ++ [op].
Proof.
  intros Heq. apply (f_equal length) in Heq. rewrite length_app in Heq.
  simpl in Heq. lia.
Qed.

(** C8. The sitemap file is written exactly when the file can be read
    and parsed and a substitution occurs in the text of some location
    element; otherwise the folder is as it was. In particular it is as it
    was when no old name occurs in the text of any location element. *)
Theorem sitemap_written_iff (rs : list renamed) (w : world) (self : renamer) :
  let after := (update_sitemap rs w self).1 in
  (journal after = journal w ++ [OpWrite sitemap_file]
   <-> exists data root,
         read_file w sitemap_file = Returned data
         /\ ET_parse data = Some root
         /\ substitution_occurs rs root)
  /\ (journal after ≠ journal w ++ [OpWrite sitemap_file] -> after = w)
  /\ (forall data root,
        read_file w sitemap_file = Returned data ->
        ET_parse data = Some root ->
        substitution_occurs rs root ->
        disk after
        = <[sitemap_file := File (ET_tostring (rewrite_sitemap rs root).1)]> (disk w))
  /\ (forall data root,
        read_file w sitemap_file = Returned data ->
        ET_parse data = Some root ->
        (forall r e t,
           r ∈ rs -> e ∈ findall ns_loc_tag root ++ findall loc_tag root ->
           text_of e = Some t -> contains (r_old r) t = false) ->
        after = w).
Proof.
  intros after. subst after. rewrite update_sitemap_world.
  destruct (read_file w sitemap_file) as [data|exc] eqn:Hread.
  2:{ split_and!; try done; try (intros; congruence). split.
      - intros Hj. by apply journal_longer in Hj.
      - intros (? & ? & ? & _). done. }
  destruct (ET_parse data) as [root|] eqn:Hparse.
  2:{ split_and!; try done; try (intros; congruence). split.
      - intros Hj. by apply journal_longer in Hj.
      - intros (data0 & root0 & Hd0 & Hr0 & _). simplify_eq. }
  pose proof (rewrite_sitemap_flag rs root) as Hflag.
  destruct (rewrite_sitemap rs root) as [root' updated] eqn:Hrw. simpl in Hflag.
  destruct updated; simpl.
  - split_and!.
    + split; [|done]. intros _. exists data, root. split_and!; try done. by apply Hflag.
    + done.
    + intros data0 root0 Hd0 Hr0 _. simplify_eq. rewrite Hrw. done.
    + intros data0 root0 Hd0 Hr0 Hnone. simplify_eq. exfalso.
      destruct (proj1 Hflag eq_refl)
        as (e & t & He & Ht & Hne & before & r & after & -> & Hocc).
      rewrite rewrite_loc_absent in Hocc.
      * simpl in Hocc. rewrite (Hnone r e t) in Hocc; [done | | done | done].
        rewrite elem_of_app, elem_of_cons. auto.
      * apply Forall_forall. intros r' Hr'. apply (Hnone r' e t); [|done|done].
        rewrite elem_of_app. auto.
  - split_and!; [split | done | | done].
    + intros Hj. by apply journal_longer in Hj.
    + intros (data0 & root0 & Hd0 & Hr0 & Hocc). simplify_eq.
      apply Hflag in Hocc. done.
    + intros data0 root0 Hd0 Hr0 Hocc. simplify_eq. apply Hflag in Hocc. done.
Qed.

End Documents.

Lemma href_dq_nonempty (name : str) : href_dq name ≠ [].
Proof.
  intros Hn. apply (f_equal length) in Hn. unfold href_dq in Hn.
  rewrite length_app in Hn. change (length (py "href=")) with 5 in Hn.
  simpl in Hn. lia.
Qed.

Lemma href_sq_nonempty (name : str) : href_sq name ≠ [].
Proof.
  intros Hn. apply (f_equal length) in Hn. unfold href_sq in Hn.
  rewrite length_app in Hn. change (length (py "href=")) with 5 in Hn.
  simpl in Hn. lia.
Qed.

Section Rewriting.
Context `{Parsers}.

(** C7 (as amended). Each successful rename takes its turn, in the order
    of the list, on the text that the renames before it left.
    In the index its turn replaces every occurrence of [href="old"], and
    then of [href='old'], by the same attribute with the new name: the
    text is cut at the occurrences into pieces without occurrence, which
    are joined again with the new attribute; the result is written to the
    index file.
    In the sitemap its turn on the text of a location element replaces
    every occurrence of the old name by the new name when the old name
    occurs in the text. Every location element of the sitemap namespace
    with a text has its turns; a location element without namespace has
    them only when no text of a location element of the namespace
    changed, and is left as it is otherwise; no other element changes.
    The tree is written to the sitemap file when some text changed. *)
Theorem references_rewritten (rs : list renamed) (r : renamed)
    (content text : str) (root : element) (w : world) (self : renamer) :
  rewrite_index (rs ++ [r]) content = rewrite_index_step (rewrite_index rs content) r
  /\ (exists pieces pieces',
        content = join (href_dq (r_old r)) pieces
        /\ Forall (fun u => contains (href_dq (r_old r)) u = false) pieces
        /\ join (href_dq (r_new r)) pieces = join (href_sq (r_old r)) pieces'
        /\ Forall (fun u => contains (href_sq (r_old r)) u = false) pieces'
        /\ rewrite_index_step content r = join (href_sq (r_new r)) pieces')
  /\ (read_text w index_file = Returned content ->
      update_index rs w self
      = (World (<[index_file := File (rewrite_index rs content)]> (disk w))
               (journal w ++ [OpWrite index_file]), self))
  /\ rewrite_loc_text (rs ++ [r]) text = rewrite_loc_step (rewrite_loc_text rs text) r
  /\ (forall updated,
        rewrite_loc_step (text, updated) r
        = if contains (r_old r) text
          then (replace (r_old r) (r_new r) text, true)
          else (text, updated))
  /\ (r_old r ≠ [] ->
      exists pieces,
        text = join (r_old r) pieces
        /\ replace (r_old r) (r_new r) text = join (r_new r) pieces
        /\ Forall (fun u => contains (r_old r) u = false) pieces)
  /\ ((rewrite_locs ns_loc_tag rs root).2 = true
      <-> exists d, d ∈ findall ns_loc_tag root /\ touched ns_loc_tag rs d)
  /\ (forall i e,
        descendants root !! i = Some e ->
        exists e',
          descendants (rewrite_sitemap rs root).1 !! i = Some e'
          /\ tag_of e' = tag_of e
          /\ text_of e'
             = if bool_decide (tag_of e = ns_loc_tag)
               then loc_text_after rs (text_of e)
               else if bool_decide (tag_of e = loc_tag)
                       && negb (rewrite_locs ns_loc_tag rs root).2
               then loc_text_after rs (text_of e)
               else text_of e)
  /\ (forall data,
        read_file w sitemap_file = Returned data ->
        ET_parse data = Some root ->
        substitution_occurs rs root ->
        disk (update_sitemap rs w self).1 !! sitemap_file
        = Some (File (ET_tostring (rewrite_sitemap rs root).1))).
Proof.
  split_and!.
  - unfold rewrite_index. by rewrite fold_left_app.
  - unfold rewrite_index_step.
    destruct (replace_split (href_dq (r_old r)) (href_dq (r_new r)) content
                (href_dq_nonempty _)) as (pieces & Hc & Hrep & Hfree).
    destruct (replace_split (href_sq (r_old r)) (href_sq (r_new r))
                (join (href_dq (r_new r)) pieces) (href_sq_nonempty _))
      as (pieces' & Hc' & Hrep' & Hfree').
    exists pieces, pieces'. rewrite Hrep, Hrep'. done.
  - apply update_index_world.
  - apply rewrite_loc_text_snoc.
  - intros updated. done.
  - intros Hne. by apply replace_split.
  - rewrite rewrite_locs_flag. split; intros (d & Hd & Ht); exists d.
    + rewrite findall_elem. destruct Ht as [Htag Ht]. done.
    + apply findall_elem in Hd as [Hd _]. done.
  - apply rewrite_sitemap_lookup.
  - intros data Hread Hparse Hocc.
    rewrite update_sitemap_world, Hread, Hparse.
    apply rewrite_sitemap_flag in Hocc. rewrite Hocc. simpl.
    apply lookup_insert_eq.
Qed.

End Rewriting.

(** A site after [Página.html] was renamed to [pagina.html]: the index
    and the sitemap still hold the old name. *)
Definition site_folder : world :=
  Demo.folder
    [ (py "index.html",
       File (Demo.index_page [py "Página.html"; py "contato.html"; py "Página.html"]));
      (py "sitemap.xml", File Demo.sitemap_text);
      (py "pagina.html", Demo.page);
      (py "contato.html", Demo.page) ].

Definition page_renamed : list renamed :=
  [Renamed (py "Página.html") (py "pagina.html") true].

Lemma site_substitution : substitution_occurs page_renamed Demo.sitemap_tree.
Proof. apply rewrite_sitemap_flag. vm_compute. reflexivity. Qed.

Lemma references_rewritten_witness :
  read_text site_folder index_file
  = Returned (Demo.index_page [py "Página.html"; py "contato.html"; py "Página.html"])
  /\ read_file site_folder sitemap_file = Returned Demo.sitemap_text
  /\ ET_parse Demo.sitemap_text = Some Demo.sitemap_tree
  /\ substitution_occurs page_renamed Demo.sitemap_tree
  /\ disk (update_index page_renamed site_folder init).1 !! index_file
     = Some (File (Demo.index_page
                     [py "pagina.html"; py "contato.html"; py "pagina.html"]))
  /\ loc_texts ns_loc_tag (rewrite_sitemap page_renamed Demo.sitemap_tree).1
     = [py "http://example.com/pagina.html"; py "http://example.com/contato.html"]
  /\ disk (update_sitemap page_renamed site_folder init).1 !! sitemap_file
     = Some (File (ET_tostring (rewrite_sitemap page_renamed Demo.sitemap_tree).1)).
Proof.
  assert (H1 : read_text site_folder index_file
    = Returned (Demo.index_page [py "Página.html"; py "contato.html"; py "Página.html"]))
    by (vm_compute; reflexivity).
  assert (H2 : read_file site_folder sitemap_file = Returned Demo.sitemap_text)
    by (vm_compute; reflexivity).
  assert (H3 : ET_parse Demo.sitemap_text = Some Demo.sitemap_tree)
    by (vm_compute; reflexivity).
  destruct (references_rewritten page_renamed
              (Renamed (py "Página.html") (py "pagina.html") true)
              (Demo.index_page [py "Página.html"; py "contato.html"; py "Página.html"])
              (py "http://example.com/Página.html")
              Demo.sitemap_tree site_folder init)
    as (_ & _ & Hindex & _ & _ & _ & _ & _ & Hsitemap).
  split_and!; [exact H1 | exact H2 | exact H3 | exact site_substitution | | | ].
  - rewrite (Hindex H1). simpl. rewrite lookup_insert_eq. vm_compute. reflexivity.
  - vm_compute. reflexivity.
  - exact (Hsitemap _ H2 H3 site_substitution).
Defined.

(** C7 fails as stated: in a sitemap with a location element of the
    sitemap namespace and one without namespace, both with the old name,
    the first is rewritten, so the second loop does not run and the
    second element keeps the old name in the file that is written. *)
Definition mixed_folder : world :=
  Demo.folder [ (py "sitemap.xml", File Demo.mixed_sitemap_text);
                (py "pagina.html", Demo.page) ].

Lemma plain_location_left_stale :
  ET_parse Demo.mixed_sitemap_text = Some Demo.mixed_sitemap_tree
  /\ loc_texts loc_tag Demo.mixed_sitemap_tree = [py "http://example.org/Página.html"]
  /\ contains (py "Página.html") (py "http://example.org/Página.html") = true
  /\ loc_texts ns_loc_tag (rewrite_sitemap page_renamed Demo.mixed_sitemap_tree).1
     = [py "http://example.com/pagina.html"]
  /\ loc_texts loc_tag (rewrite_sitemap page_renamed Demo.mixed_sitemap_tree).1
     = [py "http://example.org/Página.html"]
  /\ disk (update_references page_renamed mixed_folder init).1 !! sitemap_file
     = Some (File (ET_tostring
                     (rewrite_sitemap page_renamed Demo.mixed_sitemap_tree).1)).
Proof. split_and!; vm_compute; reflexivity. Qed.

(** A rename whose old name is in no location of the sitemap. *)
Definition other_renamed : list renamed :=
  [Renamed (py "Outra.html") (py "outra.html") false].

Lemma sitemap_written_iff_witness :
  read_file site_folder sitemap_file = Returned Demo.sitemap_text
  /\ ET_parse Demo.sitemap_text = Some Demo.sitemap_tree
  /\ substitution_occurs page_renamed Demo.sitemap_tree
  /\ journal (update_sitemap page_renamed site_folder init).1 = [OpWrite sitemap_file]
  /\ (update_sitemap other_renamed site_folder init).1 = site_folder.
Proof.
  assert (H2 : read_file site_folder sitemap_file = Returned Demo.sitemap_text)
    by (vm_compute; reflexivity).
  assert (H3 : ET_parse Demo.sitemap_text = Some Demo.sitemap_tree)
    by (vm_compute; reflexivity).
  destruct (sitemap_written_iff page_renamed site_folder init) as (Hiff & _ & _ & _).
  destruct (sitemap_written_iff other_renamed site_folder init) as (_ & _ & _ & Hsame).
  split_and!; [exact H2 | exact H3 | exact site_substitution | | ].
  - apply Hiff. exists Demo.sitemap_text, Demo.sitemap_tree.
    split_and!; [exact H2 | exact H3 | exact site_substitution].
  - apply (Hsame _ _ H2 H3). intros r e t Hr He Ht.
    apply list_elem_of_singleton in Hr as ->.
    assert (Hl : findall ns_loc_tag Demo.sitemap_tree ++ findall loc_tag Demo.sitemap_tree
                 = [Element (Demo.ns_tag "loc")
                      (Some (py "http://example.com/Página.html")) [];
                    Element (Demo.ns_tag "loc")
                      (Some (py "http://example.com/contato.html")) []])
      by (vm_compute; reflexivity).
    rewrite Hl in He.
    apply elem_of_cons in He as [-> | He].
    { injection Ht as <-. vm_compute. reflexivity. }
    apply list_elem_of_singleton in He as ->.
    injection Ht as <-. vm_compute. reflexivity.
Defined.

(* ===================================================================== *)
(** * Further properties of the cleaning functions *)
(* ===================================================================== *)

(** [[a-z0-9\-\._/]] *)
Definition url_clean_char (c : codepoint) : bool :=
  stem_char c || (c =? c_dot)%N || (c =? c_slash)%N.

Section CleaningMore.
Context `{UnicodeData}.

Lemma url_clean_char_spec (c : codepoint) :
  url_char c && negb (is_upper c) = url_clean_char c.
Proof.
  unfold url_clean_char, stem_char, url_char, filename_char.
  destruct (is_upper c) eqn:Hu; simpl.
  - rewrite andb_false_r. symmetry. revert Hu. clear.
    unfold is_upper, is_lower, is_digit. intros Hu.
    repeat (apply orb_false_iff; split); bool_lia.
  - rewrite andb_true_r.
    destruct (is_lower c), (is_digit c), (c =? c_hyphen)%N, (c =? c_underscore)%N;
      reflexivity.
Qed.

Lemma clean_url_form (url : str) : clean_form url_char (LinkCleaner.clean_url url).
Proof. apply (clean_steps_form url_char url_char_ascii url_char_lower). Qed.

Lemma clean_url_fixed (t : str) : clean_form url_char t -> LinkCleaner.clean_url t = t.
Proof.
  intros Hform.
  destruct (clean_form_fixed url_char url_char_ascii url_char_nonspace t Hform)
    as [Ha Hs].
  unfold LinkCleaner.clean_url. unfold unquote.
  rewrite (clean_form_no_percent t Hform). simpl.
  change (LinkCleaner.remove_accents t) with (FileRenamer.remove_accents t).
  rewrite Ha. exact Hs.
Qed.

(** X1. Whatever the input, the result of [clean_url] holds only
    characters of [[a-z0-9\-\._/]], neither starts nor ends with a hyphen
    and has no two hyphens in a row. *)
Theorem clean_url_shape (url : str) :
  forallb url_clean_char (LinkCleaner.clean_url url) = true
  /\ startswith (LinkCleaner.clean_url url) [c_hyphen] = false
  /\ endswith (LinkCleaner.clean_url url) [c_hyphen] = false
  /\ contains [c_hyphen; c_hyphen] (LinkCleaner.clean_url url) = false.
Proof.
  destruct (clean_url_form url) as (Hc & Hd & Hh & Hl).
  split_and!; try done.
  revert Hc. apply forallb_impl. intros c. rewrite url_clean_char_spec. done.
Qed.

(** X2. [clean_url] returns its argument unchanged exactly when the
    argument is already in cleaned form: only characters of
    [[a-z0-9\-\._/]], no hyphen at either end, no two hyphens in a row.
    So a link needs an update exactly when it is not in that form. *)
Theorem clean_url_fixed_iff (url : str) :
  LinkCleaner.clean_url url = url
  <-> (forallb url_clean_char url = true
       /\ startswith url [c_hyphen] = false
       /\ endswith url [c_hyphen] = false
       /\ contains [c_hyphen; c_hyphen] url = false).
Proof.
  split.
  - intros Heq. rewrite <- Heq.
    destruct (clean_url_form url) as (Hc & Hd & Hh & Hl).
    split_and!; try done.
    revert Hc. apply forallb_impl. intros c. rewrite url_clean_char_spec. done.
  - intros (Hc & Hh & Hl & Hd). apply clean_url_fixed. split_and!; try done.
    revert Hc. apply forallb_impl. intros c. rewrite url_clean_char_spec. done.
Qed.

(** X3. [clean_filename] returns a name unchanged exactly when the part
    that [os.path.splitext] takes as the name is already in cleaned form:
    only characters of [[a-z0-9\-_]], no hyphen at either end, no two
    hyphens in a row. The extension plays no part. *)
Theorem clean_filename_fixed_iff (filename : str) :
  FileRenamer.clean_filename filename = filename
  <-> (forallb stem_char (splitext filename).1 = true
       /\ startswith (splitext filename).1 [c_hyphen] = false
       /\ endswith (splitext filename).1 [c_hyphen] = false
       /\ contains [c_hyphen; c_hyphen] (splitext filename).1 = false).
Proof.
  rewrite clean_filename_eq.
  rewrite <- (splitext_app filename) at 3.
  split.
  - intros Heq. apply app_inv_tail in Heq. rewrite <- Heq.
    destruct (clean_name_form (splitext filename).1) as (Hc & Hd & Hh & Hl).
    split_and!; try done.
    revert Hc. apply forallb_impl. intros c. rewrite stem_char_spec. done.
  - intros (Hc & Hh & Hl & Hd). f_equal. apply clean_name_fixed.
    split_and!; try done.
    revert Hc. apply forallb_impl. intros c. rewrite stem_char_spec. done.
Qed.

(** X4. [remove_accents] never returns a combining mark, and it returns
    a text of Basic Latin characters unchanged; the two scripts agree on
    it. *)
Theorem remove_accents_ascii_unchanged (text : str) :
  Forall (fun c => combining c = 0%N) (FileRenamer.remove_accents text)
  /\ LinkCleaner.remove_accents text = FileRenamer.remove_accents text
  /\ (forallb is_ascii text = true -> FileRenamer.remove_accents text = text).
Proof.
  split_and!.
  - unfold FileRenamer.remove_accents. apply Forall_forall. intros c Hc.
    apply list_elem_of_In, filter_In in Hc as [_ Hc]. by apply N.eqb_eq.
  - done.
  - apply remove_accents_ascii.
Qed.

End CleaningMore.

Lemma remove_accents_ascii_unchanged_witness :
  forallb is_ascii (py "Pagina Principal.html") = true
  /\ FileRenamer.remove_accents (py "Pagina Principal.html")
     = py "Pagina Principal.html".
Proof.
  assert (Ha : forallb is_ascii (py "Pagina Principal.html") = true)
    by (vm_compute; reflexivity).
  split; [exact Ha|].
  exact (proj2 (proj2 (@remove_accents_ascii_unchanged latin1
                         (py "Pagina Principal.html"))) Ha).
Defined.

(* ===================================================================== *)
(** * Further properties of the scan *)
(* ===================================================================== *)

Lemma set_add_elem (x y : str) (s : list str) : y ∈ set_add x s <-> y = x \/ y ∈ s.
Proof.
  unfold set_add. destruct (bool_decide_reflect (x ∈ s)) as [Hx | Hx].
  - split; [by right | intros [-> | ?]; done].
  - rewrite elem_of_app, list_elem_of_singleton. tauto.
Qed.

Section Scan.
Context `{UnicodeData} `{Parsers}.

(** The file name [f] is what the loops of the two extractions take from
    one of the link texts [links]: the last segment of the path of a text
    that ends in [.html], when it is neither empty nor [index.html]. *)
Definition names_file (links : list str) (f : str) : Prop :=
  exists href path,
    href ∈ links /\ endswith href (py ".html") = true
    /\ urlparse_path href = Some path /\ f = basename path
    /\ f ≠ [] /\ f ≠ index_file.

Lemma names_file_cons (href : str) (links : list str) (f : str) :
  names_file (href :: links) f
  <-> (endswith href (py ".html") = true
       /\ (exists path, urlparse_path href = Some path /\ f = basename path)
       /\ f ≠ [] /\ f ≠ index_file)
      \/ names_file links f.
Proof.
  unfold names_file. split.
  - intros (h & path & Hh & He & Hp & Hf & Hn & Hi).
    apply elem_of_cons in Hh as [-> | Hh]; [left | right]; eauto 10.
  - intros [(He & (path & Hp & Hf) & Hn & Hi) | (h & path & Hh & Hrest)].
    + exists href, path. split_and!; try done. left.
    + exists h, path. split; [by right | done].
Qed.

Lemma endswith_html_nonempty (href : str) :
  endswith href (py ".html") = true -> href ≠ [].
Proof. apply endswith_nonempty. done. Qed.

Lemma collect_links_sound (links acc : list str) (f : str) :
  f ∈ (collect_links links acc).1 -> f ∈ acc \/ names_file links f.
Proof.
  revert acc. induction links as [|href links IH]; intros acc; simpl; [by left|].
  rewrite names_file_cons.
  destruct (bool_decide_reflect (href = [])) as [He | Hne]; simpl.
  { intros Hf. apply IH in Hf. tauto. }
  destruct (endswith href (py ".html")) eqn:Hends.
  2:{ intros Hf. apply IH in Hf. tauto. }
  destruct (urlparse_path href) as [path|] eqn:Hpath; simpl; [|by left].
  destruct (bool_decide_reflect (basename path = [])) as [Hb | Hb]; simpl.
  { intros Hf. apply IH in Hf. tauto. }
  destruct (bool_decide_reflect (basename path = index_file)) as [Hi | Hi]; simpl.
  { intros Hf. apply IH in Hf. tauto. }
  intros Hf. apply IH in Hf as [Hf | Hf]; [|tauto].
  apply set_add_elem in Hf as [-> | Hf]; [|tauto].
  right. left. eauto 10.
Qed.

Lemma collect_links_complete (links acc : list str) :
  (forall href, href ∈ links -> is_Some (urlparse_path href)) ->
  (collect_links links acc).2 = None
  /\ forall f, f ∈ acc \/ names_file links f -> f ∈ (collect_links links acc).1.
Proof.
  revert acc. induction links as [|href links IH]; intros acc Hparse; simpl.
  { split; [done|]. intros f [Hf | (h & p & Hh & _)]; [done|].
    by apply elem_of_nil in Hh. }
  assert (Hrest : forall h, h ∈ links -> is_Some (urlparse_path h)).
  { intros h Hh. apply Hparse. by right. }
  destruct (Hparse href ltac:(left)) as [path Hpath].
  destruct (bool_decide_reflect (href = [])) as [He | Hne]; simpl.
  { destruct (IH acc Hrest) as [Hnone Hall]. split; [done|].
    intros f Hf. apply Hall. rewrite names_file_cons in Hf.
    destruct Hf as [Hf | [(Hends & _) | Hf]]; [tauto | | tauto].
    by apply endswith_html_nonempty in Hends. }
  destruct (endswith href (py ".html")) eqn:Hends.
  2:{ destruct (IH acc Hrest) as [Hnone Hall]. split; [done|].
      intros f Hf. apply Hall. rewrite names_file_cons in Hf.
      destruct Hf as [Hf | [(Hends' & _) | Hf]]; [tauto | congruence | tauto]. }
  rewrite Hpath.
  destruct (bool_decide_reflect (basename path = [])) as [Hb | Hb]; simpl.
  { destruct (IH acc Hrest) as [Hnone Hall]. split; [done|].
    intros f Hf. apply Hall. rewrite names_file_cons in Hf.
    destruct Hf as [Hf | [(_ & (p & Hp & Hf) & Hn & _) | Hf]]; [tauto | | tauto].
    simplify_eq. }
  destruct (bool_decide_reflect (basename path = index_file)) as [Hi | Hi]; simpl.
  { destruct (IH acc Hrest) as [Hnone Hall]. split; [done|].
    intros f Hf. apply Hall. rewrite names_file_cons in Hf.
    destruct Hf as [Hf | [(_ & (p & Hp & Hf) & _ & Hn) | Hf]]; [tauto | | tauto].
    simplify_eq. }
  destruct (IH (set_add (basename path) acc) Hrest) as [Hnone Hall].
  split; [done|]. intros f Hf. apply Hall. rewrite set_add_elem.
  rewrite names_file_cons in Hf.
  destruct Hf as [Hf | [(_ & (p & Hp & Hf) & _) | Hf]]; [tauto | | tauto].
  simplify_eq. tauto.
Qed.

(** X5. [extract_links_from_index] returns a set: no name twice. Without
    an index file it returns the empty set and records nothing; an index
    that cannot be read gives the empty set and one recorded error.
    Otherwise every name returned is the last path segment of an [href]
    that ends in [.html], is not empty and is not [index.html]; and when
    [urlparse] accepts every [href], nothing is recorded and every such
    name is returned. *)
Theorem index_links_characterised (w : world) (self : renamer) :
  let r := extract_links_from_index w self in
  NoDup r.1
  /\ (path_exists w index_file = false -> r = ([], self))
  /\ (forall e, path_exists w index_file = true ->
        read_text w index_file = Raised e ->
        r = ([], record_error self (ErrIndex e)))
  /\ (forall content,
        read_text w index_file = Returned content ->
        (forall f, f ∈ r.1 -> names_file (soup_a_hrefs content) f)
        /\ ((forall href, href ∈ soup_a_hrefs content -> is_Some (urlparse_path href)) ->
            r.2 = self
            /\ forall f, names_file (soup_a_hrefs content) f -> f ∈ r.1)).
Proof.
  intros r. subst r. unfold extract_links_from_index. split_and!.
  - destruct (path_exists w index_file); [|constructor].
    destruct (read_text w index_file) as [content | e]; [|constructor].
    pose proof (collect_links_NoDup (soup_a_hrefs content) [] ltac:(constructor)) as Hc.
    destruct (collect_links (soup_a_hrefs content) []) as [refs [e|]]; done.
  - intros ->. done.
  - intros e -> ->. done.
  - intros content Hread.
    destruct (read_text_file _ _ _ Hread) as (stored & Hst & _).
    unfold path_exists. rewrite Hst, Hread. split.
    + intros f Hf.
      destruct (collect_links_sound (soup_a_hrefs content) [] f) as [Hnil | Hn].
      * destruct (collect_links (soup_a_hrefs content) []) as [refs [e|]]; done.
      * by apply elem_of_nil in Hnil.
      * done.
    + intros Hparse.
      destruct (collect_links_complete (soup_a_hrefs content) [] Hparse) as [Hnone Hall].
      destruct (collect_links (soup_a_hrefs content) []) as [refs [e|]];
        [discriminate|].
      split; [done|]. intros f Hf. apply Hall. by right.
Qed.

(** X6. [extract_links_from_sitemap] returns a set. Without a sitemap
    file it returns the empty set and records nothing; a sitemap that is
    not well-formed gives the empty set and one recorded error. When
    [urlparse] accepts every location text, nothing is recorded, and the
    names returned are those taken from the location elements of the
    sitemap namespace, or, only when these give no name at all, those
    taken from the location elements without namespace. *)
Theorem sitemap_links_characterised (w : world) (self : renamer) :
  let r := extract_links_from_sitemap w self in
  NoDup r.1
  /\ (path_exists w sitemap_file = false -> r = ([], self))
  /\ (forall data,
        read_file w sitemap_file = Returned data -> ET_parse data = None ->
        r = ([], record_error self (ErrSitemap ParseError)))
  /\ (forall data root,
        read_file w sitemap_file = Returned data -> ET_parse data = Some root ->
        (forall t, t ∈ loc_texts ns_loc_tag root ++ loc_texts loc_tag root ->
                   is_Some (urlparse_path t)) ->
        r.2 = self
        /\ forall f,
             f ∈ r.1
             <-> names_file (loc_texts ns_loc_tag root) f
                 \/ ((forall g, ~ names_file (loc_texts ns_loc_tag root) g)
                     /\ names_file (loc_texts loc_tag root) f)).
Proof.
  intros r. subst r. unfold extract_links_from_sitemap. split_and!.
  - destruct (path_exists w sitemap_file); [|constructor].
    destruct (read_file w sitemap_file) as [data | e]; [|constructor].
    destruct (ET_parse data) as [root|]; [|constructor].
    pose proof (collect_links_NoDup (loc_texts ns_loc_tag root) [] ltac:(constructor))
      as Hc.
    pose proof (collect_links_NoDup (loc_texts loc_tag root) [] ltac:(constructor))
      as Hc'.
    destruct (collect_links (loc_texts ns_loc_tag root) []) as [[|x refs] [e|]];
      try done.
    destruct (collect_links (loc_texts loc_tag root) []) as [refs [e|]]; done.
  - intros ->. done.
  - intros data Hread Hparse.
    pose proof (read_file_file _ _ _ Hread) as Hst.
    unfold path_exists. rewrite Hst, Hread, Hparse. done.
  - intros data root Hread Hparse Hurl.
    pose proof (read_file_file _ _ _ Hread) as Hst.
    unfold path_exists. rewrite Hst, Hread, Hparse.
    destruct (collect_links_complete (loc_texts ns_loc_tag root) []) as [Hnone Hall].
    { intros t Ht. apply Hurl, elem_of_app. by left. }
    destruct (collect_links_complete (loc_texts loc_tag root) []) as [Hnone' Hall'].
    { intros t Ht. apply Hurl, elem_of_app. by right. }
    pose proof (collect_links_sound (loc_texts ns_loc_tag root) []) as Hsound.
    pose proof (collect_links_sound (loc_texts loc_tag root) []) as Hsound'.
    destruct (collect_links (loc_texts ns_loc_tag root) []) as [[|x refs] [e|]];
      try discriminate; simpl in *.
    + destruct (collect_links (loc_texts loc_tag root) []) as [refs' [e|]];
        try discriminate; simpl in *.
      split; [done|]. intros f. split.
      * intros Hf. right. split.
        -- intros g Hg. specialize (Hall g (or_intror Hg)). by apply elem_of_nil in Hall.
        -- destruct (Hsound' f Hf) as [Hnil | Hn]; [by apply elem_of_nil in Hnil | done].
      * intros [Hf | [_ Hf]].
        -- specialize (Hall f (or_intror Hf)). by apply elem_of_nil in Hall.
        -- apply Hall'. by right.
    + split; [done|]. intros f. split.
      * intros Hf. left.
        destruct (Hsound f Hf) as [Hnil | Hn]; [by apply elem_of_nil in Hnil | done].
      * intros [Hf | [Hno Hf]].
        -- apply Hall. by right.
        -- exfalso. destruct (Hsound x ltac:(left)) as [Hnil | Hn].
           ++ by apply elem_of_nil in Hnil.
           ++ by apply (Hno x).
Qed.

End Scan.

(* ===================================================================== *)
(** * Further properties of the plan *)
(* ===================================================================== *)

Lemma glob_html_exists (w : world) (f : str) :
  f ∈ glob_html w -> endswith f (py ".html") = true /\ path_exists w f = true.
Proof.
  unfold glob_html. intros Hf.
  apply list_elem_of_In, filter_In in Hf as [Hf Hends]. split; [done|].
  apply list_elem_of_In, list_elem_of_fmap in Hf as ([k n] & -> & Hkn).
  apply elem_of_map_to_list in Hkn. simpl in *.
  unfold path_exists. rewrite stat_child, Hkn; [done | |].
  - eapply endswith_nonempty; [|exact Hends]. vm_compute. discriminate.
  - intros ->. vm_compute in Hends. discriminate.
Qed.

Lemma physical_files_exist (w : world) (f : str) :
  f ∈ physical_files w ->
  f ∈ glob_html w /\ f ≠ index_file /\ joinpath f = f /\ path_exists w f = true.
Proof.
  intros Hf. pose proof (physical_files_names w) as Hn.
  rewrite Forall_forall in Hn. destruct (Hn f Hf) as [_ Hdot].
  unfold physical_files in Hf. apply list_elem_of_In, filter_In in Hf as [Hf Hi].
  apply list_elem_of_In in Hf. apply negb_true_iff, bool_decide_eq_false in Hi.
  split_and!; [done | done | | by apply glob_html_exists].
  unfold joinpath. by rewrite bool_decide_eq_false_2.
Qed.

Section PlanMore.
Context `{UnicodeData} `{Parsers} `{HashOrder}.

(** The entry that the first loop of [create_rename_map] makes for the
    referenced file [f], and the one that the second loop makes for the
    physical file [f]. *)
Definition referenced_entry (f : str) : str * rename_info :=
  (joinpath f,
   RenameInfo f (FileRenamer.clean_filename f) (joinpath f)
              (joinpath (FileRenamer.clean_filename f)) true).

Definition physical_entry (f : str) : str * rename_info :=
  (f, RenameInfo f (FileRenamer.clean_filename f) f
                 (joinpath (FileRenamer.clean_filename f)) false).

Lemma plan_referenced_elem (w : world) (refs : list str)
    (m : list (str * rename_info)) (item : str * rename_info) :
  item ∈ plan_referenced w refs m ->
  item ∈ m
  \/ exists f, f ∈ refs /\ path_exists w (joinpath f) = true
               /\ FileRenamer.clean_filename f ≠ f /\ item = referenced_entry f.
Proof.
  revert m. induction refs as [|f refs IH]; intros m; simpl; [by left|].
  assert (Hrest : item ∈ plan_referenced w refs m ->
    item ∈ m \/ exists f0, f0 ∈ f :: refs /\ path_exists w (joinpath f0) = true
                 /\ FileRenamer.clean_filename f0 ≠ f0 /\ item = referenced_entry f0).
  { intros Hin. destruct (IH m Hin) as [? | (f0 & Hf0 & Hrest)]; [by left|].
    right. exists f0. split; [by right | done]. }
  destruct (path_exists w (joinpath f)) eqn:Hex; [|done].
  destruct (bool_decide_reflect (f = FileRenamer.clean_filename f)) as [Heq | Hne];
    simpl; [done|].
  intros Hin. destruct (IH _ Hin) as [Hm | (f0 & Hf0 & Hrest0)].
  - apply dict_set_elem in Hm as [-> | Hm]; [|by left].
    right. exists f. split_and!; [left | done | congruence | done].
  - right. exists f0. split; [by right | done].
Qed.

Lemma plan_referenced_keys (w : world) (refs : list str)
    (m : list (str * rename_info)) (k : str) :
  k ∈ m.*1
  \/ (exists f, f ∈ refs /\ path_exists w (joinpath f) = true
                /\ FileRenamer.clean_filename f ≠ f /\ k = joinpath f) ->
  k ∈ (plan_referenced w refs m).*1.
Proof.
  revert m. induction refs as [|f refs IH]; intros m; simpl.
  { intros [? | (f & Hf & _)]; [done | by apply elem_of_nil in Hf]. }
  intros Hk.
  assert (Hset : forall e, k ∈ m.*1 -> k ∈ (dict_set (joinpath f) e m).*1).
  { intros e Hm. rewrite dict_set_keys. destruct (dict_mem _ m); [done|].
    apply elem_of_app. by left. }
  destruct (path_exists w (joinpath f)) eqn:Hex.
  2:{ apply IH. destruct Hk as [? | (f0 & Hf0 & Hex0 & Hrest)]; [by left|].
      apply elem_of_cons in Hf0 as [-> | Hf0]; [congruence|]. right. eauto. }
  destruct (bool_decide_reflect (f = FileRenamer.clean_filename f)) as [Heq | Hne];
    simpl.
  { apply IH. destruct Hk as [? | (f0 & Hf0 & Hex0 & Hc0 & Hrest)]; [by left|].
    apply elem_of_cons in Hf0 as [-> | Hf0]; [congruence|]. right. eauto. }
  apply IH. destruct Hk as [Hm | (f0 & Hf0 & Hex0 & Hc0 & ->)]; [left; by apply Hset|].
  apply elem_of_cons in Hf0 as [-> | Hf0]; [|right; eauto].
  left. rewrite dict_set_keys. destruct (dict_mem _ m) eqn:Hmem.
  - by apply dict_mem_keys.
  - apply elem_of_app. right. left.
Qed.

Lemma plan_physical_elem (files : list str) (m : list (str * rename_info))
    (item : str * rename_info) :
  item ∈ plan_physical files m ->
  item ∈ m
  \/ exists f, f ∈ files /\ FileRenamer.clean_filename f ≠ f /\ (f ∉ m.*1)
               /\ item = physical_entry f.
Proof.
  revert m. induction files as [|f files IH]; intros m; simpl; [by left|].
  assert (Hrest : item ∈ plan_physical files m ->
    item ∈ m \/ exists f0, f0 ∈ f :: files /\ FileRenamer.clean_filename f0 ≠ f0
                           /\ (f0 ∉ m.*1) /\ item = physical_entry f0).
  { intros Hin. destruct (IH m Hin) as [? | (f0 & Hf0 & Hrest)]; [by left|].
    right. exists f0. split; [by right | done]. }
  destruct (bool_decide_reflect (f = FileRenamer.clean_filename f)) as [Heq | Hne];
    simpl; [done|].
  destruct (dict_mem f m) eqn:Hmem; simpl; [done|].
  rewrite dict_set_absent by done.
  intros Hin. destruct (IH _ Hin) as [Hm | (f0 & Hf0 & Hc0 & Hk0 & ->)].
  - apply elem_of_app in Hm as [Hm | Hm]; [by left|].
    apply list_elem_of_singleton in Hm as ->.
    right. exists f. split_and!; [left | congruence | | done].
    intros Hk. apply dict_mem_keys in Hk. congruence.
  - right. exists f0. split_and!; [by right | done | | done].
    intros Hk. apply Hk0. rewrite fmap_app. apply elem_of_app. by left.
Qed.

Lemma plan_physical_keys (files : list str) (m : list (str * rename_info)) (k : str) :
  k ∈ m.*1 \/ (k ∈ files /\ FileRenamer.clean_filename k ≠ k) ->
  k ∈ (plan_physical files m).*1.
Proof.
  revert m. induction files as [|f files IH]; intros m; simpl.
  { intros [? | [Hk _]]; [done | by apply elem_of_nil in Hk]. }
  intros Hk.
  destruct (bool_decide_reflect (f = FileRenamer.clean_filename f)) as [Heq | Hne];
    simpl.
  { apply IH. destruct Hk as [? | [Hk Hc]]; [by left|].
    apply elem_of_cons in Hk as [-> | Hk]; [congruence | by right]. }
  destruct (dict_mem f m) eqn:Hmem; simpl.
  { apply IH. destruct Hk as [? | [Hk Hc]]; [by left|].
    apply elem_of_cons in Hk as [-> | Hk]; [|by right].
    left. by apply dict_mem_keys. }
  apply IH. rewrite dict_set_absent, fmap_app by done.
  destruct Hk as [? | [Hk Hc]]; [left; apply elem_of_app; by left|].
  apply elem_of_cons in Hk as [-> | Hk]; [|by right].
  left. apply elem_of_app. right. left.
Qed.

Lemma key_old_name (m : list (str * rename_info)) (f : str) :
  plan_wf m -> f ≠ [] -> joinpath f ∈ m.*1 -> f ∈ old_names m.
Proof.
  intros [_ Hwf] Hf Hk. apply list_elem_of_fmap in Hk as ([k e] & Hk & Hin).
  rewrite Forall_forall in Hwf. destruct (Hwf _ Hin) as (Hke & Hne & _).
  simpl in *. apply list_elem_of_fmap. exists (k, e). split; [|done]. simpl.
  apply joinpath_inj; congruence.
Qed.


(** X8. The plan that [create_rename_map] builds has an entry for a file
    name exactly when the name differs from its cleaned form and either
    the index or the sitemap names it and [folder/name] exists, or it is
    one of the HTML files of the folder other than [index.html]. *)
Theorem plan_old_names_iff (w : world) (f : str) :
  f ∈ old_names (rename_map (create_rename_map w init))
  <-> FileRenamer.clean_filename f ≠ f
      /\ ((f ∈ all_referenced w /\ path_exists w (joinpath f) = true)
          \/ f ∈ physical_files w).
Proof.
  pose proof (created_plan_wf w) as Hwf.
  rewrite create_rename_map_plan in *. split.
  - intros Hf. apply list_elem_of_fmap in Hf as (item & -> & Hin).
    apply plan_physical_elem in Hin as [Hin | (f & Hf & Hc & Hk & ->)].
    + apply plan_referenced_elem in Hin as [Hin | (f & Hf & Hex & Hc & ->)];
        [by apply elem_of_nil in Hin|].
      apply referenced_order_elem in Hf. simpl. split; [done | by left].
    + simpl. split; [done | by right].
  - intros [Hc [[Href Hex] | Hphys]].
    + pose proof (all_referenced_nonempty w) as Hne. rewrite Forall_forall in Hne.
      apply key_old_name; [done | by apply Hne |].
      apply plan_physical_keys. left. apply plan_referenced_keys. right.
      exists f. by rewrite referenced_order_elem.
    + pose proof (physical_files_names w) as Hne. rewrite Forall_forall in Hne.
      destruct (Hne f Hphys) as [Hf _].
      destruct (physical_files_exist w f Hphys) as (_ & _ & Hjoin & _).
      apply key_old_name; [done | done |]. rewrite Hjoin.
      apply plan_physical_keys. by right.
Qed.

End PlanMore.

(** ** Conflicts *)

Lemma conflicts_of_nil (items : list (str * rename_info)) (names : gmap str str) :
  conflicts_of names items = []
  <-> NoDup (new_names items) /\ forall n, n ∈ new_names items -> names !! n = None.
Proof.
  revert names. induction items as [|[k e] items IH]; intros names.
  { split; [|done]. intros _. split; [constructor|]. intros n Hn.
    by apply elem_of_nil in Hn. }
  change (new_names ((k, e) :: items)) with (new_name e :: new_names items).
  cbn [conflicts_of].
  destruct (names !! new_name e) as [first|] eqn:Hfirst.
  - split; [discriminate|]. intros [_ Hall].
    specialize (Hall (new_name e) ltac:(left)). congruence.
  - rewrite IH, NoDup_cons. split.
    + intros [Hnd Hall]. split_and!; [|done|].
      * intros Hin. specialize (Hall _ Hin). by rewrite lookup_insert_eq in Hall.
      * intros n [-> | Hn]%elem_of_cons; [done|].
        specialize (Hall n Hn).
        destruct (decide (n = new_name e)) as [-> | Hne].
        -- by rewrite lookup_insert_eq in Hall.
        -- by rewrite lookup_insert_ne in Hall.
    + intros [[Hnin Hnd] Hall]. split; [done|]. intros n Hn.
      rewrite lookup_insert_ne; [apply Hall; by right|]. intros <-. done.
Qed.

(** The conflict [c] is between the entries at the positions [i < j] of
    the plan [m]: both have the new name that the conflict reports, and
    the conflict lists their two old names, in that order. *)
Definition conflict_between (m : list (str * rename_info)) (c : conflict) : Prop :=
  exists i j k1 e1 k2 e2,
    i < j /\ m !! i = Some (k1, e1) /\ m !! j = Some (k2, e2)
    /\ new_name e1 = conflict_new_name c /\ new_name e2 = conflict_new_name c
    /\ conflicting_files c = [old_name e1; old_name e2].

Lemma conflicts_of_between (pre items : list (str * rename_info))
    (names : gmap str str) :
  (forall n f, names !! n = Some f ->
     exists i k e, pre !! i = Some (k, e) /\ new_name e = n /\ old_name e = f) ->
  Forall (conflict_between (pre ++ items)) (conflicts_of names items).
Proof.
  revert pre names. induction items as [|[k e] items IH]; intros pre names Hinv; simpl;
    [constructor|].
  assert (Hcons : pre ++ (k, e) :: items = (pre ++ [(k, e)]) ++ items)
    by (by rewrite <- (assoc_L (++))).
  destruct (names !! new_name e) as [first|] eqn:Hfirst.
  - constructor.
    + destruct (Hinv _ _ Hfirst) as (i & k1 & e1 & Hi & Hn & Ho).
      exists i, (length pre), k1, e1, k, e. simpl.
      split_and!; try done.
      * by apply lookup_lt_Some in Hi.
      * by apply lookup_app_l_Some.
      * by rewrite list_lookup_middle.
      * by rewrite Ho.
    + rewrite Hcons. apply IH. intros n f Hnf.
      destruct (Hinv _ _ Hnf) as (i & k1 & e1 & Hi & Hrest).
      exists i, k1, e1. split; [by apply lookup_app_l_Some | done].
  - rewrite Hcons. apply IH. intros n f Hnf.
    destruct (decide (n = new_name e)) as [-> | Hne].
    + rewrite lookup_insert_eq in Hnf. injection Hnf as <-.
      exists (length pre), k, e. by rewrite list_lookup_middle.
    + rewrite lookup_insert_ne in Hnf by done.
      destruct (Hinv _ _ Hnf) as (i & k1 & e1 & Hi & Hrest).
      exists i, k1, e1. split; [by apply lookup_app_l_Some | done].
Qed.

(** X9. [check_conflicts] reports no conflict exactly when the new names
    of the plan are pairwise distinct, and then the plan is left as it
    is. Every conflict it reports is between two entries of the plan with
    the same new name, and lists the old name of the earlier entry first
    and that of the later entry second. *)
Theorem check_conflicts_characterised (self : renamer) :
  (check_conflicts self = [] <-> NoDup (new_names (rename_map self)))
  /\ (NoDup (new_names (rename_map self)) -> resolve_plan self = self)
  /\ Forall (conflict_between (rename_map self)) (check_conflicts self).
Proof.
  unfold check_conflicts. rewrite check_conflicts_loop_eq. simpl.
  assert (Hiff : conflicts_of ∅ (rename_map self) = []
                 <-> NoDup (new_names (rename_map self))).
  { rewrite conflicts_of_nil. split; [tauto|]. intros Hnd. split; [done|].
    intros n _. apply lookup_empty. }
  split_and!; [done | |].
  - intros Hnd. unfold resolve_plan, check_conflicts.
    rewrite check_conflicts_loop_eq. simpl. by rewrite (proj2 Hiff Hnd).
  - apply (conflicts_of_between [] (rename_map self) ∅).
    intros n f Hnf. by rewrite lookup_empty in Hnf.
Qed.

(** Two entries of the same file: the key, the old name, the old path and
    the mark are the same, and the second is the first or has
    [folder/new_name] as its new path. *)
Definition same_file (a b : str * rename_info) : Prop :=
  a.1 = b.1 /\ old_name a.2 = old_name b.2 /\ old_path a.2 = old_path b.2
  /\ referenced a.2 = referenced b.2
  /\ (b.2 = a.2 \/ new_path b.2 = joinpath (new_name b.2)).

Lemma same_file_refl (m : list (str * rename_info)) : Forall2 same_file m m.
Proof. induction m; constructor; [|done]. split_and!; try done. by left. Qed.

Lemma same_file_trans (m1 m2 m3 : list (str * rename_info)) :
  Forall2 same_file m1 m2 -> Forall2 same_file m2 m3 -> Forall2 same_file m1 m3.
Proof.
  intros H12. revert m3. induction H12 as [|a b m1 m2 Hab H12 IH]; intros m3 H23.
  - inversion H23. constructor.
  - inversion H23 as [|b' c m2' m3' Hbc H23']; subst. constructor; [|by apply IH].
    destruct Hab as (? & ? & ? & ? & Hab), Hbc as (? & ? & ? & ? & Hbc).
    split_and!; try congruence.
    destruct Hbc as [-> | Hc]; [|by right].
    destruct Hab as [-> | Hb]; [by left | by right].
Qed.

Lemma resolve_entry_same (old_filename r : str) (m : list (str * rename_info)) :
  Forall2 same_file m (resolve_entry old_filename r m).
Proof.
  induction m as [|[k e] m IH]; simpl; [constructor|].
  destruct (bool_decide (old_name e = old_filename)).
  - constructor; [|apply same_file_refl]. split_and!; try done. by right.
  - constructor; [|done]. split_and!; try done. by left.
Qed.

Lemma resolve_files_same (name ext : str) (i : nat) (files : list str)
    (m : list (str * rename_info)) :
  Forall2 same_file m (resolve_files name ext i files m).
Proof.
  revert i m. induction files as [|f files IH]; intros i m; simpl;
    [apply same_file_refl|].
  eapply same_file_trans; [apply resolve_entry_same | apply IH].
Qed.

(** X10. [resolve_conflicts], whatever the conflicts it is given, keeps
    the entries of the plan, their order, keys, old names, old paths and
    marks; the entries it changes get a new name and, as their new path,
    [folder/new_name]. The list of HTML files and the errors stay as they
    are. *)
Theorem resolve_conflicts_keeps (self : renamer) (conflicts : list conflict) :
  Forall2 same_file (rename_map self) (rename_map (resolve_conflicts self conflicts))
  /\ length (rename_map (resolve_conflicts self conflicts)) = length (rename_map self)
  /\ old_names (rename_map (resolve_conflicts self conflicts))
     = old_names (rename_map self)
  /\ html_files (resolve_conflicts self conflicts) = html_files self
  /\ errors (resolve_conflicts self conflicts) = errors self.
Proof.
  assert (Hsame : forall m, Forall2 same_file m (resolve_conflicts_loop conflicts m)).
  { induction conflicts as [|c cs IH]; intros m; simpl; [apply same_file_refl|].
    destruct (splitext (conflict_new_name c)) as [name ext].
    eapply same_file_trans; [apply resolve_files_same | apply IH]. }
  simpl. specialize (Hsame (rename_map self)).
  split_and!; try done.
  - symmetry. by eapply Forall2_length.
  - unfold old_names. symmetry.
    induction Hsame as [|a b m1 m2 (_ & Ho & _) Hm IH]; [done|].
    rewrite !fmap_cons, Ho, IH. done.
Qed.

(* ===================================================================== *)
(** * Further properties of the renames *)
(* ===================================================================== *)

(** X11. [perform_renames] on a plan that is not empty, whose entries
    have distinct sources and distinct destinations, each source being a
    regular file and each destination a path that does not exist and is
    not the source of an entry (and, with backups on, is not the backup
    folder, which is a directory or does not exist yet): every entry is
    renamed, in the order of the plan, and no error is recorded. At the
    end each destination holds the text that its source held, each source
    is gone, and with backups on the backup folder holds each text under
    its old name. *)
Theorem perform_renames_succeeds (backup : bool) (w : world) (self : renamer) :
  rename_map self ≠ [] ->
  NoDup (old_paths (rename_map self)) -> NoDup (new_paths (rename_map self)) ->
  Forall (applicable w (rename_map self)) (rename_map self) ->
  (backup = true ->
   (forall data, disk w !! backup_folder ≠ Some (File data))
   /\ Forall (fun item => new_path item.2 ≠ backup_folder) (rename_map self)) ->
  let r := perform_renames backup w self in
  r.1.2 = self
  /\ r.2 = Returned (Some (renamed_of <$> (rename_map self).*2))
  /\ Forall (applied backup w r.1.1) (rename_map self).
Proof.
  intros Hne Hold Hnew Happ Hback r. subst r. unfold perform_renames.
  destruct (rename_map self) as [|item m] eqn:Hplan; [done|].
  clear Hne. set (plan := item :: m) in *.
  assert (Hloop : forall w1,
    (forall p, p ≠ backup_folder -> disk w1 !! p = disk w !! p) ->
    (backup = true -> is_dir w1 backup_folder) ->
    (backup = false -> w1 = w) ->
    let r := (let '(w2, self2, oks) := rename_loop backup plan (w1, self, []) in
              (w2, self2, Returned (Some oks))) in
    r.1.2 = self
    /\ r.2 = Returned (Some (renamed_of <$> plan.*2))
    /\ Forall (applied backup w r.1.1) plan).
  { intros w1 Hsame Hdir Hoff.
    assert (Hstat : forall x, x ∈ plan ->
              stat w1 (old_path x.2) = stat w (old_path x.2)
              /\ path_exists w1 (new_path x.2) = false).
    { intros x Hx. rewrite Forall_forall in Happ.
      destruct (Happ x Hx) as ((d & Hd) & Hf & _).
      destruct backup; [|by rewrite (Hoff eq_refl)].
      destruct (Hback eq_refl) as [Hnofile Hall]. rewrite Forall_forall in Hall.
      pose proof (stat_file _ _ _ Hd) as (_ & _ & Hddisk).
      pose proof (path_exists_false _ _ Hf) as (Hp1 & Hp2 & Hpdisk).
      destruct (Hdir eq_refl) as [children Hc]. split.
      - apply stat_frame, Hsame. intros Heq. rewrite Heq in Hddisk.
        by destruct (Hnofile d).
      - unfold path_exists. rewrite stat_child by done.
        rewrite Hsame, Hpdisk; [done|]. by apply Hall. }
    assert (Happ1 : Forall (applicable w1 plan) plan).
    { apply Forall_forall. intros x Hx. rewrite Forall_forall in Happ.
      destruct (Happ x Hx) as ((d & Hd) & Hf & Hno).
      destruct (Hstat x Hx) as [Hs Hp].
      split_and!; [exists d; by rewrite Hs | done | done]. }
    destruct (rename_loop_succeeds backup plan w1 self [] Hold Hnew Happ1)
      as (Hself & Hok & Hdone & _).
    { intros Hb. split; [by apply Hdir | by destruct (Hback Hb)]. }
    destruct (rename_loop backup plan (w1, self, [])) as [[w2 self2] oks].
    simpl in *. split_and!; [done | by rewrite Hok |].
    apply Forall_forall. intros x Hx. rewrite Forall_forall in Hdone.
    intros d Hd. apply (Hdone x Hx). destruct (Hstat x Hx) as [Hs _]. by rewrite Hs. }
  destruct backup.
  - destruct (Hback eq_refl) as [Hnofile _]. unfold mkdir_exist_ok.
    destruct (disk w !! backup_folder) as [[data|children]|] eqn:Hb.
    + by destruct (Hnofile data).
    + apply Hloop; [done | intros _; by exists children | done].
    + apply Hloop; [|intros _; exists ∅; apply lookup_insert_eq | done].
      intros p Hp. simpl. by rewrite lookup_insert_ne.
  - apply Hloop; done.
Qed.

(** X12. A directory of the folder whose name is in the plan: with
    backups on, [shutil.copy2] raises [IsADirectoryError], the error is
    recorded and the directory keeps its name; with backups off it is
    renamed like a file. *)
Theorem rename_step_directory (e : rename_info) (w : world) (self : renamer)
    (ok : list renamed) (children : gmap str str) :
  old_path e ≠ [] -> old_path e ≠ [c_dot; c_dot] ->
  disk w !! old_path e = Some (Dir children) ->
  path_exists w (new_path e) = false ->
  rename_step true e (w, self, ok)
  = (w, record_error self (ErrRename (old_name e) IsADirectoryError), ok)
  /\ exists w',
       rename_step false e (w, self, ok) = (w', self, ok ++ [renamed_of e])
       /\ disk w' !! old_path e = None
       /\ disk w' !! new_path e = Some (Dir children).
Proof.
  intros Ho1 Ho2 Hodisk Hnew.
  pose proof (path_exists_false _ _ Hnew) as (Hn1 & Hn2 & Hndisk).
  assert (Hne : old_path e ≠ new_path e) by congruence.
  assert (Hst : stat w (old_path e) = Some (Dir children))
    by (by rewrite stat_child).
  assert (Hex : path_exists w (old_path e) = true)
    by (unfold path_exists; by rewrite Hst).
  unfold rename_step. rewrite Hex, Hnew. simpl. split.
  - unfold copy2. by rewrite Hst.
  - unfold rename.
    rewrite bool_decide_eq_false_2 by done.
    rewrite (bool_decide_eq_false_2 (old_path e = [])) by done.
    rewrite (bool_decide_eq_false_2 (old_path e = [c_dot; c_dot])) by done. simpl.
    rewrite Hodisk. eexists. split; [done|]. simpl. split.
    + rewrite lookup_insert_ne by done. apply lookup_delete_eq.
    + by rewrite lookup_insert_eq.
Qed.

Lemma rename_loop_result (backup : bool) (m : list (str * rename_info)) (w : world) :
  exists w' errs oks,
    sublist oks (renamed_of <$> m.*2)
    /\ length errs + length oks = length m
    /\ forall self ok,
         rename_loop backup m (w, self, ok) = (w', with_errors self errs, ok ++ oks).
Proof.
  revert w. induction m as [|[k e] m IH]; intros w.
  - exists w, [], []. split_and!; [done | done |]. intros. simpl.
    by rewrite with_errors_nil, app_nil_r.
  - destruct (rename_step_frame backup e w)
      as (w1 & errs1 & oks1 & Hlen1 & _ & Hoks & Hstep).
    destruct (IH w1) as (w2 & errs2 & oks2 & Hsub & Hlen2 & Hloop).
    exists w2, (errs1 ++ errs2), (oks1 ++ oks2). split_and!.
    + rewrite !fmap_cons. simpl.
      destruct Hoks as [-> | ->]; simpl; [by apply sublist_cons | by apply sublist_skip].
    + rewrite !length_app. simpl. lia.
    + intros self ok. rewrite rename_loop_cons, Hstep, Hloop.
      rewrite with_errors_app, (assoc_L (++)). done.
Qed.

(** X13. [perform_renames] leaves the plan and the list of HTML files as
    they are and only appends to the errors. The list it returns holds
    the successful entries in the order of the plan, each at most once,
    and every entry of the plan is either in that list or accounts for
    one new error. *)
Theorem perform_renames_result (backup : bool) (w : world) (self : renamer) :
  let r := perform_renames backup w self in
  rename_map r.1.2 = rename_map self
  /\ html_files r.1.2 = html_files self
  /\ exists errs,
       errors r.1.2 = errors self ++ errs
       /\ forall oks,
            r.2 = Returned (Some oks) ->
            sublist oks (renamed_of <$> (rename_map self).*2)
            /\ length errs + length oks = length (rename_map self).
Proof.
  intros r. subst r. unfold perform_renames.
  destruct (rename_map self) as [|item m] eqn:Hm.
  { simpl. split_and!; [done | done |]. exists []. split; [by rewrite app_nil_r|].
    intros oks Hoks. discriminate. }
  destruct (if backup then mkdir_exist_ok w backup_folder else Returned w)
    as [w1 | exc].
  2:{ simpl. split_and!; [done | done |]. exists []. split; [by rewrite app_nil_r|].
      intros oks Hoks. discriminate. }
  destruct (rename_loop_result backup (item :: m) w1)
    as (w2 & errs & oks & Hsub & Hlen & Hloop).
  rewrite Hloop. simpl. split_and!; [done | done |].
  exists errs. split; [done|]. intros oks' [= <-]. done.
Qed.

Lemma rename_step_disk_frame (backup : bool) (e : rename_info)
    (st : world * renamer * list renamed) (p : str) :
  p ≠ old_path e -> p ≠ new_path e -> p ≠ backup_folder ->
  disk (rename_step backup e st).1.1 !! p = disk st.1.1 !! p.
Proof.
  intros Hp1 Hp2 Hp3. destruct st as [[w self] ok]. unfold rename_step. simpl.
  destruct (path_exists w (old_path e)); simpl; [|done].
  destruct (path_exists w (new_path e) && _); simpl; [done|].
  assert (Hren : forall w1, disk w1 !! p = disk w !! p ->
    disk (match rename w1 (old_path e) (new_path e) with
          | Returned w2 => (w2, self, ok ++ [renamed_of e])
          | Raised exc => (w1, record_error self (ErrRename (old_name e) exc), ok)
          end).1.1 !! p = disk w !! p).
  { intros w1 Hw1. unfold rename.
    destruct (bool_decide (old_path e = new_path e)); simpl; [done|].
    destruct (_ || _); simpl; [done|].
    destruct (disk w1 !! old_path e); simpl; [|done].
    rewrite lookup_insert_ne, lookup_delete_ne by done. done. }
  destruct backup; [|by apply Hren].
  unfold copy2. destruct (stat w (old_path e)) as [[data|]|]; simpl; try done.
  destruct (disk w !! backup_folder) as [[|children]|]; simpl; try done.
  apply Hren. simpl. by rewrite lookup_insert_ne.
Qed.

Lemma rename_loop_disk_frame (backup : bool) (m : list (str * rename_info))
    (st : world * renamer * list renamed) (p : str) :
  Forall (fun item => p ≠ old_path item.2 /\ p ≠ new_path item.2) m ->
  p ≠ backup_folder ->
  disk (rename_loop backup m st).1.1 !! p = disk st.1.1 !! p.
Proof.
  intros Hm Hp. revert st. induction Hm as [|[k e] m [Ho Hn] Hm IH]; intros st; [done|].
  rewrite rename_loop_cons, IH. by apply rename_step_disk_frame.
Qed.

(** X14. [perform_renames] changes no child of the folder other than the
    old and new paths of the entries of the plan and the backup folder:
    every other child is after the call what it was before, whether the
    call returns or raises. *)
Theorem perform_renames_frame (backup : bool) (w : world) (self : renamer) (p : str) :
  Forall (fun item => p ≠ old_path item.2 /\ p ≠ new_path item.2) (rename_map self) ->
  p ≠ backup_folder ->
  disk (perform_renames backup w self).1.1 !! p = disk w !! p.
Proof.
  intros Hm Hp. unfold perform_renames.
  destruct (rename_map self) as [|item m] eqn:Hplan; [done|].
  destruct backup.
  - unfold mkdir_exist_ok.
    destruct (disk w !! backup_folder) as [[data|children]|] eqn:Hb; [done | |].
    + pose proof (rename_loop_disk_frame true (item :: m) (w, self, []) p Hm Hp) as Hf.
      destruct (rename_loop true (item :: m) (w, self, [])) as [[w2 self2] oks]. done.
    + pose proof (rename_loop_disk_frame true (item :: m)
                    (World (<[backup_folder := Dir ∅]> (disk w))
                           (journal w ++ [OpMkdir backup_folder]), self, []) p Hm Hp)
        as Hf.
      destruct (rename_loop true (item :: m) _) as [[w2 self2] oks]. simpl in *.
      by rewrite lookup_insert_ne in Hf.
  - pose proof (rename_loop_disk_frame false (item :: m) (w, self, []) p Hm Hp) as Hf.
    destruct (rename_loop false (item :: m) (w, self, [])) as [[w2 self2] oks]. done.
Qed.

(* ===================================================================== *)
(** * Further properties of the rewrite and of the run *)
(* ===================================================================== *)

Section RewriteMore.
Context `{UnicodeData} `{Parsers}.

Lemma update_index_cases (rs : list renamed) (w : world) (self : renamer) :
  ((update_index rs w self).1 = w
   /\ exists errs, (update_index rs w self).2 = with_errors self errs
                   /\ length errs <= 1)
  \/ exists data,
       disk w !! index_file = Some (File data)
       /\ update_index rs w self
          = (World (<[index_file := File (rewrite_index rs (universal_newlines data))]>
                      (disk w))
                   (journal w ++ [OpWrite index_file]), self).
Proof.
  destruct (read_text w index_file) as [content | exc] eqn:Hread.
  - right. destruct (read_text_file _ _ _ Hread) as (data & Hst & ->).
    exists data. split; [by apply stat_file_child | by apply update_index_world].
  - left. unfold update_index. rewrite Hread.
    destruct (path_exists w index_file); simpl.
    + split; [done|]. exists [ErrUpdateIndex exc]. split; [done | simpl; lia].
    + split; [done|]. exists []. split; [by rewrite with_errors_nil | simpl; lia].
Qed.

Lemma update_sitemap_cases (rs : list renamed) (w : world) (self : renamer) :
  exists errs,
    (update_sitemap rs w self).2 = with_errors self errs /\ length errs <= 1
    /\ ((update_sitemap rs w self).1 = w
        \/ exists data text,
             disk w !! sitemap_file = Some (File data)
             /\ (update_sitemap rs w self).1
                = World (<[sitemap_file := File text]> (disk w))
                        (journal w ++ [OpWrite sitemap_file])).
Proof.
  unfold update_sitemap, path_exists.
  destruct (read_file w sitemap_file) as [data | exc] eqn:Hread.
  - pose proof (read_file_file _ _ _ Hread) as Hst. rewrite Hst.
    pose proof (stat_file_child _ _ _ Hst) as Hdisk.
    destruct (ET_parse data) as [root|].
    2:{ exists [ErrUpdateSitemap ParseError]. split_and!; [done | simpl; lia | by left]. }
    destruct (rewrite_sitemap rs root) as [root' updated].
    destruct updated.
    2:{ exists []. split_and!; [by rewrite with_errors_nil | simpl; lia | by left]. }
    unfold write_text. rewrite Hdisk. simpl.
    exists []. split_and!; [by rewrite with_errors_nil | simpl; lia |].
    right. eauto.
  - destruct (stat w sitemap_file).
    + exists [ErrUpdateSitemap exc]. split_and!; [done | simpl; lia | by left].
    + exists []. split_and!; [by rewrite with_errors_nil | simpl; lia | by left].
Qed.

Lemma update_references_journal (rs : list renamed) (w : world) (self : renamer) :
  exists ops, journal (update_references rs w self).1 = journal w ++ ops
              /\ sublist ops [OpWrite index_file; OpWrite sitemap_file].
Proof.
  unfold update_references.
  destruct (update_index rs w self) as [w1 self1] eqn:Hidx.
  assert (H1 : exists ops, journal w1 = journal w ++ ops
                           /\ sublist ops [OpWrite index_file]).
  { destruct (update_index_cases rs w self) as [[Hw _] | (c & _ & Heq)];
      rewrite Hidx in *; simpl in *.
    - subst w1. exists []. split; [by rewrite app_nil_r | apply sublist_nil_l].
    - injection Heq as -> ->. simpl. eauto. }
  destruct H1 as (ops1 & Hj1 & Hs1).
  destruct (update_sitemap_cases rs w1 self1) as (_ & _ & _ & Hw2).
  assert (H2 : exists ops, journal (update_sitemap rs w1 self1).1 = journal w1 ++ ops
                           /\ sublist ops [OpWrite sitemap_file]).
  { destruct Hw2 as [-> | (data & text & _ & ->)]; simpl; [|eauto].
    exists []. split; [by rewrite app_nil_r | apply sublist_nil_l]. }
  destruct H2 as (ops2 & Hj2 & Hs2).
  exists (ops1 ++ ops2). split; [by rewrite Hj2, Hj1, (assoc_L (++))|].
  by apply (sublist_app ops1 [OpWrite index_file] ops2 [OpWrite sitemap_file]).
Qed.

(** X15. [update_references] touches the index and the sitemap only:
    every other child of the folder is as it was, and no file is created;
    the operations it adds to the journal are at most one write of the
    index and one write of the sitemap, in that order. It leaves the plan
    as it is and records at most two errors. *)
Theorem update_references_frame (rs : list renamed) (w : world) (self : renamer) :
  let r := update_references rs w self in
  (forall p, p ≠ index_file -> p ≠ sitemap_file -> disk r.1 !! p = disk w !! p)
  /\ (forall p, disk w !! p = None -> disk r.1 !! p = None)
  /\ (exists ops, journal r.1 = journal w ++ ops
                  /\ sublist ops [OpWrite index_file; OpWrite sitemap_file])
  /\ rename_map r.2 = rename_map self
  /\ exists errs, errors r.2 = errors self ++ errs /\ length errs <= 2.
Proof.
  intros r. subst r. unfold update_references.
  destruct (update_index rs w self) as [w1 self1] eqn:Hidx.
  assert (H1 : (forall p, p ≠ index_file -> disk w1 !! p = disk w !! p)
               /\ (forall p, disk w !! p = None -> disk w1 !! p = None)
               /\ (exists ops, journal w1 = journal w ++ ops
                               /\ sublist ops [OpWrite index_file])
               /\ exists errs, self1 = with_errors self errs /\ length errs <= 1).
  { destruct (update_index_cases rs w self) as [[Hw (errs & He & Hlen)] | (c & Hc & Heq)];
      rewrite Hidx in *; simpl in *.
    - subst w1. split_and!; [done | done | | eauto].
      exists []. split; [by rewrite app_nil_r | apply sublist_nil_l].
    - injection Heq as -> ->. simpl. split_and!.
      + intros p Hp. by rewrite lookup_insert_ne.
      + intros p Hp. rewrite lookup_insert_ne; [done | congruence].
      + eauto.
      + exists []. split; [by rewrite with_errors_nil | simpl; lia]. }
  destruct H1 as (Hf1 & Hn1 & (ops1 & Hj1 & Hs1) & (errs1 & -> & Hl1)).
  destruct (update_sitemap_cases rs w1 (with_errors self errs1))
    as (errs2 & He2 & Hl2 & Hw2).
  assert (H2 : (forall p, p ≠ sitemap_file ->
                  disk (update_sitemap rs w1 (with_errors self errs1)).1 !! p
                  = disk w1 !! p)
               /\ (forall p, disk w1 !! p = None ->
                     disk (update_sitemap rs w1 (with_errors self errs1)).1 !! p = None)
               /\ exists ops, journal (update_sitemap rs w1 (with_errors self errs1)).1
                              = journal w1 ++ ops
                              /\ sublist ops [OpWrite sitemap_file]).
  { destruct Hw2 as [-> | (data & text & Hd & ->)]; simpl.
    - split_and!; [done | done |].
      exists []. split; [by rewrite app_nil_r | apply sublist_nil_l].
    - split_and!.
      + intros p Hp. by rewrite lookup_insert_ne.
      + intros p Hp. rewrite lookup_insert_ne; [done | congruence].
      + eauto. }
  destruct H2 as (Hf2 & Hn2 & (ops2 & Hj2 & Hs2)).
  split_and!.
  - intros p Hp1 Hp2. rewrite Hf2, Hf1; done.
  - intros p Hp. by apply Hn2, Hn1.
  - exists (ops1 ++ ops2). split; [by rewrite Hj2, Hj1, (assoc_L (++))|].
    by apply (sublist_app ops1 [OpWrite index_file] ops2 [OpWrite sitemap_file]).
  - by rewrite He2.
  - rewrite He2. simpl. exists (errs1 ++ errs2).
    split; [by rewrite (assoc_L (++))|]. rewrite length_app. lia.
Qed.

(** X16. When the text read from the index holds no [href] attribute,
    in double or in single quotes, with the old name of a rename, the
    loop over the renames leaves that text as it is; the index file is
    written all the same, with the text read, in which every line ends in
    a line feed: the folder's files are as they were exactly when the
    index was stored as the text read, which is so when the stored text
    holds no carriage return. *)
Theorem rewrite_index_unlinked (rs : list renamed) (content : str) (w : world)
    (self : renamer) :
  Forall (fun r => contains (href_dq (r_old r)) content = false
                   /\ contains (href_sq (r_old r)) content = false) rs ->
  rewrite_index rs content = content
  /\ (read_text w index_file = Returned content ->
      let after := (update_index rs w self).1 in
      disk after = <[index_file := File content]> (disk w)
      /\ journal after = journal w ++ [OpWrite index_file]
      /\ (disk after = disk w <-> disk w !! index_file = Some (File content))
      /\ (forall data, stat w index_file = Some (File data) ->
             content = universal_newlines data
             /\ (13%N ∉ data -> disk after = disk w)
             /\ (13%N ∈ data -> disk after ≠ disk w))).
Proof.
  intros Hrs.
  assert (Hsame : rewrite_index rs content = content).
  { unfold rewrite_index. induction Hrs as [|r rs [Hd Hs] Hrs IH]; simpl; [done|].
    unfold rewrite_index_step at 2.
    rewrite (replace_absent _ _ _ Hd), (replace_absent _ _ _ Hs). done. }
  split; [done|]. intros Hread after. subst after.
  rewrite (update_index_world rs w self content Hread), Hsame. simpl.
  assert (Hiff : <[index_file := File content]> (disk w) = disk w
                 <-> disk w !! index_file = Some (File content)).
  { split; [|apply insert_id]. intros Heq. rewrite <- Heq. apply lookup_insert_eq. }
  split_and!; [done | done | exact Hiff |].
  intros data Hst. rewrite (read_text_stat _ _ _ Hst) in Hread.
  injection Hread as <-. pose proof (stat_file_child _ _ _ Hst) as Hdisk.
  split_and!; [done | |].
  - intros Hno. apply Hiff. by rewrite universal_newlines_plain.
  - intros Hcr Heq. apply Hiff in Heq. rewrite Hdisk in Heq. injection Heq as Heq.
    apply (universal_newlines_no_cr data). by rewrite <- Heq.
Qed.

End RewriteMore.

(** The operations that write a document, and those that make a backup. *)
Definition is_write (op : fs_op) : bool :=
  match op with OpWrite _ => true | _ => false end.

Definition is_backup (op : fs_op) : bool :=
  match op with OpMkdir _ | OpCopy _ _ _ => true | _ => false end.

(** What [perform_renames(backup)] may do. *)
Definition rename_op (backup : bool) (op : fs_op) : bool :=
  match op with
  | OpRename _ _ => true
  | OpMkdir _ | OpCopy _ _ _ => backup
  | OpWrite _ => false
  end.

Lemma rename_step_ops (backup : bool) (e : rename_info)
    (st : world * renamer * list renamed) :
  exists ops, journal (rename_step backup e st).1.1 = journal st.1.1 ++ ops
              /\ forallb (rename_op backup) ops = true.
Proof.
  destruct st as [[w self] ok]. unfold rename_step. simpl.
  assert (Hsame : exists ops, journal w = journal w ++ ops
                              /\ forallb (rename_op backup) ops = true)
    by (exists []; by rewrite app_nil_r).
  destruct (path_exists w (old_path e)); simpl; [|done].
  destruct (path_exists w (new_path e) && _); simpl; [done|].
  assert (Hren : forall w1,
    (exists ops, journal w1 = journal w ++ ops
                 /\ forallb (rename_op backup) ops = true) ->
    exists ops,
      journal (match rename w1 (old_path e) (new_path e) with
               | Returned w2 => (w2, self, ok ++ [renamed_of e])
               | Raised exc => (w1, record_error self (ErrRename (old_name e) exc), ok)
               end).1.1 = journal w ++ ops
      /\ forallb (rename_op backup) ops = true).
  { intros w1 (ops & Hops & Hall). unfold rename.
    destruct (bool_decide (old_path e = new_path e)); simpl; [eauto|].
    destruct (_ || _); simpl; [eauto|].
    destruct (disk w1 !! old_path e); simpl; [|eauto].
    exists (ops ++ [OpRename (old_path e) (new_path e)]).
    rewrite Hops, <- (assoc_L (++)), forallb_app, Hall. done. }
  destruct backup; [|by apply Hren].
  unfold copy2. destruct (stat w (old_path e)) as [[data|]|]; simpl; try done.
  destruct (disk w !! backup_folder) as [[|children]|]; simpl; try done.
  apply Hren. simpl. eauto.
Qed.

Lemma rename_loop_ops (backup : bool) (m : list (str * rename_info))
    (st : world * renamer * list renamed) :
  exists ops, journal (rename_loop backup m st).1.1 = journal st.1.1 ++ ops
              /\ forallb (rename_op backup) ops = true.
Proof.
  revert st. induction m as [|[k e] m IH]; intros st.
  - exists []. by rewrite app_nil_r.
  - rewrite rename_loop_cons.
    destruct (IH (rename_step backup e st)) as (ops2 & -> & H2).
    destruct (rename_step_ops backup e st) as (ops1 & -> & H1).
    exists (ops1 ++ ops2). by rewrite <- (assoc_L (++)), forallb_app, H1, H2.
Qed.

Lemma perform_renames_ops (backup : bool) (w : world) (self : renamer) :
  exists ops, journal (perform_renames backup w self).1.1 = journal w ++ ops
              /\ forallb (rename_op backup) ops = true.
Proof.
  unfold perform_renames.
  destruct (rename_map self) as [|item m]; [exists []; by rewrite app_nil_r|].
  assert (Hloop : forall w1,
    (exists ops, journal w1 = journal w ++ ops
                 /\ forallb (rename_op backup) ops = true) ->
    exists ops,
      journal (let '(w2, self2, oks) := rename_loop backup (item :: m) (w1, self, []) in
               (w2, self2, Returned (Some oks))).1.1 = journal w ++ ops
      /\ forallb (rename_op backup) ops = true).
  { intros w1 (ops1 & Hj1 & H1).
    destruct (rename_loop_ops backup (item :: m) (w1, self, [])) as (ops2 & Hj2 & H2).
    destruct (rename_loop backup (item :: m) (w1, self, [])) as [[w2 self2] oks].
    simpl in *. exists (ops1 ++ ops2).
    by rewrite Hj2, Hj1, <- (assoc_L (++)), forallb_app, H1, H2. }
  destruct backup.
  - unfold mkdir_exist_ok. destruct (disk w !! backup_folder) as [[data|children]|].
    + exists []. by rewrite app_nil_r.
    + apply Hloop. exists []. by rewrite app_nil_r.
    + apply Hloop. simpl. eauto.
  - apply Hloop. exists []. by rewrite app_nil_r.
Qed.

Section RunMore.
Context `{UnicodeData} `{Parsers} {hash_order : HashOrder}.

Lemma update_references_ops (rs : list renamed) (w : world) (self : renamer) :
  exists ops, journal (update_references rs w self).1 = journal w ++ ops
              /\ forallb is_write ops = true.
Proof.
  destruct (update_references_journal rs w self) as (ops & Hj & Hsub).
  exists ops. split; [done|].
  apply forallb_forall. intros op Hop. apply list_elem_of_In in Hop.
  eapply elem_of_sublist in Hop; [|exact Hsub].
  apply elem_of_cons in Hop as [-> | Hop]; [done|].
  apply list_elem_of_singleton in Hop as ->. done.
Qed.

(** X17. [run()] changes nothing before it has asked: with no answer on
    the standard input, or with a first answer other than [s], [sim], [y]
    or [yes], the folder is as it was. Whatever the answers, every
    operation of the run comes after a first answer that says yes; a
    backup folder or a backup copy is made only when the second answer
    says yes too, and a document is written only when the third answer
    says yes. *)
Theorem run_asks_first (stdin : list str) (w : world) :
  let r := run stdin w init in
  (stdin = [] -> r.1.1 = w)
  /\ (forall a rest, stdin = a :: rest -> says_yes a = false ->
        r.1.1 = w /\ r.2 = None)
  /\ exists ops,
       journal r.1.1 = journal w ++ ops
       /\ forall op, op ∈ ops ->
            exists a b rest,
              stdin = a :: b :: rest /\ says_yes a = true
              /\ (is_backup op = true -> says_yes b = true)
              /\ (is_write op = true ->
                  exists c rest', rest = c :: rest' /\ says_yes c = true).
Proof.
  intros r. subst r. unfold run.
  assert (Hnone :
    exists ops : list fs_op,
      journal w = journal w ++ ops
      /\ forall op, op ∈ ops ->
           exists a b rest,
             stdin = a :: b :: rest /\ says_yes a = true
             /\ (is_backup op = true -> says_yes b = true)
             /\ (is_write op = true ->
                 exists c rest', rest = c :: rest' /\ says_yes c = true)).
  { exists []. split; [by rewrite app_nil_r|].
    intros op Hop. by apply elem_of_nil in Hop. }
  destruct (rename_map (planned w init)) as [|item m] eqn:Hplan.
  { split_and!; [done | done | exact Hnone]. }
  destruct stdin as [|a stdin]; simpl.
  { split_and!; [done | intros; discriminate | exact Hnone]. }
  destruct (says_yes a) eqn:Ha; simpl.
  2:{ split_and!; [done | done | exact Hnone]. }
  split; [done|]. split; [intros a' rest [= <- <-]; congruence|].
  destruct stdin as [|b stdin]; simpl; [exact Hnone|].
  destruct (perform_renames_ops (says_yes b) w (planned w init)) as (ops1 & Hj1 & H1).
  rewrite forallb_forall in H1.
  assert (Hops1 : forall op, op ∈ ops1 ->
    exists a0 b0 rest,
      a :: b :: stdin = a0 :: b0 :: rest /\ says_yes a0 = true
      /\ (is_backup op = true -> says_yes b0 = true)
      /\ (is_write op = true ->
          exists c rest', rest = c :: rest' /\ says_yes c = true)).
  { intros op Hop. exists a, b, stdin. split_and!; [done | done | |].
    - intros Hb. apply list_elem_of_In, H1 in Hop.
      destruct op; simpl in *; congruence.
    - intros Hw. apply list_elem_of_In, H1 in Hop.
      destruct op; simpl in *; congruence. }
  destruct (perform_renames (says_yes b) w (planned w init))
    as [[w1 self1] [[[|r rs]|]|exc]]; simpl in *; try (exists ops1; by split).
  destruct stdin as [|c stdin]; simpl; [exists ops1; by split|].
  destruct (says_yes c) eqn:Hc; simpl; [|exists ops1; by split].
  destruct (update_references_ops (r :: rs) w1 self1) as (ops2 & Hj2 & H2).
  rewrite forallb_forall in H2.
  destruct (update_references (r :: rs) w1 self1) as [w2 self2]. simpl in *.
  exists (ops1 ++ ops2). split; [by rewrite Hj2, Hj1, (assoc_L (++))|].
  intros op [Hop | Hop]%elem_of_app; [by apply Hops1|].
  exists a, b, (c :: stdin). split_and!; [done | done | | eauto].
  intros Hb. apply list_elem_of_In, H2 in Hop. destruct op; simpl in *; congruence.
Qed.

End RunMore.

(* ===================================================================== *)
(** * Properties of [update_files] *)
(* ===================================================================== *)

Lemma endswith_app (a suf : str) : endswith (a ++ suf) suf = true.
Proof. unfold endswith. rewrite rev_app_distr. apply startswith_app. Qed.

Lemma backup_path_neq (f : str) : Cleaner.backup_path f ≠ f.
Proof.
  unfold Cleaner.backup_path. intros Heq. apply (f_equal length) in Heq.
  rewrite length_app in Heq. change (length (py ".backup")) with 7 in Heq. lia.
Qed.

Lemma backup_path_inj (f g : str) :
  Cleaner.backup_path f = Cleaner.backup_path g -> f = g.
Proof. unfold Cleaner.backup_path. apply app_inv_tail. Qed.

Lemma backup_path_child (f : str) :
  Cleaner.backup_path f ≠ [] /\ Cleaner.backup_path f ≠ [c_dot; c_dot].
Proof.
  unfold Cleaner.backup_path. split; intros Heq; apply (f_equal length) in Heq;
    rewrite length_app in Heq; change (length (py ".backup")) with 7 in Heq;
    simpl in Heq; lia.
Qed.

(** What [files_to_update[file_path].append(link)] does to each item. *)
Definition appended (file_path : str) (link : Cleaner.cleaned_link)
    (item : str * list Cleaner.cleaned_link) : str * list Cleaner.cleaned_link :=
  if bool_decide (item.1 = file_path) then (item.1, item.2 ++ [link]) else item.

Lemma appended_other (file_path : str) (link : Cleaner.cleaned_link)
    (g : list (str * list Cleaner.cleaned_link)) :
  file_path ∉ g.*1 -> appended file_path link <$> g = g.
Proof.
  induction g as [|[k links] g IH]; [done|]. rewrite fmap_cons, not_elem_of_cons.
  intros [Hk Hg]. rewrite fmap_cons, IH by done. unfold appended. simpl in *.
  rewrite bool_decide_eq_false_2; [done | congruence].
Qed.

Lemma dict_append_spec (file_path : str) (link : Cleaner.cleaned_link)
    (g : list (str * list Cleaner.cleaned_link)) :
  NoDup g.*1 -> Cleaner.dict_append file_path link g = appended file_path link <$> g.
Proof.
  induction g as [|[k links] g IH]; [done|]. rewrite fmap_cons, NoDup_cons.
  intros [Hk Hg]. rewrite fmap_cons. unfold appended at 1. simpl.
  destruct (bool_decide_reflect (k = file_path)) as [-> | Hne].
  - by rewrite appended_other.
  - by rewrite IH.
Qed.

Lemma appended_keys (file_path : str) (link : Cleaner.cleaned_link)
    (g : list (str * list Cleaner.cleaned_link)) :
  (appended file_path link <$> g).*1 = g.*1.
Proof.
  induction g as [|[k links] g IH]; [done|]. rewrite !fmap_cons, IH. f_equal.
  unfold appended. simpl. by destruct (bool_decide _).
Qed.

Lemma links_of_snoc (f : str) (l : list Cleaner.cleaned_link) (x : Cleaner.cleaned_link) :
  links_of f (l ++ [x])
  = links_of f l
    ++ (if Cleaner.needs_update x && bool_decide (Cleaner.file x = f) then [x] else []).
Proof. unfold links_of. by rewrite List.filter_app. Qed.

Lemma links_of_elem (f : str) (l : list Cleaner.cleaned_link) :
  links_of f l ≠ [] ->
  exists x, x ∈ l /\ Cleaner.needs_update x = true /\ Cleaner.file x = f.
Proof.
  destruct (links_of f l) as [|x r] eqn:Hl; [done|]. intros _.
  assert (Hx : x ∈ links_of f l) by (rewrite Hl; left).
  apply list_elem_of_In, filter_In in Hx as [Hx Hc].
  apply andb_true_iff in Hc as [Hn Hf]. apply bool_decide_eq_true in Hf.
  exists x. by rewrite <- list_elem_of_In in Hx.
Qed.

Lemma links_of_nonempty (f : str) (l : list Cleaner.cleaned_link)
    (x : Cleaner.cleaned_link) :
  x ∈ l -> Cleaner.needs_update x = true -> Cleaner.file x = f -> links_of f l ≠ [].
Proof.
  intros Hx Hn Hf Hnil.
  assert (Hin : x ∈ links_of f l).
  { apply list_elem_of_In, filter_In. split; [by apply list_elem_of_In|].
    rewrite Hn. simpl. by apply bool_decide_eq_true. }
  rewrite Hnil in Hin. by apply elem_of_nil in Hin.
Qed.

(** The dictionary [files_to_update] after the first loop of
    [update_files]: one item per file with a link that needs an update,
    holding the links of that file that need an update, in order. *)
Definition groups_of (l : list Cleaner.cleaned_link)
    (g : list (str * list Cleaner.cleaned_link)) : Prop :=
  NoDup g.*1
  /\ Forall (fun item => item.2 = links_of item.1 l /\ item.2 ≠ []) g
  /\ forall f, links_of f l ≠ [] -> f ∈ g.*1.

Lemma group_links_spec (l : list Cleaner.cleaned_link) :
  groups_of l (fold_left Cleaner.group_link l []).
Proof.
  induction l as [|x l IH] using rev_ind.
  { split_and!; [constructor | constructor | done]. }
  rewrite fold_left_app. simpl.
  destruct IH as (Hnd & Hall & Hkeys). set (g := fold_left Cleaner.group_link l []) in *.
  unfold Cleaner.group_link.
  destruct (Cleaner.needs_update x) eqn:Hx.
  2:{ split_and!; [done | |].
      - eapply Forall_impl; [exact Hall|]. intros item [Hi Hne].
        rewrite links_of_snoc, Hx, app_nil_r. done.
      - intros f. rewrite links_of_snoc, Hx, app_nil_r. apply Hkeys. }
  assert (Hstep : forall item : str * list Cleaner.cleaned_link,
            item.2 = links_of item.1 l ->
            (appended (Cleaner.file x) x item).2
            = links_of (appended (Cleaner.file x) x item).1 (l ++ [x])
            /\ (item.2 ≠ [] \/ item.1 = Cleaner.file x ->
                (appended (Cleaner.file x) x item).2 ≠ [])).
  { intros [k links] Hi. simpl in Hi. unfold appended. simpl.
    destruct (bool_decide_reflect (k = Cleaner.file x)) as [-> | Hne]; simpl.
    - rewrite links_of_snoc, Hx, bool_decide_eq_true_2 by done. simpl.
      split; [by rewrite Hi|]. intros _. by destruct links.
    - rewrite links_of_snoc, Hx, (bool_decide_eq_false_2 (Cleaner.file x = k))
        by congruence.
      simpl. rewrite app_nil_r. split; [done|]. intros [? | ?]; congruence. }
  destruct (Renamer.dict_mem (Cleaner.file x) g) eqn:Hmem; simpl.
  - rewrite dict_append_spec by done. split_and!.
    + by rewrite appended_keys.
    + apply Forall_fmap. eapply Forall_impl; [exact Hall|].
      intros item [Hi Hne]. simpl. destruct (Hstep item Hi) as [H1 H2]. auto.
    + intros f Hf. rewrite appended_keys.
      rewrite links_of_snoc, Hx in Hf. simpl in Hf.
      destruct (bool_decide_reflect (Cleaner.file x = f)) as [Heq | Hne].
      * rewrite <- Heq. by apply dict_mem_keys.
      * rewrite app_nil_r in Hf. by apply Hkeys.
  - assert (Hnin : Cleaner.file x ∉ g.*1).
    { intros Hin. apply dict_mem_keys in Hin. congruence. }
    assert (Hnone : links_of (Cleaner.file x) l = []).
    { destruct (links_of (Cleaner.file x) l) as [|y r] eqn:Hl; [done|].
      exfalso. apply Hnin, Hkeys. by rewrite Hl. }
    rewrite dict_set_absent by done.
    assert (Hnd' : NoDup (g ++ [(Cleaner.file x, [])]).*1).
    { rewrite fmap_app. apply NoDup_app. split_and!; [done | | apply NoDup_singleton].
      intros k Hk ->%list_elem_of_singleton. done. }
    rewrite dict_append_spec by done. split_and!.
    + by rewrite appended_keys.
    + apply Forall_fmap, Forall_app. split.
      * eapply Forall_impl; [exact Hall|].
        intros item [Hi Hne]. simpl. destruct (Hstep item Hi) as [H1 H2]. auto.
      * constructor; [|constructor]. simpl.
        destruct (Hstep (Cleaner.file x, []) (eq_sym Hnone)) as [H1 H2]. auto.
    + intros f Hf. rewrite appended_keys, fmap_app, elem_of_app.
      rewrite links_of_snoc, Hx in Hf. simpl in Hf.
      destruct (bool_decide_reflect (Cleaner.file x = f)) as [Heq | Hne].
      * right. rewrite <- Heq. left.
      * left. rewrite app_nil_r in Hf. by apply Hkeys.
Qed.

Lemma update_file_frame (backup : bool) (w : world) (f : str)
    (links : list Cleaner.cleaned_link) (p : str) :
  p ≠ f -> (backup = true -> p ≠ Cleaner.backup_path f) ->
  disk (Cleaner.update_file backup w f links) !! p = disk w !! p.
Proof.
  intros Hp Hb. unfold Cleaner.update_file.
  assert (Hrest : forall w1, disk w1 !! p = disk w !! p ->
    disk (match read_text w1 f with
          | Raised _ => w1
          | Returned content =>
              match write_text w1 f (Cleaner.replace_links links content) with
              | Raised _ => w1
              | Returned w2 => w2
              end
          end) !! p = disk w !! p).
  { intros w1 Hw1. destruct (read_text w1 f) as [content|]; [|done].
    unfold write_text. destruct (disk w1 !! f) as [[|]|]; simpl; try done;
      by rewrite lookup_insert_ne. }
  destruct backup; [|by apply Hrest].
  specialize (Hb eq_refl).
  destruct (read_text w f) as [data|]; [|done].
  unfold write_text.
  destruct (disk w !! Cleaner.backup_path f) as [[|]|]; simpl; try done;
    apply Hrest; simpl; by rewrite lookup_insert_ne.
Qed.

Lemma update_file_effect (backup : bool) (w : world) (f : str)
    (links : list Cleaner.cleaned_link) (data : str) :
  stat w f = Some (File data) ->
  (backup = true ->
   forall children, disk w !! Cleaner.backup_path f ≠ Some (Dir children)) ->
  disk (Cleaner.update_file backup w f links) !! f
  = Some (File (Cleaner.replace_links links (universal_newlines data)))
  /\ (backup = true ->
      disk (Cleaner.update_file backup w f links) !! Cleaner.backup_path f
      = Some (File (universal_newlines data))).
Proof.
  intros Hst Hb. pose proof (stat_file _ _ _ Hst) as (Hf1 & Hf2 & Hdisk).
  unfold Cleaner.update_file.
  pose proof (read_text_stat _ _ _ Hst) as Hread.
  destruct backup.
  - rewrite Hread.
    set (w1 := World (<[Cleaner.backup_path f := File (universal_newlines data)]> (disk w))
                     (journal w ++ [OpWrite (Cleaner.backup_path f)])).
    assert (Hw : write_text w (Cleaner.backup_path f) (universal_newlines data)
                 = Returned w1).
    { unfold write_text. specialize (Hb eq_refl).
      destruct (disk w !! Cleaner.backup_path f) as [[|children]|]; try done.
      by destruct (Hb children). }
    rewrite Hw.
    assert (Hdisk1 : disk w1 !! f = Some (File data)).
    { simpl. rewrite lookup_insert_ne; [done | apply backup_path_neq]. }
    assert (Hread1 : read_text w1 f = Returned (universal_newlines data)).
    { apply read_text_stat. by rewrite stat_child, Hdisk1. }
    rewrite Hread1. unfold write_text. rewrite Hdisk1. simpl.
    split; [by rewrite lookup_insert_eq|]. intros _.
    rewrite lookup_insert_ne, lookup_insert_eq; [done|].
    intros Heq. by apply (backup_path_neq f).
  - rewrite Hread. unfold write_text. rewrite Hdisk. simpl.
    split; [by rewrite lookup_insert_eq | done].
Qed.

Lemma update_loop_frame (backup : bool) (g : list (str * list Cleaner.cleaned_link))
    (w : world) (p : str) :
  Forall (fun item => p ≠ item.1 /\ (backup = true -> p ≠ Cleaner.backup_path item.1)) g ->
  disk (fold_left (fun w item => Cleaner.update_file backup w item.1 item.2) g w) !! p
  = disk w !! p.
Proof.
  intros Hg. revert w. induction Hg as [|[k links] g [Hk Hb] Hg IH]; intros w; [done|].
  simpl. rewrite IH. by apply update_file_frame.
Qed.

Lemma groups_key_link (l : list Cleaner.cleaned_link)
    (g : list (str * list Cleaner.cleaned_link)) (k : str) :
  groups_of l g -> k ∈ g.*1 ->
  exists x, x ∈ l /\ Cleaner.needs_update x = true /\ Cleaner.file x = k.
Proof.
  intros (_ & Hall & _) Hk. apply list_elem_of_fmap in Hk as ([k' links] & -> & Hin).
  rewrite Forall_forall in Hall. destruct (Hall _ Hin) as [Hi Hne]. simpl in *.
  apply links_of_elem. by rewrite <- Hi.
Qed.

Section UpdateFiles.
Context `{UnicodeData} `{Parsers}.

(** X18. [update_files] changes no child of the folder other than the
    files in which a link that needs an update was found and, with
    backups on, their [.backup] copies. *)
Theorem update_files_frame (backup : bool) (w : world) (self : Cleaner.cleaner)
    (p : str) :
  (forall l, l ∈ Cleaner.cleaned_links self -> Cleaner.needs_update l = true ->
             p ≠ Cleaner.file l
             /\ (backup = true -> p ≠ Cleaner.backup_path (Cleaner.file l))) ->
  disk (Cleaner.update_files backup w self) !! p = disk w !! p.
Proof.
  intros Hp. unfold Cleaner.update_files.
  pose proof (group_links_spec (Cleaner.cleaned_links self)) as Hg.
  apply update_loop_frame. apply Forall_forall. intros [k links] Hin. simpl.
  destruct (groups_key_link _ _ k Hg) as (x & Hx & Hn & <-).
  { apply list_elem_of_fmap. by exists (k, links). }
  by apply Hp.
Qed.

(** X19. When no link needs an update, [update_files] leaves the folder
    as it is: no file is rewritten and no backup is made. *)
Theorem update_files_noop (backup : bool) (w : world) (self : Cleaner.cleaner) :
  Forall (fun l => Cleaner.needs_update l = false) (Cleaner.cleaned_links self) ->
  Cleaner.update_files backup w self = w.
Proof.
  intros Hall. unfold Cleaner.update_files.
  pose proof (group_links_spec (Cleaner.cleaned_links self)) as Hg.
  destruct (fold_left Cleaner.group_link (Cleaner.cleaned_links self) [])
    as [|[k links] g]; [done|].
  destruct (groups_key_link _ _ k Hg ltac:(left)) as (x & Hx & Hn & _).
  rewrite Forall_forall in Hall. specialize (Hall x Hx). congruence.
Qed.

(** X20. A regular file [f] in which links that need an update were
    found holds, after [update_files], the text read from it with each of
    these links replaced in turn, in the order in which they were found,
    by its cleaned form (every occurrence of the link's text, wherever it
    is); with backups on, [f.backup] holds the text read from [f]. The
    text read is the stored text with every carriage return and line
    feed pair and every other carriage return turned into a line feed, so
    it is the stored text when this holds no carriage return. This
    assumes that no file to update has a name in [.backup], and with
    backups on that [f.backup] is not a directory. *)
Theorem update_files_effect (backup : bool) (w : world) (self : Cleaner.cleaner)
    (f data : str) :
  Forall (fun l => Cleaner.needs_update l = true ->
                   endswith (Cleaner.file l) (py ".backup") = false)
         (Cleaner.cleaned_links self) ->
  stat w f = Some (File data) ->
  links_of f (Cleaner.cleaned_links self) ≠ [] ->
  (backup = true ->
   forall children, disk w !! Cleaner.backup_path f ≠ Some (Dir children)) ->
  read_text w f = Returned (universal_newlines data)
  /\ disk (Cleaner.update_files backup w self) !! f
     = Some (File (Cleaner.replace_links (links_of f (Cleaner.cleaned_links self))
                     (universal_newlines data)))
  /\ (backup = true ->
      disk (Cleaner.update_files backup w self) !! Cleaner.backup_path f
      = Some (File (universal_newlines data)))
  /\ (13%N ∉ data ->
      disk (Cleaner.update_files backup w self) !! f
      = Some (File (Cleaner.replace_links (links_of f (Cleaner.cleaned_links self)) data))
      /\ (backup = true ->
          disk (Cleaner.update_files backup w self) !! Cleaner.backup_path f
          = Some (File data))).
Proof.
  intros Hends Hst Hlinks Hdir.
  split; [by apply read_text_stat|].
  cut (disk (Cleaner.update_files backup w self) !! f
       = Some (File (Cleaner.replace_links (links_of f (Cleaner.cleaned_links self))
                       (universal_newlines data)))
       /\ (backup = true ->
           disk (Cleaner.update_files backup w self) !! Cleaner.backup_path f
           = Some (File (universal_newlines data)))).
  { intros [Hfile Hcopy]. split_and!; [done | done |].
    intros Hno. rewrite (universal_newlines_plain _ Hno) in Hfile, Hcopy. done. }
  unfold Cleaner.update_files.
  pose proof (group_links_spec (Cleaner.cleaned_links self)) as Hg.
  set (l := Cleaner.cleaned_links self) in *.
  set (g := fold_left Cleaner.group_link l []) in *.
  pose proof Hg as (Hnd & Hall & Hkeys).
  pose proof (stat_file _ _ _ Hst) as (Hf1 & Hf2 & Hdisk).
  assert (Hnb : forall k, k ∈ g.*1 -> endswith k (py ".backup") = false).
  { intros k Hk. destruct (groups_key_link _ _ k Hg Hk) as (x & Hx & Hn & <-).
    rewrite Forall_forall in Hends. by apply Hends. }
  assert (Hkey : forall k f', k ∈ g.*1 -> k ≠ Cleaner.backup_path f').
  { intros k f' Hk ->. specialize (Hnb _ Hk). unfold Cleaner.backup_path in Hnb.
    by rewrite endswith_app in Hnb. }
  specialize (Hkeys f Hlinks).
  apply list_elem_of_fmap in Hkeys as ([k links] & Hk & Hin). simpl in Hk. subst k.
  apply list_elem_of_split in Hin as (pre & post & Hsplit).
  rewrite Forall_forall in Hall.
  destruct (Hall (f, links)) as [Hlinks_eq _].
  { rewrite Hsplit. apply elem_of_app. right. left. }
  simpl in Hlinks_eq. rewrite <- Hlinks_eq.
  assert (Hother : forall item, item ∈ pre ++ post ->
    (f ≠ item.1 /\ (backup = true -> f ≠ Cleaner.backup_path item.1))
    /\ (Cleaner.backup_path f ≠ item.1
        /\ (backup = true -> Cleaner.backup_path f ≠ Cleaner.backup_path item.1))).
  { intros [k links'] Hitem. simpl.
    assert (Hk : k ∈ g.*1).
    { apply list_elem_of_fmap. exists (k, links'). split; [done|].
      rewrite Hsplit. apply elem_of_app in Hitem as [? | ?].
      - apply elem_of_app. by left.
      - apply elem_of_app. right. by right. }
    assert (Hfg : f ∈ g.*1).
    { apply list_elem_of_fmap. exists (f, links). split; [done|].
      rewrite Hsplit. apply elem_of_app. right. left. }
    assert (Hfk : f ≠ k).
    { intros <-. rewrite Hsplit, fmap_app, fmap_cons in Hnd.
      apply NoDup_app in Hnd as (_ & Hdisj & Hpost).
      apply NoDup_cons in Hpost as [Hnin _].
      apply elem_of_app in Hitem as [Hpre | Hpost'].
      - apply (Hdisj f).
        + apply list_elem_of_fmap. by exists (f, links').
        + left.
      - apply Hnin. apply list_elem_of_fmap. by exists (f, links'). }
    split_and!; [done | | |].
    - intros _. by apply Hkey.
    - intros Heq. by apply (Hkey k f).
    - intros _ Heq. by apply backup_path_inj in Heq. }
  rewrite Hsplit, fold_left_app. simpl.
  set (w1 := fold_left (fun w item => Cleaner.update_file backup w item.1 item.2) pre w).
  assert (Hw1f : disk w1 !! f = disk w !! f).
  { apply update_loop_frame, Forall_forall. intros item Hitem.
    apply Hother, elem_of_app. by left. }
  assert (Hw1b : disk w1 !! Cleaner.backup_path f = disk w !! Cleaner.backup_path f).
  { apply update_loop_frame, Forall_forall. intros item Hitem.
    apply Hother, elem_of_app. by left. }
  assert (Hst1 : stat w1 f = Some (File data)).
  { rewrite stat_child by done. by rewrite Hw1f. }
  destruct (update_file_effect backup w1 f links data Hst1) as [Hfile Hcopy].
  { intros Hb children. rewrite Hw1b. by apply Hdir. }
  split.
  - rewrite update_loop_frame; [done|]. apply Forall_forall. intros item Hitem.
    apply Hother, elem_of_app. by right.
  - intros Hb. rewrite update_loop_frame; [by apply Hcopy|].
    apply Forall_forall. intros item Hitem. apply Hother, elem_of_app. by right.
Qed.

End UpdateFiles.

(* ===================================================================== *)
(** * Properties of [process_all_links] and of [main] *)
(* ===================================================================== *)

Section ProcessLinks.
Context `{UnicodeData} `{Parsers}.

Lemma fold_extend (w : world) (files : list str) (self : Cleaner.cleaner) :
  fold_left (fun self html_file =>
               if negb (bool_decide (html_file = Cleaner.index_file))
               then Cleaner.extend self (Cleaner.extract_links_from_html w html_file)
               else self) files self
  = Cleaner.Self (Cleaner.html_files self)
      (Cleaner.links_found self
         ++ flat_map (Cleaner.extract_links_from_html w)
              (List.filter (fun f => negb (bool_decide (f = Cleaner.index_file))) files))
      (Cleaner.cleaned_links self).
Proof.
  revert self. induction files as [|f files IH]; intros self; simpl.
  { rewrite app_nil_r. by destruct self. }
  rewrite IH. destruct (negb (bool_decide (f = Cleaner.index_file))); simpl; [|done].
  by rewrite <- (assoc_L (++)).
Qed.

Lemma fold_clean (links : list Cleaner.link) (self : Cleaner.cleaner) :
  fold_left (fun self link_data =>
               Cleaner.Self (Cleaner.html_files self) (Cleaner.links_found self)
                 (Cleaner.cleaned_links self ++ [Cleaner.clean_link link_data]))
            links self
  = Cleaner.Self (Cleaner.html_files self) (Cleaner.links_found self)
      (Cleaner.cleaned_links self ++ (Cleaner.clean_link <$> links)).
Proof.
  revert self. induction links as [|x links IH]; intros self; simpl.
  { rewrite app_nil_r. by destruct self. }
  rewrite IH. simpl. by rewrite <- (assoc_L (++)).
Qed.

(** After [process_all_links] on a new [LinkCleaner], the HTML files are
    the children of the folder with a name in [.html]; the links found
    are those of the index, then those of the sitemap, then those of the
    HTML files other than [index.html]; and the cleaned links are the
    links found, one for one. *)
Lemma process_all_links_eq (w : world) :
  let self := Cleaner.process_all_links w Cleaner.init in
  Cleaner.html_files self
  = List.filter (fun file => endswith file (py ".html")) (listdir w)
  /\ Cleaner.links_found self
     = (if path_exists w Cleaner.index_file
        then Cleaner.extract_links_from_html w Cleaner.index_file else [])
       ++ (if path_exists w Cleaner.sitemap_file
           then Cleaner.extract_links_from_sitemap w Cleaner.sitemap_file else [])
       ++ flat_map (Cleaner.extract_links_from_html w)
            (List.filter (fun f => negb (bool_decide (f = Cleaner.index_file)))
                         (Cleaner.html_files self))
  /\ Cleaner.cleaned_links self = Cleaner.clean_link <$> Cleaner.links_found self.
Proof.
  intros self. subst self. unfold Cleaner.process_all_links.
  rewrite fold_clean, fold_extend.
  destruct (path_exists w Cleaner.index_file), (path_exists w Cleaner.sitemap_file);
    simpl; rewrite ?app_nil_r; split_and!; try done;
    by rewrite <- ?(assoc_L (++)).
Qed.

Lemma html_links_elem (w : world) (f : str) (lk : Cleaner.link) :
  lk ∈ Cleaner.extract_links_from_html w f ->
  endswith (Cleaner.found_original lk) (py ".html") = true
  /\ Cleaner.found_file lk = f /\ Cleaner.found_type lk = Cleaner.html_link
  /\ exists data, read_text w f = Returned data.
Proof.
  unfold Cleaner.extract_links_from_html.
  destruct (read_text w f) as [content|]; [|by intros ?%elem_of_nil].
  intros Hin. apply list_elem_of_In, in_map_iff in Hin as (href & <- & Hin).
  apply filter_In in Hin as [_ Hc].
  apply andb_true_iff in Hc as [_ Hends]. simpl. eauto.
Qed.

Lemma sitemap_links_elem (f : str) (texts : list str) (lk : Cleaner.link) :
  lk ∈ Cleaner.sitemap_links f texts ->
  endswith (Cleaner.found_original lk) (py ".html") = true
  /\ Cleaner.found_file lk = f /\ Cleaner.found_type lk = Cleaner.sitemap_url.
Proof.
  unfold Cleaner.sitemap_links.
  intros Hin. apply list_elem_of_In, in_map_iff in Hin as (text & <- & Hin).
  apply filter_In in Hin as [_ Hc]. apply andb_true_iff in Hc as [_ Hends]. done.
Qed.

Lemma extract_sitemap_elem (w : world) (f : str) (lk : Cleaner.link) :
  lk ∈ Cleaner.extract_links_from_sitemap w f ->
  endswith (Cleaner.found_original lk) (py ".html") = true
  /\ Cleaner.found_file lk = f /\ Cleaner.found_type lk = Cleaner.sitemap_url
  /\ exists data, read_text w f = Returned data.
Proof.
  unfold Cleaner.extract_links_from_sitemap.
  destruct (read_file w f) as [data|] eqn:Hread; [|by intros ?%elem_of_nil].
  assert (Htext : exists text, read_text w f = Returned text).
  { exists (universal_newlines data). unfold read_text. by rewrite Hread. }
  destruct (ET_parse data) as [root|]; [|by intros ?%elem_of_nil].
  destruct (Cleaner.sitemap_links f (Renamer.loc_texts ns_loc_tag root)) as [|x r] eqn:Hns.
  - intros Hin. apply sitemap_links_elem in Hin as (? & ? & ?). eauto 10.
  - rewrite <- Hns. intros Hin. apply sitemap_links_elem in Hin as (? & ? & ?). eauto 10.
Qed.

Lemma found_links_elem (w : world) (lk : Cleaner.link) :
  lk ∈ Cleaner.links_found (Cleaner.process_all_links w Cleaner.init) ->
  endswith (Cleaner.found_original lk) (py ".html") = true
  /\ (Cleaner.found_type lk = Cleaner.sitemap_url
      <-> Cleaner.found_file lk = Cleaner.sitemap_file)
  /\ (Cleaner.found_file lk = Cleaner.sitemap_file
      \/ endswith (Cleaner.found_file lk) (py ".html") = true)
  /\ exists data, read_text w (Cleaner.found_file lk) = Returned data.
Proof.
  destruct (process_all_links_eq w) as (Hfiles & -> & _). rewrite Hfiles.
  assert (Hhtml : forall f, endswith f (py ".html") = true ->
            lk ∈ Cleaner.extract_links_from_html w f ->
            endswith (Cleaner.found_original lk) (py ".html") = true
            /\ (Cleaner.found_type lk = Cleaner.sitemap_url
                <-> Cleaner.found_file lk = Cleaner.sitemap_file)
            /\ (Cleaner.found_file lk = Cleaner.sitemap_file
                \/ endswith (Cleaner.found_file lk) (py ".html") = true)
            /\ exists data, read_text w (Cleaner.found_file lk) = Returned data).
  { intros f Hf Hin. apply html_links_elem in Hin as (Ho & Hfile & Htype & Hread).
    rewrite Hfile, Htype. split_and!; [done | | by right | done].
    split; [done|]. intros ->. vm_compute in Hf. discriminate. }
  rewrite !elem_of_app. intros [Hidx | [Hsm | Hrest]].
  - destruct (path_exists w Cleaner.index_file); [|by apply elem_of_nil in Hidx].
    by apply (Hhtml Cleaner.index_file).
  - destruct (path_exists w Cleaner.sitemap_file); [|by apply elem_of_nil in Hsm].
    apply extract_sitemap_elem in Hsm as (Ho & Hfile & Htype & Hread).
    rewrite Hfile, Htype. split_and!; [done | done | by left | done].
  - apply list_elem_of_In, in_flat_map in Hrest as (f & Hf & Hin).
    apply filter_In in Hf as [Hf _]. apply filter_In in Hf as [_ Hf].
    apply (Hhtml f Hf). by apply list_elem_of_In.
Qed.

(** X21. Every cleaned link that [process_all_links] records on a new
    [LinkCleaner] has an original text in [.html], found in a file of the
    folder that can be read, which is the sitemap exactly when the link
    is of type [sitemap_url] and has a name in [.html] otherwise; its
    cleaned text is [clean_url] of the original, and it needs an update
    exactly when the two differ. *)
Theorem cleaned_links_invariant (w : world) :
  Forall (fun l =>
            endswith (Cleaner.original l) (py ".html") = true
            /\ Cleaner.cleaned l = LinkCleaner.clean_url (Cleaner.original l)
            /\ (Cleaner.needs_update l = true <-> Cleaner.cleaned l ≠ Cleaner.original l)
            /\ (Cleaner.type l = Cleaner.sitemap_url
                <-> Cleaner.file l = Cleaner.sitemap_file)
            /\ (Cleaner.file l = Cleaner.sitemap_file
                \/ endswith (Cleaner.file l) (py ".html") = true)
            /\ exists data, read_text w (Cleaner.file l) = Returned data)
         (Cleaner.cleaned_links (Cleaner.process_all_links w Cleaner.init)).
Proof.
  destruct (process_all_links_eq w) as (_ & _ & ->).
  apply Forall_fmap, Forall_forall. intros lk Hlk.
  destruct (found_links_elem w lk Hlk) as (Ho & Ht & Hf & Hr).
  simpl. split_and!; try done.
  rewrite negb_true_iff, bool_decide_eq_false. split; congruence.
Qed.

End ProcessLinks.

(** The report file of [main()]. *)
Definition report_file : str := py "urls_limpas.txt".

Lemma write_text_cases (w : world) (p data : str) :
  (write_text w p data
   = Returned (World (<[p := File data]> (disk w)) (journal w ++ [OpWrite p]))
   /\ forall children, disk w !! p ≠ Some (Dir children))
  \/ (write_text w p data = Raised IsADirectoryError
      /\ exists children, disk w !! p = Some (Dir children)).
Proof.
  unfold write_text. destruct (disk w !! p) as [[|children]|]; eauto.
Qed.

Section MainMore.
Context `{UnicodeData} `{Parsers}.

Lemma cleaned_link_file (w : world) (l : Cleaner.cleaned_link) :
  l ∈ Cleaner.cleaned_links (Cleaner.process_all_links w Cleaner.init) ->
  Cleaner.file l = Cleaner.sitemap_file
  \/ endswith (Cleaner.file l) (py ".html") = true.
Proof.
  destruct (process_all_links_eq w) as (_ & _ & ->).
  intros (lk & -> & Hlk)%list_elem_of_fmap.
  destruct (found_links_elem w lk Hlk) as (_ & _ & Hf & _). done.
Qed.

Lemma update_files_untouched (backup : bool) (w1 : world) (self : Cleaner.cleaner)
    (p : str) :
  ~ Exists (fun l => Cleaner.needs_update l = true
                     /\ (p = Cleaner.file l
                         \/ (backup = true /\ p = Cleaner.backup_path (Cleaner.file l))))
           (Cleaner.cleaned_links self) ->
  disk (Cleaner.update_files backup w1 self) !! p = disk w1 !! p.
Proof.
  intros Hno. unfold Cleaner.update_files.
  pose proof (group_links_spec (Cleaner.cleaned_links self)) as Hg.
  apply update_loop_frame, Forall_forall. intros [k links] Hin. simpl.
  destruct (groups_key_link _ _ k Hg) as (x & Hx & Hn & <-).
  { apply list_elem_of_fmap. by exists (k, links). }
  split.
  - intros ->. apply Hno, Exists_exists. exists x. auto.
  - intros Hb ->. apply Hno, Exists_exists. exists x. auto.
Qed.

Lemma report_file_untouched (backup : bool) (w w1 : world) :
  disk (Cleaner.update_files backup w1 (Cleaner.process_all_links w Cleaner.init))
    !! report_file
  = disk w1 !! report_file.
Proof.
  apply update_files_untouched. intros (l & Hl & Hn & Hp)%Exists_exists.
  destruct (cleaned_link_file w l Hl) as [Hf | Hf].
  - rewrite Hf in Hp. destruct Hp as [Hp | [_ Hp]]; vm_compute in Hp; discriminate.
  - destruct Hp as [Hp | [_ Hp]].
    + rewrite <- Hp in Hf. vm_compute in Hf. discriminate.
    + pose proof (endswith_app (Cleaner.file l) (py ".backup")) as He.
      fold (Cleaner.backup_path (Cleaner.file l)) in He. rewrite <- Hp in He.
      vm_compute in He. discriminate.
Qed.

(** X22. When [main()] has processed a folder, the path given (or the
    current directory, for an empty answer) denotes that folder; the
    report [urls_limpas.txt] holds the report text of the links found,
    unless a directory of that name is in the way; and a child of the
    folder other than the report differs from what it was only if the
    answer to the second question says yes and the child is a file in
    which a link that needs an update was found, or the [.backup] copy of
    such a file when the answer to the third question says yes too. *)
Theorem main_asks_first (stdin : list str) (getcwd : str)
    (lookup : str -> Cleaner.target) (pasta : str) (w' : world) :
  (Cleaner.main stdin getcwd lookup).1 = Some (pasta, w') ->
  exists w,
    lookup pasta = Cleaner.Folder w
    /\ ((forall children, disk w !! report_file ≠ Some (Dir children)) ->
        disk w' !! report_file
        = Some (File (Cleaner.report_text
                        (Cleaner.cleaned_links
                           (Cleaner.process_all_links w Cleaner.init)))))
    /\ forall p,
         p ≠ report_file -> disk w' !! p ≠ disk w !! p ->
         exists line a b rest,
           stdin = line :: a :: b :: rest /\ Renamer.says_yes a = true
           /\ exists l,
                l ∈ Cleaner.cleaned_links (Cleaner.process_all_links w Cleaner.init)
                /\ Cleaner.needs_update l = true
                /\ (p = Cleaner.file l
                    \/ (Renamer.says_yes b = true
                        /\ p = Cleaner.backup_path (Cleaner.file l))).
Proof.
  unfold Cleaner.main. destruct stdin as [|line stdin]; simpl; [discriminate|].
  set (chosen := if bool_decide (strip_space line = []) then getcwd
                 else strip_space line).
  destruct (lookup chosen) as [| |w] eqn:Hlookup; [discriminate | discriminate |].
  set (cleaner := Cleaner.process_all_links w Cleaner.init).
  unfold Cleaner.save_cleaned_urls_file.
  destruct (write_text_cases w (py "urls_limpas.txt")
              (Cleaner.report_text (Cleaner.cleaned_links cleaner)))
    as [[-> Hfree] | [-> (children & Hdir)]].
  2:{ simpl. intros [= <- <-]. exists w. split_and!; [done | |].
      - intros Hno. by destruct (Hno children).
      - intros p _ Hp. done. }
  set (w1 := World _ _).
  assert (Hrep1 : disk w1 !! report_file
                  = Some (File (Cleaner.report_text (Cleaner.cleaned_links cleaner)))).
  { subst w1. simpl. apply lookup_insert_eq. }
  assert (Hframe1 : forall p, p ≠ report_file -> disk w1 !! p = disk w !! p).
  { intros p Hp. subst w1. simpl. by rewrite lookup_insert_ne. }
  assert (Hsame :
    exists w2,
      lookup chosen = Cleaner.Folder w2
      /\ ((forall children, disk w2 !! report_file ≠ Some (Dir children)) ->
          disk w1 !! report_file
          = Some (File (Cleaner.report_text
                          (Cleaner.cleaned_links
                             (Cleaner.process_all_links w2 Cleaner.init)))))
      /\ forall p,
           p ≠ report_file -> disk w1 !! p ≠ disk w2 !! p ->
           exists line0 a b rest,
             line :: stdin = line0 :: a :: b :: rest /\ Renamer.says_yes a = true
             /\ exists l,
                  l ∈ Cleaner.cleaned_links (Cleaner.process_all_links w2 Cleaner.init)
                  /\ Cleaner.needs_update l = true
                  /\ (p = Cleaner.file l
                      \/ (Renamer.says_yes b = true
                          /\ p = Cleaner.backup_path (Cleaner.file l)))).
  { exists w. split_and!; [done | done |].
    intros p Hp Hne. by rewrite Hframe1 in Hne. }
  destruct stdin as [|a stdin]; simpl.
  { intros [= <- <-]. exact Hsame. }
  destruct (Renamer.says_yes a) eqn:Ha; simpl.
  2:{ intros [= <- <-]. exact Hsame. }
  destruct stdin as [|b stdin]; simpl.
  { intros [= <- <-]. exact Hsame. }
  intros [= <- <-]. exists w. split_and!; [done | |].
  - intros _.
    etransitivity; [apply (report_file_untouched (Renamer.says_yes b) w w1) | exact Hrep1].
  - intros p Hp Hne. exists line, a, b, stdin. split_and!; [done | done |].
    destruct (decide (Exists (fun l => Cleaner.needs_update l = true
                 /\ (p = Cleaner.file l
                     \/ (Renamer.says_yes b = true
                         /\ p = Cleaner.backup_path (Cleaner.file l))))
               (Cleaner.cleaned_links cleaner))) as [Hex | Hno].
    + apply Exists_exists in Hex as (l & Hl & Hn & Hcase). eauto.
    + exfalso. apply Hne. rewrite update_files_untouched by done. by apply Hframe1.
Qed.

End MainMore.

(* ===================================================================== *)
(** * The further properties on concrete folders *)
(* ===================================================================== *)

Lemma demo_urlparse_total (url : str) : is_Some (Demo.urlparse_path url).
Proof.
  unfold Demo.urlparse_path. destruct (startswith _ _); [eauto|].
  destruct (startswith _ _); eauto.
Qed.

Lemma index_links_characterised_witness :
  path_exists one_page_folder index_file = false
  /\ extract_links_from_index one_page_folder init = ([], init)
  /\ read_text site_folder index_file
     = Returned (Demo.index_page [py "Página.html"; py "contato.html"; py "Página.html"])
  /\ (extract_links_from_index site_folder init).2 = init.
Proof.
  assert (H1 : path_exists one_page_folder index_file = false)
    by (vm_compute; reflexivity).
  assert (H2 : read_text site_folder index_file
     = Returned (Demo.index_page [py "Página.html"; py "contato.html"; py "Página.html"]))
    by (vm_compute; reflexivity).
  destruct (index_links_characterised one_page_folder init) as (_ & Hmissing & _).
  destruct (index_links_characterised site_folder init) as (_ & _ & _ & Hread).
  destruct (Hread _ H2) as [_ Hall].
  destruct Hall as [Hself _].
  { intros href _. apply demo_urlparse_total. }
  split_and!; [exact H1 | exact (Hmissing H1) | exact H2 | exact Hself].
Defined.

Lemma sitemap_links_characterised_witness :
  read_file site_folder sitemap_file = Returned Demo.sitemap_text
  /\ ET_parse Demo.sitemap_text = Some Demo.sitemap_tree
  /\ (extract_links_from_sitemap site_folder init).2 = init
  /\ path_exists one_page_folder sitemap_file = false
  /\ extract_links_from_sitemap one_page_folder init = ([], init).
Proof.
  assert (H1 : read_file site_folder sitemap_file = Returned Demo.sitemap_text)
    by (vm_compute; reflexivity).
  assert (H2 : ET_parse Demo.sitemap_text = Some Demo.sitemap_tree)
    by (vm_compute; reflexivity).
  assert (H3 : path_exists one_page_folder sitemap_file = false)
    by (vm_compute; reflexivity).
  destruct (sitemap_links_characterised site_folder init) as (_ & _ & _ & Hread).
  destruct (sitemap_links_characterised one_page_folder init) as (_ & Hmissing & _).
  destruct (Hread _ _ H1 H2) as [Hself _].
  { intros t _. apply demo_urlparse_total. }
  split_and!; [exact H1 | exact H2 | exact Hself | exact H3 | exact (Hmissing H3)].
Defined.

Lemma check_conflicts_characterised_witness :
  NoDup (new_names (rename_map three_entries))
  /\ check_conflicts three_entries = []
  /\ resolve_plan three_entries = three_entries.
Proof.
  assert (H1 : NoDup (new_names (rename_map three_entries)))
    by decide_by_computation.
  destruct (check_conflicts_characterised three_entries) as (Hiff & Hsame & _).
  split_and!; [exact H1 | exact (proj2 Hiff H1) | exact (Hsame H1)].
Defined.

(** A folder with a directory whose name ends in [.html]. *)
Definition directory_folder : world :=
  Demo.folder [ (py "Pasta.html", Dir ∅); (backup_folder, Dir ∅) ].

Lemma rename_step_directory_witness :
  disk directory_folder !! py "Pasta.html" = Some (Dir ∅)
  /\ path_exists directory_folder (py "pasta.html") = false
  /\ rename_step true (entry "Pasta.html" "pasta.html").2 (directory_folder, init, [])
     = (directory_folder,
        record_error init (ErrRename (py "Pasta.html") IsADirectoryError), []).
Proof.
  assert (H1 : disk directory_folder !! old_path (entry "Pasta.html" "pasta.html").2
               = Some (Dir ∅)) by (vm_compute; reflexivity).
  assert (H2 : path_exists directory_folder
                 (new_path (entry "Pasta.html" "pasta.html").2) = false)
    by (vm_compute; reflexivity).
  assert (H3 : old_path (entry "Pasta.html" "pasta.html").2 ≠ [])
    by (vm_compute; discriminate).
  assert (H4 : old_path (entry "Pasta.html" "pasta.html").2 ≠ [c_dot; c_dot])
    by (vm_compute; discriminate).
  destruct (rename_step_directory (entry "Pasta.html" "pasta.html").2 directory_folder
              init [] ∅ H3 H4 H1 H2) as [Herr _].
  split_and!; [exact H1 | exact H2 | exact Herr].
Defined.

Lemma perform_renames_result_witness :
  (perform_renames true two_pages_folder three_entries).2
  = Returned (Some [Renamed (py "A.html") (py "a.html") false;
                    Renamed (py "B.html") (py "b.html") false])
  /\ exists errs,
       errors (perform_renames true two_pages_folder three_entries).1.2
       = errors three_entries ++ errs
       /\ length errs + 2 = 3.
Proof.
  assert (H1 : (perform_renames true two_pages_folder three_entries).2
               = Returned (Some [Renamed (py "A.html") (py "a.html") false;
                                 Renamed (py "B.html") (py "b.html") false]))
    by (vm_compute; reflexivity).
  destruct (perform_renames_result true two_pages_folder three_entries)
    as (_ & _ & errs & Herrs & Hoks).
  destruct (Hoks _ H1) as [_ Hlen].
  split; [exact H1|]. exists errs. split; [exact Herrs | exact Hlen].
Defined.

Lemma perform_renames_frame_witness :
  Forall (fun item => py "pagina.html" ≠ old_path item.2
                      /\ py "pagina.html" ≠ new_path item.2) (rename_map lost_entry)
  /\ py "pagina.html" ≠ backup_folder
  /\ disk (perform_renames true site_folder lost_entry).1.1 !! py "pagina.html"
     = disk site_folder !! py "pagina.html".
Proof.
  assert (H1 : Forall (fun item => py "pagina.html" ≠ old_path item.2
                                   /\ py "pagina.html" ≠ new_path item.2)
                      (rename_map lost_entry)) by decide_by_computation.
  assert (H2 : py "pagina.html" ≠ backup_folder) by (vm_compute; discriminate).
  split_and!; [exact H1 | exact H2 |].
  exact (perform_renames_frame true site_folder lost_entry (py "pagina.html") H1 H2).
Defined.

Lemma update_references_frame_witness :
  py "contato.html" ≠ index_file
  /\ py "contato.html" ≠ sitemap_file
  /\ disk (update_references page_renamed site_folder init).1 !! py "contato.html"
     = disk site_folder !! py "contato.html".
Proof.
  assert (H1 : py "contato.html" ≠ index_file) by (vm_compute; discriminate).
  assert (H2 : py "contato.html" ≠ sitemap_file) by (vm_compute; discriminate).
  destruct (update_references_frame page_renamed site_folder init) as (Hframe & _).
  split_and!; [exact H1 | exact H2 | exact (Hframe _ H1 H2)].
Defined.

(** A folder whose index is stored with a carriage return and a line
    feed at the end of its line. *)
Definition dos_index (line_end : str) : str :=
  Demo.index_page [py "Página.html"] ++ line_end.

Definition dos_folder : world :=
  Demo.folder [ (py "index.html", File (dos_index [13%N; 10%N]));
                (py "pagina.html", Demo.page) ].

Lemma rewrite_index_unlinked_witness :
  Forall (fun r => contains (href_dq (r_old r)) (dos_index [10%N]) = false
                   /\ contains (href_sq (r_old r)) (dos_index [10%N]) = false)
         other_renamed
  /\ stat dos_folder index_file = Some (File (dos_index [13%N; 10%N]))
  /\ read_text dos_folder index_file = Returned (dos_index [10%N])
  /\ disk (update_index other_renamed dos_folder init).1
     = <[index_file := File (dos_index [10%N])]> (disk dos_folder)
  /\ disk (update_index other_renamed dos_folder init).1 ≠ disk dos_folder.
Proof.
  assert (H1 : Forall (fun r =>
            contains (href_dq (r_old r)) (dos_index [10%N]) = false
            /\ contains (href_sq (r_old r)) (dos_index [10%N]) = false) other_renamed)
    by decide_by_computation.
  assert (H2 : read_text dos_folder index_file = Returned (dos_index [10%N]))
    by (vm_compute; reflexivity).
  assert (H3 : stat dos_folder index_file = Some (File (dos_index [13%N; 10%N])))
    by (vm_compute; reflexivity).
  assert (H4 : 13%N ∈ dos_index [13%N; 10%N]).
  { unfold dos_index. apply elem_of_app. right. left. }
  destruct (rewrite_index_unlinked other_renamed _ dos_folder init H1) as [_ Hdisk].
  destruct (Hdisk H2) as (Hafter & _ & _ & Hstored).
  destruct (Hstored _ H3) as (_ & _ & Hchanged).
  split_and!; [exact H1 | exact H3 | exact H2 | exact Hafter | exact (Hchanged H4)].
Defined.

Lemma run_asks_first_witness :
  says_yes (py "n") = false
  /\ (run [] pair_folder init).1.1 = pair_folder
  /\ (run [py "n"; py "s"; py "s"] pair_folder init).1.1 = pair_folder.
Proof.
  assert (H1 : says_yes (py "n") = false) by (vm_compute; reflexivity).
  destruct (run_asks_first [] pair_folder) as (Hempty & _).
  destruct (run_asks_first [py "n"; py "s"; py "s"] pair_folder) as (_ & Hno & _).
  split_and!; [exact H1 | exact (Hempty eq_refl) |].
  exact (proj1 (Hno (py "n") [py "s"; py "s"] eq_refl H1)).
Defined.

(** The links of [site_folder], and a folder whose only link is clean. *)
Definition site_links : Cleaner.cleaner :=
  Cleaner.process_all_links site_folder Cleaner.init.

Definition plain_folder : world :=
  Demo.folder [ (py "index.html", File (Demo.index_page [py "pagina.html"]));
                (py "pagina.html", Demo.page) ].

Lemma update_files_frame_witness :
  Forall (fun l =>
            Cleaner.needs_update l = true ->
            py "contato.html" ≠ Cleaner.file l
            /\ (true = true -> py "contato.html" ≠ Cleaner.backup_path (Cleaner.file l)))
         (Cleaner.cleaned_links site_links)
  /\ disk (Cleaner.update_files true site_folder site_links) !! py "contato.html"
     = disk site_folder !! py "contato.html".
Proof.
  assert (H1 : Forall (fun l =>
            Cleaner.needs_update l = true ->
            py "contato.html" ≠ Cleaner.file l
            /\ (true = true -> py "contato.html" ≠ Cleaner.backup_path (Cleaner.file l)))
          (Cleaner.cleaned_links site_links)) by decide_by_computation.
  split; [exact H1|].
  apply (update_files_frame true site_folder site_links (py "contato.html")).
  intros l Hl. exact (proj1 (Forall_forall _ _) H1 l Hl).
Defined.

Lemma update_files_noop_witness :
  Forall (fun l => Cleaner.needs_update l = false)
         (Cleaner.cleaned_links (Cleaner.process_all_links plain_folder Cleaner.init))
  /\ Cleaner.update_files true plain_folder
       (Cleaner.process_all_links plain_folder Cleaner.init) = plain_folder.
Proof.
  assert (H1 : Forall (fun l => Cleaner.needs_update l = false)
         (Cleaner.cleaned_links (Cleaner.process_all_links plain_folder Cleaner.init)))
    by decide_by_computation.
  split; [exact H1|].
  exact (update_files_noop true plain_folder _ H1).
Defined.

Definition dos_links : Cleaner.cleaner :=
  Cleaner.process_all_links dos_folder Cleaner.init.

Lemma update_files_effect_witness :
  Forall (fun l => Cleaner.needs_update l = true ->
                   endswith (Cleaner.file l) (py ".backup") = false)
         (Cleaner.cleaned_links dos_links)
  /\ stat dos_folder (py "index.html") = Some (File (dos_index [13%N; 10%N]))
  /\ links_of (py "index.html") (Cleaner.cleaned_links dos_links) ≠ []
  /\ disk (Cleaner.update_files true dos_folder dos_links) !! py "index.html"
     = Some (File (Demo.index_page [py "pagina.html"] ++ [10%N]))
  /\ disk (Cleaner.update_files true dos_folder dos_links)
       !! Cleaner.backup_path (py "index.html")
     = Some (File (dos_index [10%N])).
Proof.
  assert (H1 : Forall (fun l => Cleaner.needs_update l = true ->
                         endswith (Cleaner.file l) (py ".backup") = false)
                      (Cleaner.cleaned_links dos_links)) by decide_by_computation.
  assert (H2 : stat dos_folder (py "index.html") = Some (File (dos_index [13%N; 10%N])))
    by (vm_compute; reflexivity).
  assert (H3 : links_of (py "index.html") (Cleaner.cleaned_links dos_links) ≠ [])
    by (vm_compute; discriminate).
  assert (H4 : true = true -> forall children,
            disk dos_folder !! Cleaner.backup_path (py "index.html")
            ≠ Some (Dir children)) by (intros _ children; vm_compute; discriminate).
  destruct (update_files_effect true dos_folder dos_links (py "index.html") _
              H1 H2 H3 H4) as (_ & Hfile & Hcopy & _).
  split_and!; [exact H1 | exact H2 | exact H3 | | ].
  - rewrite Hfile. vm_compute. reflexivity.
  - rewrite (Hcopy eq_refl). vm_compute. reflexivity.
Defined.

(** The one folder that the user can name, and what [main()] makes of
    it when the user declines the update. *)
Definition one_site (p : str) : Cleaner.target :=
  if bool_decide (p = py "site") then Cleaner.Folder site_folder else Cleaner.Missing.

Definition declined : option (str * world) * option exn :=
  Cleaner.main [py " site "; py "n"] (py "/") one_site.

Lemma main_asks_first_witness :
  declined.1
  = Some (py "site",
          match declined.1 with Some (_, w) => w | None => site_folder end)
  /\ exists w, one_site (py "site") = Cleaner.Folder w.
Proof.
  assert (H1 : declined.1
    = Some (py "site",
            match declined.1 with Some (_, w) => w | None => site_folder end))
    by (vm_compute; reflexivity).
  split; [exact H1|].
  destruct (main_asks_first [py " site "; py "n"] (py "/") one_site (py "site") _ H1)
    as (w & Hw & _).
  exists w. exact Hw.
Defined.

(* ===================================================================== *)
(** * [unquote] on a string without escape *)
(* ===================================================================== *)

(** Whether the string holds a [%] followed by two hexadecimal digits. *)
Fixpoint has_escape (s : str) : bool :=
  match s with
  | [] => false
  | c :: s' =>
      ((c =? c_percent)%N
       && match s' with
          | a :: b :: _ => is_hexdig a && is_hexdig b
          | _ => false
          end)
      || has_escape s'
  end.

Lemma has_escape_app (u v : str) :
  has_escape (u ++ v) = false -> has_escape u = false /\ has_escape v = false.
Proof.
  induction u as [|c u IH]; [done|].
  cbn [app has_escape]. intros [Hc Hrest]%orb_false_iff.
  destruct (IH Hrest) as [Hu Hv]. split; [|done].
  apply orb_false_iff. split; [|done].
  destruct (c =? c_percent)%N; [|done]. simpl in *.
  destruct u as [|a [|b u]]; done.
Qed.

Lemma utf8_decode_ascii (bs : list N) : forallb is_ascii bs = true -> utf8_decode bs = bs.
Proof.
  unfold utf8_decode. induction bs as [|b bs IH]; [done|].
  intros [Hb Hbs]%andb_true_iff. cbn [utf8_run utf8_step]. unfold utf8_lead.
  unfold is_ascii in Hb. rewrite Hb. simpl. by rewrite IH.
Qed.

Lemma unquote_to_bytes_plain (s : str) :
  has_escape s = false -> unquote_to_bytes s = s.
Proof.
  induction s as [|c s IH]; [done|].
  cbn [has_escape]. intros [Hc Hrest]%orb_false_iff. specialize (IH Hrest).
  destruct s as [|a [|b s]].
  - simpl. by destruct (c =? c_percent)%N.
  - cbn [unquote_to_bytes] in *. rewrite IH. by destruct (c =? c_percent)%N.
  - change (unquote_to_bytes (c :: a :: b :: s))
      with (if (c =? c_percent)%N
            then if is_hexdig a && is_hexdig b
                 then (16 * hex_value a + hex_value b)%N :: unquote_to_bytes s
                 else c :: unquote_to_bytes (a :: b :: s)
            else c :: unquote_to_bytes (a :: b :: s)).
    rewrite IH. destruct (c =? c_percent)%N; [|done]. simpl in Hc. by rewrite Hc.
Qed.

Lemma unquote_runs_plain (s run_rev : str) :
  forallb is_ascii run_rev = true ->
  has_escape (rev run_rev ++ s) = false ->
  unquote_runs run_rev s = rev run_rev ++ s.
Proof.
  revert run_rev. induction s as [|c s IH]; intros run_rev Hascii Hfree.
  - simpl. rewrite app_nil_r in *. rewrite unquote_to_bytes_plain by done.
    apply utf8_decode_ascii. rewrite forallb_forall in *. intros x Hx.
    apply Hascii. by apply in_rev.
  - cbn [unquote_runs]. destruct (is_ascii c) eqn:Hc.
    + rewrite IH; simpl; [by rewrite <- (assoc_L (++)) | by rewrite Hc |].
      by rewrite <- (assoc_L (++)).
    + destruct (has_escape_app _ _ Hfree) as [Hrun Hrest].
      cbn [has_escape] in Hrest. apply orb_false_iff in Hrest as [_ Hrest].
      rewrite unquote_to_bytes_plain by done.
      rewrite utf8_decode_ascii.
      * by rewrite (IH [] eq_refl Hrest).
      * rewrite forallb_forall in *. intros x Hx. apply Hascii. by apply in_rev.
Qed.

(** X23. [unquote] returns unchanged every string that holds no [%]
    followed by two hexadecimal digits, whatever other characters,
    percent signs included, it holds. *)
Theorem unquote_plain (s : str) : has_escape s = false -> unquote s = s.
Proof.
  intros Hfree. unfold unquote. destruct (negb _); [done|].
  by apply (unquote_runs_plain s []).
Qed.

Lemma unquote_plain_witness :
  has_escape (py "ação 100%.html") = false
  /\ unquote (py "ação 100%.html") = py "ação 100%.html".
Proof.
  assert (H1 : has_escape (py "ação 100%.html") = false) by (vm_compute; reflexivity).
  split; [exact H1 | exact (unquote_plain _ H1)].
Defined.

(** A plan of two entries for a folder that holds both sources and no
    backup folder yet. *)
Definition two_entries : renamer :=
  Self [] [entry "A.html" "a.html"; entry "B.html" "b.html"] [].

Definition ab_folder : world :=
  Demo.folder [ (py "A.html", Demo.page); (py "B.html", Demo.page) ].

Lemma perform_renames_succeeds_witness :
  rename_map two_entries ≠ []
  /\ NoDup (old_paths (rename_map two_entries))
  /\ NoDup (new_paths (rename_map two_entries))
  /\ Forall (applicable ab_folder (rename_map two_entries)) (rename_map two_entries)
  /\ (perform_renames true ab_folder two_entries).2
     = Returned (Some [Renamed (py "A.html") (py "a.html") false;
                       Renamed (py "B.html") (py "b.html") false])
  /\ Forall (applied true ab_folder (perform_renames true ab_folder two_entries).1.1)
            (rename_map two_entries).
Proof.
  assert (H1 : rename_map two_entries ≠ []) by done.
  assert (H2 : NoDup (old_paths (rename_map two_entries))) by decide_by_computation.
  assert (H3 : NoDup (new_paths (rename_map two_entries))) by decide_by_computation.
  assert (H4 : Forall (applicable ab_folder (rename_map two_entries))
                      (rename_map two_entries)).
  { repeat constructor; try (exists (py "<html></html>")); try (vm_compute; reflexivity);
      decide_by_computation. }
  assert (H5 : true = true ->
    (forall data, disk ab_folder !! backup_folder ≠ Some (File data))
    /\ Forall (fun item => new_path item.2 ≠ backup_folder) (rename_map two_entries)).
  { intros _. split; [intros data; vm_compute; discriminate | decide_by_computation]. }
  destruct (perform_renames_succeeds true ab_folder two_entries H1 H2 H3 H4 H5)
    as (_ & Hok & Hall).
  split_and!; [exact H1 | exact H2 | exact H3 | exact H4 | exact Hok | exact Hall].
Defined.
